(* ===== verification/_CoqProject ===== *)
-Q . S2P
Prelude.v
PyStr.v
Base64.v
Json.v
FileSys.v
Paths.v
Worker.v
Pool.v
Uploader.v
Generator.v
Converter.v
Rewriter.v
Schema.v
Pipeline.v
