(* ===== verification/Prelude.v ===== *)
(** * A verification development of the Fabric item tools

    The repository is four command-line scripts under [src/scripts/]; they
    share no runtime state and compose only through the file system (one
    tool's output directory is the next tool's input directory):

    - [generate_notebooks.py] writes [count] notebooks
      [notebook_<index:03d>.ipynb] built from a fixed template, then a zip
      of them;
    - [convert_to_fabric_items.py] reads every [*.ipynb] of a directory in
      sorted order, base64-encodes its bytes and a compact-JSON metadata
      blob whose display name carries the number parsed from the file name,
      and writes one [item_<stem>.json] per notebook, then a zip;
    - [update_items_with_template.py] optionally snapshots a directory to
      [<dir>_bak], overwrites every [item_*.json] (sorted order) with a
      fixed template whose only varying field is ["Notebook <rank>"], then
      zips the rewritten files;
    - [upload_items_to_fabric.py] POSTs every [*.json] of a directory to an
      HTTP endpoint: files in sorted order are cut into batches, each batch
      runs on a bounded thread pool, each file is retried on transport
      faults with a linear back-off, and batches are separated by a pause.

    ** Library layout (the order of [_CoqProject])

    - [Prelude] (this file): the Python exception type [exn] with its
      [str(e)], the result type [res] of code that may raise, its notation
      scope [py_scope] ([let? x := c in k]), the hint databases [pyfab] and
      [pyfab_simpl], the tactic [res_simpl], and generic lemmas on lists,
      options, results and counting.
    - [PyStr]: the pieces of the Python runtime the scripts call on strings
      and integers, written from CPython's documented behaviour: [str(int)],
      [format(i, "03d")], [str.split], [str.join], [int(str)], [list[-1]],
      [range], [PurePath.stem], the name test of [Path.glob], and
      [posixpath.join/dirname/basename]; round trips ([int(str(n)) = n],
      [int(f"{n:03d}") = n], join of a split).
    - [Base64]: RFC 4648 encoding as [base64.b64encode] does it (3-byte
      groups, [=] padding) with shifts and masks on [Z], the standard
      decoder, and the round trip.
    - [Json]: JSON values with ordered objects (Python dicts keep insertion
      order), the two encoders the scripts use ([json.dumps] with
      [separators=(",", ":")] and [json.dump(..., indent=2)]), and the dict
      and list updates [d[k] = v], [d.setdefault(k, v)], [l[i] = x].
    - [FileSys]: the file system as a [gmap] from directory path (with
      trailing slashes removed, as the OS resolves ["d/"] and ["d"] alike)
      to a [gmap] from file name to contents ([Blob] bytes or a zip
      [Archive]), with [os.makedirs], [open(..., "w")],
      [shutil.rmtree/copytree], sorted [Path.glob] and [zipfile] writes
      (an archive is created, then each member read; a failed read leaves
      the partial archive).
    - [Paths]: the algebra of [path_join], [dirname], [basename] and
      [stem] the tools rely on, writes into an existing directory, and the
      well-formedness invariant [fs_wf] (no file name holds a slash),
      preserved by every operation of [FileSys].
    - [Worker]: [post_item] and the retry loop [worker] of the uploader,
      against a network oracle; effects are the trace of requests and
      sleeps.
    - [Pool]: the [ThreadPoolExecutor] of one batch as a step relation
      (FIFO work queue, at most [max_workers] running, any running task may
      complete, any completed future may be collected), its invariant,
      progress, termination, and its refinement of the abstract
      [as_completed] contract [as_completed_spec] (a permutation).
    - [Uploader]: [chunked] and [main] of the uploader: dry run, missing
      token, batches run through the pool (a schedule [sched] constrained by
      [sched_ok] to the pool's collection orders), pauses, summary line.
    - [Generator], [Converter], [Rewriter]: one Module per script with its
      template constants, its per-file operation and its main loop, each
      threading the file system and returning [res] where Python raises.
    - [Schema]: a small schema language for JSON and the document types of
      the data model (notebook, item definition before and after the
      rewrite, platform metadata), with the theorem that the tools' output
      documents conform.
    - [Pipeline]: the three file tools in sequence (generate, convert,
      rewrite) through their directories.

    ** What the theorems show (grouped; the claims of the manifest name them)

    - Uploader: the retry loop makes exactly [retries] attempts on a file
      whose every attempt faults and reports the last fault, stops at the
      first answered attempt (any status), makes no attempt when
      [retries <= 0]; for every network it sends at most [max(retries, 0)]
      requests and sleeps at most [n (n + 1) / 2] seconds, and a whole run
      of [main], on every path, at most [retries] requests per file; every
      request carries the bearer token and the file's bytes; [chunked]
      partitions the files into contiguous batches of the given size
      (raises on size 0, no batch for a negative size), and the header of
      each batch names the one-based positions of its first and last file;
      the pool never runs
      more than [max_workers] tasks, always can finish, terminates, and can
      collect a batch in exactly the permutations of it (in submission
      order with one worker); [main] reports one result per file, pauses
      exactly between batches, prints at most ten names and posts nothing
      in a dry run, posts nothing without a token, and raises after the
      first header with [concurrency <= 0].
    - Converter: every notebook yields one item, in sorted order, whose
      content payload decodes to the notebook's bytes and whose metadata
      payload decodes to the compact JSON naming ["Generated Notebook n"];
      a non-numeric name suffix raises [ValueError] and stops the run; an
      empty or missing source is not an error (no item, an empty zip); the
      zip of [--out d/] lands inside [d] as [.zip].
    - Generator: [count] files numbered 1..count with the marker of their
      index, written byte-exactly as [json.dump(..., indent=2)] does, and
      the zip of exactly those files; a count of zero or less writes no
      notebook and an empty zip.
    - Rewriter: the backup equals the original directory; the K rewritten
      files carry ["Notebook 1"] .. ["Notebook K"] by sorted rank and the
      same parts; the fixed payloads are exactly the generator's notebook
      #1 and the converter's metadata blob for index 1; a missing source
      directory raises with [--backup] and is reported otherwise.
    - Schema: the documents written by the three file tools have the
      types of the data model, base64 payloads that decode included.
    - Pipeline: for [count <= 999] the three tools in sequence give item
      [i] the content of notebook [i] and the display name [Notebook i];
      for 1000 notebooks the code-point sort puts [notebook_1000] between
      [notebook_100] and [notebook_101], and the names shift from rank 101.

    ** Modelling choices, bounds and fuel

    No definition needs fuel: every loop of the scripts runs over a finite
    list ([sorted(glob)], [range], a batch) and is a structural [Fixpoint];
    the only unbounded behaviour, the thread pool, is a relation whose runs
    are finite by the measure [3 |queue| + 2 |running| + |finished|].
    Python [int]s are [Z] (unbounded, as in Python); [str] is a Rocq
    [string] holding its UTF-8 bytes, so [str.encode("utf-8")] is
    [list_byte_of_string] and comparison by code point is byte order. The
    bound [count <= 999] of the pipeline theorem is where [{i:03d}] stops
    having three digits; the ascending order of all 999 names is checked
    by evaluation.

    ** Not modelled

    Argument parsing ([argparse]) is replaced by a record of the parsed
    arguments; console output is a list of printed lines; the HTTP service
    is an oracle giving, per file and attempt number, a response or a
    transport fault (connection reuse of [requests.Session] is not
    observable in the model); wall-clock time is the list of [time.sleep]
    calls; the [as_completed] order is the pool's nondeterminism, not a
    thread scheduler; zip compression is abstracted by the archive's entry
    list; symbolic links, permissions and I/O faults of the host other than
    missing directories are not modelled; [update_items_with_template.py]'s
    [ensure_dir] is never called and has no counterpart. The module
    docstrings, the imports and the [if __name__ == "__main__"] entry
    points have no behaviour to model; everything else of the four scripts
    is translated. *)

From Stdlib Require Import ZArith Lia.
From Stdlib Require Strings.Byte.
From stdpp Require Export base list strings sorting gmap.

#[export] Instance byte_eq_dec : EqDecision Byte.byte := Stdlib.Strings.Byte.byte_eq_dec.

(** ** Python exceptions and fallible computations *)

(** The exceptions the scripts can raise (or catch) on the paths we model.
    [exn_str] is [str(e)]: the message, or for an [OSError] its
    ["[Errno n] strerror: 'path'"] form. [ArchiveRead] marks a read of
    a zip archive's raw bytes, which the model does not give a byte image
    to; no script does such a read (their glob patterns never match the
    [.zip] names they write). *)
Inductive exn : Type :=
| ValueError (msg : string)
| IndexError (msg : string)
| KeyError (key : string)
| TypeError (msg : string)
| FileNotFoundError (path : string)
| FileExistsError (path : string)
| IsADirectoryError (path : string)
| ArchiveRead (path : string)
| TransportError (msg : string).

Definition exn_str (e : exn) : string :=
  match e with
  | ValueError m | IndexError m | TypeError m | TransportError m => m
  | KeyError k => String.append "'" (String.append k "'")
  | FileNotFoundError p => String.append "[Errno 2] No such file or directory: '" (String.append p "'")
  | FileExistsError p => String.append "[Errno 17] File exists: '" (String.append p "'")
  | IsADirectoryError p => String.append "[Errno 21] Is a directory: '" (String.append p "'")
  | ArchiveRead p => p
  end.

(** A Python computation that returns a value or raises. *)
Inductive res (A : Type) : Type :=
| Ok (a : A)
| Raise (e : exn).
Arguments Ok {A} a.
Arguments Raise {A} e.

Definition res_bind {A B} (c : res A) (k : A -> res B) : res B :=
  match c with
  | Ok a => k a
  | Raise e => Raise e
  end.

Definition res_map {A B} (f : A -> B) (c : res A) : res B :=
  res_bind c (fun a => Ok (f a)).

(** Python's [for x in xs: body] where [body] may raise: stops at the
    first exception. *)
Fixpoint res_mapM {A B} (f : A -> res B) (l : list A) : res (list B) :=
  match l with
  | [] => Ok []
  | x :: l' =>
      res_bind (f x) (fun y => res_bind (res_mapM f l') (fun ys => Ok (y :: ys)))
  end.

Declare Scope py_scope.
Delimit Scope py_scope with py.
Notation "'let?' x ':=' c 'in' k" := (res_bind c (fun x => k))
  (at level 10, x name, c at level 100, k at level 200) : py_scope.
Notation "'let?' ' p ':=' c 'in' k" := (res_bind c (fun p => k))
  (at level 10, p pattern, c at level 100, k at level 200) : py_scope.
Open Scope py_scope.

(** ** Tactics and hint databases *)

Create HintDb pyfab.
Create Rewrite HintDb pyfab_simpl.

(** [inv H] (stdpp's) inverts [H], substitutes and clears it. *)

Lemma res_bind_Ok {A B} (a : A) (k : A -> res B) : res_bind (Ok a) k = k a.
Proof. reflexivity. Qed.

Lemma res_bind_Raise {A B} (e : exn) (k : A -> res B) : res_bind (Raise e) k = Raise e.
Proof. reflexivity. Qed.

#[export] Hint Rewrite @res_bind_Ok @res_bind_Raise : pyfab_simpl.

(** Rewrite away binds on known results and split binds on unknown ones. *)
Ltac res_simpl :=
  repeat (autorewrite with pyfab_simpl in *; simpl in *;
          match goal with
          | H : Ok _ = Ok _ |- _ => inv H
          | H : Ok _ = Raise _ |- _ => discriminate H
          | H : Raise _ = Ok _ |- _ => discriminate H
          | H : res_bind ?c _ = _ |- _ =>
              let E := fresh "E" in destruct c eqn:E; simpl in H
          | _ => idtac
          end).

(** ** Generic lemmas *)

Lemma res_bind_Ok_inv {A B} (c : res A) (k : A -> res B) (b : B) :
  res_bind c k = Ok b -> exists a, c = Ok a /\ k a = Ok b.
Proof. destruct c; simpl; [eauto | discriminate]. Qed.

Lemma res_mapM_length {A B} (f : A -> res B) l l' :
  res_mapM f l = Ok l' -> length l' = length l.
Proof.
  revert l'; induction l as [|x l IH]; intros l' H; simpl in *.
  - by inv H.
  - destruct (f x); [|discriminate]; simpl in H.
    destruct (res_mapM f l) eqn:E; [|discriminate]; simpl in H. inv H.
    simpl; f_equal; auto.
Qed.

Lemma res_mapM_Forall2 {A B} (f : A -> res B) l l' :
  res_mapM f l = Ok l' -> Forall2 (fun x y => f x = Ok y) l l'.
Proof.
  revert l'; induction l as [|x l IH]; intros l' H; simpl in *.
  - inv H. constructor.
  - destruct (f x) eqn:Ef; [|discriminate]; simpl in H.
    destruct (res_mapM f l) eqn:E; [|discriminate]; simpl in H. inv H.
    constructor; auto.
Qed.

Lemma res_mapM_all_Ok {A B} (f : A -> res B) (g : A -> B) l :
  (forall x, x ∈ l -> f x = Ok (g x)) -> res_mapM f l = Ok (map g l).
Proof.
  induction l as [|x l IH]; intros Hf; simpl; [done|].
  rewrite Hf by set_solver. simpl. rewrite IH by set_solver. done.
Qed.

(** The number of elements of a list that satisfy a boolean test
    ([sum(1 for r in results if r[1])]). *)
Definition count_true {A} (p : A -> bool) (l : list A) : nat :=
  length (filter (fun x => p x = true) l).

Lemma count_true_app {A} (p : A -> bool) l1 l2 :
  count_true p (l1 ++ l2) = count_true p l1 + count_true p l2.
Proof. unfold count_true. by rewrite filter_app, length_app. Qed.

Lemma count_true_perm {A} (p : A -> bool) l1 l2 :
  l1 ≡ₚ l2 -> count_true p l1 = count_true p l2.
Proof. intros H. unfold count_true. by rewrite H. Qed.

Lemma count_true_le {A} (p : A -> bool) l : count_true p l <= length l.
Proof. unfold count_true. apply length_filter. Qed.

Lemma count_true_cons {A} (p : A -> bool) x l :
  count_true p (x :: l) = (if p x then 1 else 0) + count_true p l.
Proof. unfold count_true. rewrite filter_cons. by destruct (p x); case_decide. Qed.

Lemma count_true_ext {A} (p q : A -> bool) l :
  (forall x, p x = q x) -> count_true p l = count_true q l.
Proof. intros H. induction l as [|x l IH]; [done|]. by rewrite !count_true_cons, H, IH. Qed.

Lemma count_true_none {A} (p : A -> bool) l :
  (forall x, x ∈ l -> p x = false) -> count_true p l = 0.
Proof.
  induction l as [|x l IH]; intros H; [done|].
  rewrite count_true_cons, (H x), IH; [done| |set_solver].
  intros y Hy. apply H. set_solver.
Qed.

Lemma count_true_map {A B} (p : B -> bool) (f : A -> B) l :
  count_true p (map f l) = count_true (fun x => p (f x)) l.
Proof.
  induction l as [|x l IH]; [done|]. change (map f (x :: l)) with (f x :: map f l).
  by rewrite !count_true_cons, IH.
Qed.

(** ** Lists indexed from 0 *)

(** A relation between the elements of [l] and a function of their index. *)
Lemma Forall2_indexed {A B} (P : A -> B -> Prop) (f : nat -> B) l :
  (forall i x, l !! i = Some x -> P x (f i)) -> Forall2 P l (map f (seq 0 (length l))).
Proof.
  intros H. apply Forall2_lookup. intros i. rewrite list_lookup_fmap.
  destruct (l !! i) as [x|] eqn:E.
  - rewrite lookup_seq_lt by (by eapply lookup_lt_Some). constructor. by apply H.
  - rewrite lookup_seq_ge by (by apply lookup_ge_None). constructor.
Qed.

(** A list [f j, f (j+1), ...] is sorted when each element is related to
    the next. *)
Lemma sorted_map_seq {A} (R : relation A) (f : nat -> A) j n :
  (forall k, j <= k -> S k < j + n -> R (f k) (f (S k))) -> Sorted R (map f (seq j n)).
Proof.
  revert j. induction n as [|n IH]; intros j H; [constructor|]. cbn [seq map].
  constructor; [apply IH; intros k ??; apply H; lia|].
  destruct n as [|n]; cbn; constructor. apply H; lia.
Qed.

#[export] Hint Rewrite @count_true_app @count_true_cons @count_true_map : pyfab_simpl.
#[export] Hint Resolve count_true_le res_mapM_length : pyfab.
