(* ===== verification/PyStr.v ===== *)
(** * The Python string and integer primitives the scripts call

    [str(int)], [f"{i:03d}"], [str.split(sep)], [int(str)], [lst[-1]],
    [PurePath.stem]/[PurePath.name], the name test of [Path.glob] with a
    one-star pattern, and [posixpath.join/dirname/basename]. These are
    CPython library functions, not code of the repository; each is written
    from its documented behaviour (CPython 3.12) on the byte strings the
    scripts handle, and its round trip or shape is proved here. *)

From Stdlib Require Import ZArith Lia Ascii DecimalString DecimalN DecimalPos.
From S2P Require Import Prelude.

Local Open Scope string_scope.

(** ** Characters *)

Definition is_digit (c : Ascii.ascii) : bool :=
  bool_decide (48 <= Ascii.nat_of_ascii c <= 57)%nat.

(** [Py_UNICODE_ISSPACE] on ASCII: tab, LF, VT, FF, CR, the separators
    0x1C-0x1F, and space. *)
Definition py_isspace (c : Ascii.ascii) : bool :=
  let n := Ascii.nat_of_ascii c in
  bool_decide ((9 <= n <= 13) \/ (28 <= n <= 32))%nat.

(** ** [str(int)] *)

Definition str_of_int (z : Z) : string :=
  NilZero.string_of_int (Z.to_int z).

(** [f"{i:03d}"]: at least three characters, zero padding after the sign. *)
Fixpoint zeros (k : nat) : string :=
  match k with
  | O => EmptyString
  | S k' => String "0" (zeros k')
  end.

Definition zero_pad (w : nat) (s : string) : string :=
  String.append (zeros (w - String.length s)) s.

Definition format_0d (w : nat) (z : Z) : string :=
  if (z <? 0)%Z
  then String.append "-" (zero_pad (w - 1) (str_of_int (- z)))
  else zero_pad w (str_of_int z).

Definition format_03d : Z -> string := format_0d 3.

(** ** [str.split(sep)] with a one-character separator, and ["".join] *)

Fixpoint str_split (c : Ascii.ascii) (s : string) : list string :=
  match s with
  | EmptyString => [EmptyString]
  | String a s' =>
      let rest := str_split c s' in
      if decide (a = c) then EmptyString :: rest
      else match rest with
           | [] => [String a EmptyString]
           | r :: rs => String a r :: rs
           end
  end.

Fixpoint str_join (c : Ascii.ascii) (parts : list string) : string :=
  match parts with
  | [] => EmptyString
  | [p] => p
  | p :: ps => String.append p (String c (str_join c ps))
  end.

(** [lst[-1]]: the last element, [IndexError] on an empty list. *)
Definition list_last {A} (l : list A) : res A :=
  match last l with
  | Some x => Ok x
  | None => Raise (IndexError "list index out of range")
  end.

(** ** [int(str)] in base 10

    CPython strips surrounding whitespace, accepts one sign and then
    digits where single underscores may separate two digits; anything else
    raises [ValueError]. (Non-ASCII Unicode digits, which CPython also
    accepts, are outside the byte strings of this model.) *)

Fixpoint lstrip (s : string) : string :=
  match s with
  | String c s' => if py_isspace c then lstrip s' else s
  | EmptyString => EmptyString
  end.

Fixpoint str_rev (s : string) : string :=
  match s with
  | EmptyString => EmptyString
  | String c s' => String.append (str_rev s') (String c EmptyString)
  end.

Definition strip (s : string) : string := str_rev (lstrip (str_rev (lstrip s))).

(** After a digit: more digits, or one underscore followed by a digit. *)
Fixpoint digits_tail (s : string) : bool :=
  match s with
  | EmptyString => true
  | String c r =>
      if is_digit c then digits_tail r
      else if decide (c = "_"%char) then
        match r with
        | String d r' => is_digit d && digits_tail r'
        | EmptyString => false
        end
      else false
  end.

Definition digits_ok (s : string) : bool :=
  match s with
  | String c r => is_digit c && digits_tail r
  | EmptyString => false
  end.

Fixpoint drop_underscores (s : string) : string :=
  match s with
  | EmptyString => EmptyString
  | String c r => if decide (c = "_"%char) then drop_underscores r else String c (drop_underscores r)
  end.

Definition decimal_value (s : string) : option Z :=
  if digits_ok s then
    option_map (fun d => Z.of_N (N.of_uint d)) (NilEmpty.uint_of_string (drop_underscores s))
  else None.

Definition int_error (s : string) : exn :=
  ValueError ("invalid literal for int() with base 10: '" ++ s ++ "'").

Definition py_int (s : string) : res Z :=
  let t := strip s in
  let '(negative, body) :=
    match t with
    | String "-" r => (true, r)
    | String "+" r => (false, r)
    | _ => (false, t)
    end in
  match decimal_value body with
  | Some v => Ok (if negative then (- v)%Z else v)
  | None => Raise (int_error s)
  end.

(** ** Path names *)

(** The part before and after the last occurrence of [c]. *)
Fixpoint split_last (c : Ascii.ascii) (s : string) : option (string * string) :=
  match s with
  | EmptyString => None
  | String a s' =>
      match split_last c s' with
      | Some (before, after) => Some (String a before, after)
      | None => if decide (a = c) then Some (EmptyString, s') else None
      end
  end.

(** [PurePath.stem] of a file name: [i = name.rfind('.')];
    [name[:i] if 0 < i < len(name) - 1 else name]. *)
Definition path_stem (name : string) : string :=
  match split_last "." name with
  | Some (before, after) =>
      if bool_decide (before <> EmptyString /\ after <> EmptyString) then before else name
  | None => name
  end.

(** The name test of [Path(d).glob(pre + "*" + suf)]: pathlib's [*] also
    matches names that start with a dot, and matching is case-sensitive. *)
Definition glob_match (pre suf name : string) : bool :=
  String.prefix pre name && String.prefix (str_rev suf) (str_rev name) &&
  bool_decide (String.length pre + String.length suf <= String.length name)%nat.

(** [posixpath.basename], [posixpath.dirname], two-argument [posixpath.join]. *)
Definition basename (p : string) : string :=
  match split_last "/" p with
  | Some (_, after) => after
  | None => p
  end.

Fixpoint all_slashes (s : string) : bool :=
  match s with
  | EmptyString => true
  | String c s' => bool_decide (c = "/"%char) && all_slashes s'
  end.

Fixpoint lstrip_slashes (t : string) : string :=
  match t with
  | String "/" t' => lstrip_slashes t'
  | _ => t
  end.

Definition rstrip_slashes (s : string) : string := str_rev (lstrip_slashes (str_rev s)).

Definition dirname (p : string) : string :=
  match split_last "/" p with
  | Some (before, _) =>
      let head := String.append before "/" in
      if all_slashes head then head else rstrip_slashes head
  | None => EmptyString
  end.

Definition ends_with_slash (s : string) : bool :=
  match str_rev s with
  | String "/" _ => true
  | _ => false
  end.

Definition path_join (a b : string) : string :=
  match b with
  | String "/" _ => b
  | _ => if bool_decide (a = EmptyString) || ends_with_slash a
         then String.append a b else String.append a (String "/" b)
  end.

(** [range(start, stop, step)]: the number of elements, and the list;
    [ValueError] for a zero step. *)
Definition range_len (start stop step : Z) : nat :=
  if (0 <? step)%Z then Z.to_nat ((stop - start + step - 1) / step)
  else Z.to_nat ((start - stop - step - 1) / (- step)).

Definition py_range (start stop step : Z) : res (list Z) :=
  if decide (step = 0%Z) then Raise (ValueError "range() arg 3 must not be zero")
  else Ok (map (fun k => (start + Z.of_nat k * step)%Z) (seq 0 (range_len start stop step))).

(** ** Lemmas *)

Fixpoint str_forall (p : Ascii.ascii -> bool) (s : string) : bool :=
  match s with
  | EmptyString => true
  | String c s' => p c && str_forall p s'
  end.

(** A file name: no ["/"] in it. *)
Definition no_slash (s : string) : bool := str_forall (fun c => bool_decide (c <> "/"%char)) s.

(** The digits of a decimal numeral. *)
Definition digit_string (u : Decimal.uint) : string := NilEmpty.string_of_uint u.

(** stdpp makes [String.append] opaque to [simpl]; these are its equations. *)
Lemma str_app_cons c s t : String.append (String c s) t = String c (String.append s t).
Proof. reflexivity. Qed.

Lemma str_app_nil_l s : String.append EmptyString s = s.
Proof. reflexivity. Qed.

#[export] Hint Rewrite str_app_cons str_app_nil_l : pyfab_simpl.

Lemma str_app_nil_r s : String.append s EmptyString = s.
Proof. induction s as [|c s IH]; [done|]. by rewrite str_app_cons, IH. Qed.

Lemma str_app_assoc s t u :
  String.append s (String.append t u) = String.append (String.append s t) u.
Proof. induction s as [|c s IH]; [done|]. by rewrite !str_app_cons, IH. Qed.

Lemma str_forall_append p s t :
  str_forall p (String.append s t) = str_forall p s && str_forall p t.
Proof. induction s as [|c s IH]; [done|]. rewrite str_app_cons; simpl. by rewrite IH, andb_assoc. Qed.

Lemma str_forall_rev p s : str_forall p (str_rev s) = str_forall p s.
Proof.
  induction s as [|c s IH]; simpl; [done|].
  rewrite str_forall_append, IH; simpl. by rewrite andb_true_r, andb_comm.
Qed.

Lemma str_rev_append s t : str_rev (String.append s t) = String.append (str_rev t) (str_rev s).
Proof.
  induction s as [|c s IH].
  - by rewrite str_app_nil_l, str_app_nil_r.
  - rewrite str_app_cons; simpl. by rewrite IH, str_app_assoc.
Qed.

Lemma str_rev_involutive s : str_rev (str_rev s) = s.
Proof. induction s as [|c s IH]; simpl; [done|]. by rewrite str_rev_append, IH. Qed.

Lemma lstrip_nospace s : str_forall (fun c => negb (py_isspace c)) s = true -> lstrip s = s.
Proof. destruct s as [|c s]; simpl; [done|]. by destruct (py_isspace c). Qed.

(** [strip] leaves a string without whitespace unchanged. *)
Lemma strip_nospace s : str_forall (fun c => negb (py_isspace c)) s = true -> strip s = s.
Proof.
  intros H. unfold strip. rewrite (lstrip_nospace s H), lstrip_nospace.
  - apply str_rev_involutive.
  - by rewrite str_forall_rev.
Qed.


Lemma digit_string_digits u : str_forall is_digit (digit_string u) = true.
Proof. induction u; simpl; rewrite ?IHu; done. Qed.

Lemma digit_string_nospace u :
  str_forall (fun c => negb (py_isspace c)) (digit_string u) = true.
Proof. induction u; simpl; rewrite ?IHu; done. Qed.

Lemma digits_tail_digits s : str_forall is_digit s = true -> digits_tail s = true.
Proof.
  induction s as [|c s IH]; simpl; [done|].
  intros [-> ?]%andb_prop. auto.
Qed.

Lemma drop_underscores_digits s : str_forall is_digit s = true -> drop_underscores s = s.
Proof.
  induction s as [|c s IH]; simpl; [done|].
  intros [Hc ?]%andb_prop. rewrite IH by done.
  case_decide; [subst; discriminate|done].
Qed.

Lemma decimal_value_digit_string u :
  u <> Decimal.Nil -> decimal_value (digit_string u) = Some (Z.of_N (N.of_uint u)).
Proof.
  intros Hu. unfold decimal_value.
  assert (digits_ok (digit_string u) = true) as ->.
  { pose proof (digit_string_digits u) as Hd.
    destruct u; [done| ..]; simpl in *; apply digits_tail_digits; by destruct (str_forall _ _). }
  rewrite drop_underscores_digits by apply digit_string_digits.
  unfold digit_string. by rewrite NilEmpty.usu.
Qed.

(** Leading zeros do not change the value of a decimal numeral. *)
Lemma zeros_digit_string k u :
  String.append (zeros k) (digit_string u) = digit_string (Nat.iter k Decimal.D0 u).
Proof. induction k as [|k IH]; [done|]. simpl. rewrite str_app_cons, IH. done. Qed.

Lemma of_uint_zeros k u : N.of_uint (Nat.iter k Decimal.D0 u) = N.of_uint u.
Proof. induction k as [|k IH]; simpl; [done|]. exact IH. Qed.

Lemma py_int_digit_string u :
  u <> Decimal.Nil -> py_int (digit_string u) = Ok (Z.of_N (N.of_uint u)).
Proof.
  intros Hu. unfold py_int. rewrite strip_nospace by apply digit_string_nospace.
  assert (Hv := decimal_value_digit_string u Hu).
  destruct u; [done| ..]; simpl in *; by rewrite Hv.
Qed.

Lemma py_int_neg_digit_string u :
  u <> Decimal.Nil ->
  py_int (String "-" (digit_string u)) = Ok (- Z.of_N (N.of_uint u))%Z.
Proof.
  intros Hu. unfold py_int.
  rewrite strip_nospace by (simpl; apply digit_string_nospace).
  simpl. by rewrite decimal_value_digit_string.
Qed.

(** [str(z)] of a non-negative integer is its digit string. *)
Lemma str_of_int_nonneg z :
  (0 <= z)%Z ->
  exists u, u <> Decimal.Nil /\ str_of_int z = digit_string u /\ Z.of_N (N.of_uint u) = z.
Proof.
  intros Hz. destruct z as [|p|p]; [| |lia].
  - by exists (Decimal.D0 Decimal.Nil).
  - exists (Pos.to_uint p). split; [|split].
    + pose proof (DecimalPos.Unsigned.to_uint_nonnil p). done.
    + unfold str_of_int. simpl. unfold NilZero.string_of_uint.
      destruct (Pos.to_uint p) eqn:E; [|done..].
      by destruct (DecimalPos.Unsigned.to_uint_nonnil p).
    + change (Pos.to_uint p) with (N.to_uint (N.pos p)).
      by rewrite DecimalN.Unsigned.of_to.
Qed.

(** [int(str(z)) = z] for every Python integer. *)
Theorem py_int_str_of_int z : py_int (str_of_int z) = Ok z.
Proof.
  destruct (Z.le_gt_cases 0 z) as [Hz|Hz].
  - destruct (str_of_int_nonneg z Hz) as (u & Hu & -> & <-).
    by apply py_int_digit_string.
  - destruct z as [|p|p]; [lia|lia|].
    destruct (str_of_int_nonneg (Z.pos p)) as (u & Hu & Hs & Hv); [lia|].
    assert (str_of_int (Z.neg p) = String "-" (str_of_int (Z.pos p))) as -> by reflexivity.
    rewrite Hs, py_int_neg_digit_string by done. by rewrite Hv.
Qed.

Lemma zero_pad_digit_string w u :
  exists k, zero_pad w (digit_string u) = digit_string (Nat.iter k Decimal.D0 u).
Proof. eexists. apply zeros_digit_string. Qed.

Lemma py_int_zero_pad w z : (0 <= z)%Z -> py_int (zero_pad w (str_of_int z)) = Ok z.
Proof.
  intros Hz. destruct (str_of_int_nonneg z Hz) as (u & Hu & -> & <-).
  destruct (zero_pad_digit_string w u) as [k ->].
  rewrite py_int_digit_string; [by rewrite of_uint_zeros|].
  destruct k; simpl; [done|discriminate].
Qed.

Lemma zero_pad_digits w z : (0 <= z)%Z -> str_forall is_digit (zero_pad w (str_of_int z)) = true.
Proof.
  intros Hz. destruct (str_of_int_nonneg z Hz) as (u & _ & -> & _).
  destruct (zero_pad_digit_string w u) as [k ->]. apply digit_string_digits.
Qed.

Lemma format_0d_nonneg w z : (0 <= z)%Z -> format_0d w z = zero_pad w (str_of_int z).
Proof. intros Hz. unfold format_0d. by destruct (Z.ltb_spec z 0); [lia|]. Qed.

(** C38. [int(f"{z:03d}") = z] for [z >= 0]: the zero padding is read back. *)
Theorem py_int_format_03d z : (0 <= z)%Z -> py_int (format_03d z) = Ok z.
Proof. intros Hz. unfold format_03d. rewrite format_0d_nonneg by done. by apply py_int_zero_pad. Qed.

(** ** [str.split] *)

Lemma str_split_cons_ne c s : exists r rs, str_split c s = r :: rs.
Proof.
  induction s as [|a s IH]; simpl; [by eexists _, _|].
  destruct IH as (r & rs & ->). case_decide; eauto.
Qed.

Lemma str_join_cons c r rs :
  str_join c (r :: rs) = match rs with [] => r | _ => String.append r (String c (str_join c rs)) end.
Proof. by destruct rs. Qed.

(** [sep.join(s.split(sep)) = s]: joining the pieces with the
    separator gives the string back. *)
Theorem str_join_split c s : str_join c (str_split c s) = s.
Proof.
  induction s as [|a s IH]; simpl; [done|].
  destruct (str_split_cons_ne c s) as (r & rs & Hs). rewrite Hs in IH |- *.
  rewrite str_join_cons in IH. case_decide as Ha.
  - subst a. by rewrite str_join_cons, <- IH.
  - rewrite !str_join_cons. destruct rs; rewrite ?str_app_cons; by f_equal.
Qed.

(** No piece contains the separator. *)
Lemma str_split_pieces c s :
  Forall (fun p => str_forall (fun a => negb (bool_decide (a = c))) p = true) (str_split c s).
Proof.
  induction s as [|a s IH]; simpl; [by repeat constructor|].
  destruct (str_split_cons_ne c s) as (r & rs & Hs). rewrite Hs in IH |- *.
  case_decide as Ha; [by constructor|].
  inv IH. constructor; [|done]. simpl. rewrite bool_decide_false by done. done.
Qed.

(** [s.split(c)[-1]] never raises. *)
Lemma list_last_str_split c s : exists p, list_last (str_split c s) = Ok p /\ last (str_split c s) = Some p.
Proof.
  destruct (str_split_cons_ne c s) as (r & rs & ->). unfold list_last.
  destruct (last (r :: rs)) eqn:E; [by eauto|].
  by apply last_None in E.
Qed.

Lemma str_forall_impl (p q : Ascii.ascii -> bool) s :
  (forall c, p c = true -> q c = true) -> str_forall p s = true -> str_forall q s = true.
Proof.
  intros Hpq. induction s as [|c s IH]; [done|]. cbn. intros [Hc Hs]%andb_prop.
  by rewrite Hpq, IH.
Qed.

Lemma format_03d_inj i j : (0 <= i)%Z -> (0 <= j)%Z -> format_03d i = format_03d j -> i = j.
Proof.
  intros Hi Hj H. unfold format_03d in H. rewrite !format_0d_nonneg in H by done.
  pose proof (py_int_zero_pad 3 i Hi) as Ei. rewrite H, py_int_zero_pad in Ei by done. congruence.
Qed.

Lemma format_03d_digits i : (0 <= i)%Z -> str_forall is_digit (format_03d i) = true.
Proof. intros Hi. unfold format_03d. rewrite format_0d_nonneg by done. by apply zero_pad_digits. Qed.

(** [range(a, b)] with the step 1. *)
Lemma py_range_1 a b : py_range a b 1 = Ok (map (fun k => (a + Z.of_nat k)%Z) (seq 0 (Z.to_nat (b - a)))).
Proof.
  unfold py_range, range_len. rewrite decide_False by lia. cbn -[Z.sub].
  rewrite Z.div_1_r. replace (b - a + 1 - 1)%Z with (b - a)%Z by lia.
  f_equal. apply map_ext. intros k. lia.
Qed.

Lemma str_split_none c b : str_forall (fun x => bool_decide (x <> c)) b = true -> str_split c b = [b].
Proof.
  induction b as [|x b IH]; [done|]. cbn. intros [Hx Hb]%andb_prop.
  apply bool_decide_eq_true in Hx. rewrite IH by done. by rewrite decide_False.
Qed.

(** [s.split(c)[-1]] of [a + c + b], for [b] without [c], is [b]. *)
Lemma list_last_split_sep c a b :
  str_forall (fun x => bool_decide (x <> c)) b = true ->
  list_last (str_split c (String.append a (String c b))) = Ok b.
Proof.
  intros Hb. assert (H : exists p ps, str_split c (String.append a (String c b)) = (p :: ps ++ [b])%list).
  { induction a as [|x a IH].
    - exists EmptyString, []. rewrite str_app_nil_l. cbn. rewrite str_split_none by done. by rewrite decide_True.
    - destruct IH as (p & ps & E). rewrite str_app_cons. cbn [str_split]. rewrite E.
      case_decide; [by exists EmptyString, (p :: ps)|]. by exists (String x p), ps. }
  destruct H as (p & ps & ->). unfold list_last. by rewrite app_comm_cons, last_snoc.
Qed.

Lemma py_int_format_03d_witness : py_int (format_03d 7) = Ok 7%Z /\ format_03d 7 = "007"%string.
Proof. split; [exact (py_int_format_03d 7 ltac:(lia)) | reflexivity]. Defined.
