(* ===== verification/Base64.v ===== *)
(** * Base64 (RFC 4648), as [base64.b64encode] computes it

    The converter calls [base64.b64encode(data).decode("ascii")] on a
    notebook's bytes and on the UTF-8 bytes of the metadata JSON. This file
    writes that encoder over [list byte]: each group of three bytes is
    packed into a 24-bit integer with shifts and [lor], and split into four
    6-bit indices into the standard alphabet; a final group of one or two
    bytes is padded with ["="]. The decoder is the standard one (what the
    receiving service applies to an [InlineBase64] payload); the round trip
    [b64decode (b64encode bs) = Some bs] is the main theorem. *)

From Stdlib Require Import ZArith Lia Ascii String.
From S2P Require Import Prelude.

Local Open Scope Z_scope.

Definition b64_alphabet : string :=
  "ABCDEFGHIJKLMNOPQRSTUVWXYZabcdefghijklmnopqrstuvwxyz0123456789+/".

Definition pad_char : ascii := "="%char.

Definition b64_char (s : Z) : ascii :=
  match String.get (Z.to_nat s) b64_alphabet with
  | Some c => c
  | None => pad_char
  end.

(** The unsigned value of a byte. *)
Definition byte_val (b : Byte.byte) : Z := Z.of_N (Byte.to_N b).

(** [b1 << 16 | b2 << 8 | b3] *)
Definition triple (b1 b2 b3 : Z) : Z :=
  Z.lor (Z.shiftl b1 16) (Z.lor (Z.shiftl b2 8) b3).

(** [(n >> 6k) & 0x3f] *)
Definition sextet (k : Z) (n : Z) : Z := Z.land (Z.shiftr n (6 * k)) 63.

Fixpoint b64_chars (bs : list Byte.byte) : list ascii :=
  match bs with
  | b1 :: b2 :: b3 :: rest =>
      let n := triple (byte_val b1) (byte_val b2) (byte_val b3) in
      b64_char (sextet 3 n) :: b64_char (sextet 2 n) :: b64_char (sextet 1 n)
        :: b64_char (sextet 0 n) :: b64_chars rest
  | [b1; b2] =>
      let n := triple (byte_val b1) (byte_val b2) 0 in
      [b64_char (sextet 3 n); b64_char (sextet 2 n); b64_char (sextet 1 n); pad_char]
  | [b1] =>
      let n := triple (byte_val b1) 0 0 in
      [b64_char (sextet 3 n); b64_char (sextet 2 n); pad_char; pad_char]
  | [] => []
  end.

(** [base64.b64encode(data).decode("ascii")] *)
Definition b64encode (bs : list Byte.byte) : string := string_of_list_ascii (b64_chars bs).

(** ** Decoding *)

Fixpoint index_of (c : ascii) (s : string) (i : Z) : option Z :=
  match s with
  | EmptyString => None
  | String a s' => if decide (a = c) then Some i else index_of c s' (i + 1)
  end.

Definition b64_index (c : ascii) : option Z := index_of c b64_alphabet 0.

Definition is_pad (c : ascii) : bool := bool_decide (c = pad_char).

Definition byte_of_Z (z : Z) : Byte.byte :=
  match Byte.of_N (Z.to_N z) with
  | Some b => b
  | None => Byte.x00
  end.

(** [s3 << 18 | s2 << 12 | s1 << 6 | s0] *)
Definition join4 (s3 s2 s1 s0 : Z) : Z :=
  Z.lor (Z.shiftl s3 18) (Z.lor (Z.shiftl s2 12) (Z.lor (Z.shiftl s1 6) s0)).

Definition unpack3 (n : Z) : list Byte.byte :=
  [byte_of_Z (Z.land (Z.shiftr n 16) 255); byte_of_Z (Z.land (Z.shiftr n 8) 255);
   byte_of_Z (Z.land n 255)].

Fixpoint b64_dec_chars (cs : list ascii) : option (list Byte.byte) :=
  match cs with
  | [] => Some []
  | c1 :: c2 :: c3 :: c4 :: rest =>
      s1 ← b64_index c1; s2 ← b64_index c2;
      if is_pad c4 then
        match rest with
        | [] =>
            if is_pad c3 then Some (take 1 (unpack3 (join4 s1 s2 0 0)))
            else s3 ← b64_index c3; Some (take 2 (unpack3 (join4 s1 s2 s3 0)))
        | _ => None
        end
      else
        s3 ← b64_index c3; s4 ← b64_index c4;
        r ← b64_dec_chars rest; Some (unpack3 (join4 s1 s2 s3 s4) ++ r)
  | _ => None
  end.

Definition b64decode (s : string) : option (list Byte.byte) :=
  b64_dec_chars (list_ascii_of_string s).

(** ** Arithmetic of the bit packing *)

Lemma byte_val_range b : 0 <= byte_val b < 256.
Proof. unfold byte_val. pose proof (Byte.to_N_bounded b). lia. Qed.

Lemma byte_of_Z_val b : byte_of_Z (byte_val b) = b.
Proof. unfold byte_of_Z, byte_val. by rewrite N2Z.id, Byte.of_to_N. Qed.

(** [a << k | b] is [a * 2^k + b] when [b] fits in [k] bits. *)
Lemma lor_shiftl_small a b k :
  0 <= k -> 0 <= b < 2 ^ k -> Z.lor (Z.shiftl a k) b = a * 2 ^ k + b.
Proof.
  intros Hk Hb. rewrite <- Z.add_nocarry_lor.
  - by rewrite Z.shiftl_mul_pow2.
  - rewrite <- (Z.mod_small b (2 ^ k)) by lia. rewrite <- Z.land_ones by lia.
    rewrite (Z.land_comm b), Z.land_assoc, (Z.land_ones _ k), Z.shiftl_mul_pow2 by lia.
    rewrite Z.mod_mul by (apply Z.pow_nonzero; lia). apply Z.land_0_l.
Qed.

Lemma land_shiftr_val n k m :
  0 <= k -> 0 <= m -> Z.land (Z.shiftr n k) (Z.ones m) = (n / 2 ^ k) mod 2 ^ m.
Proof. intros. by rewrite Z.land_ones, Z.shiftr_div_pow2. Qed.

Lemma triple_val b1 b2 b3 :
  0 <= b2 < 256 -> 0 <= b3 < 256 -> triple b1 b2 b3 = b1 * 65536 + b2 * 256 + b3.
Proof.
  intros. unfold triple. rewrite (lor_shiftl_small b2 b3 8), lor_shiftl_small by (simpl; lia).
  simpl. lia.
Qed.

Lemma sextet_val k n : 0 <= k -> sextet k n = (n / 2 ^ (6 * k)) mod 64.
Proof. intros. unfold sextet. change 63 with (Z.ones 6). apply land_shiftr_val; lia. Qed.

Lemma sextet_range k n : 0 <= k -> 0 <= sextet k n < 64.
Proof. intros. rewrite sextet_val by done. apply Z.mod_pos_bound. lia. Qed.

Lemma join4_val s3 s2 s1 s0 :
  0 <= s2 < 64 -> 0 <= s1 < 64 -> 0 <= s0 < 64 ->
  join4 s3 s2 s1 s0 = s3 * 262144 + s2 * 4096 + s1 * 64 + s0.
Proof.
  intros. unfold join4.
  rewrite (lor_shiftl_small s1 s0 6), (lor_shiftl_small s2), lor_shiftl_small
    by (simpl; lia). simpl. lia.
Qed.

(** Radix-64 digits of a 24-bit value. *)
Lemma radix64_digits n :
  0 <= n < 2 ^ 24 ->
  (n / 262144) mod 64 * 262144 + (n / 4096) mod 64 * 4096 + (n / 64) mod 64 * 64 + n mod 64 = n.
Proof.
  intros Hn. simpl in Hn.
  pose proof (Z.div_mod n 64 ltac:(lia)).
  pose proof (Z.div_mod (n / 64) 64 ltac:(lia)).
  pose proof (Z.div_mod (n / 4096) 64 ltac:(lia)).
  assert (n / 64 / 64 = n / 4096) as E1 by (rewrite Z.div_div by lia; reflexivity).
  assert (n / 4096 / 64 = n / 262144) as E2 by (rewrite Z.div_div by lia; reflexivity).
  rewrite E1, E2 in *.
  rewrite (Z.mod_small (n / 262144))
    by (split; [apply Z.div_pos | apply Z.div_lt_upper_bound]; lia).
  lia.
Qed.

(** The four sextets of a 24-bit value put back together give the value. *)
Lemma join4_sextets n s1 s0 :
  0 <= n < 2 ^ 24 ->
  s1 = sextet 1 n -> s0 = sextet 0 n ->
  join4 (sextet 3 n) (sextet 2 n) s1 s0 = n.
Proof.
  intros Hn -> ->. pose proof (sextet_range 2 n). pose proof (sextet_range 1 n).
  pose proof (sextet_range 0 n).
  rewrite join4_val by lia. rewrite !sextet_val by lia.
  change (2 ^ (6 * 3)) with 262144. change (2 ^ (6 * 2)) with 4096.
  change (2 ^ (6 * 1)) with 64. change (2 ^ (6 * 0)) with 1. rewrite Z.div_1_r.
  by apply radix64_digits.
Qed.

Lemma div_digit hi lo d : 0 <= lo < d -> (hi * d + lo) / d = hi /\ (hi * d + lo) mod d = lo.
Proof.
  intros. split.
  - rewrite Z.div_add_l by lia. rewrite Z.div_small by lia. lia.
  - rewrite Z.add_comm, Z.mod_add by lia. by apply Z.mod_small.
Qed.

(** Radix-256 digits of a 24-bit value. *)
Lemma radix256_digits b1 b2 b3 :
  0 <= b1 < 256 -> 0 <= b2 < 256 -> 0 <= b3 < 256 ->
  ((b1 * 65536 + b2 * 256 + b3) / 65536) mod 256 = b1 /\
  ((b1 * 65536 + b2 * 256 + b3) / 256) mod 256 = b2 /\
  (b1 * 65536 + b2 * 256 + b3) mod 256 = b3.
Proof.
  intros.
  replace (b1 * 65536 + b2 * 256 + b3) with ((b1 * 256 + b2) * 256 + b3) by ring.
  destruct (div_digit (b1 * 256 + b2) b3 256) as [-> ->]; [lia|].
  destruct (div_digit b1 b2 256) as [_ ->]; [lia|].
  replace ((b1 * 256 + b2) * 256 + b3) with (b1 * 65536 + (b2 * 256 + b3)) by ring.
  destruct (div_digit b1 (b2 * 256 + b3) 65536) as [-> _]; [lia|].
  repeat split; auto. by apply Z.mod_small.
Qed.

Lemma unpack3_val b1 b2 b3 :
  0 <= b1 < 256 -> 0 <= b2 < 256 -> 0 <= b3 < 256 ->
  unpack3 (b1 * 65536 + b2 * 256 + b3) = [byte_of_Z b1; byte_of_Z b2; byte_of_Z b3].
Proof.
  intros. destruct (radix256_digits b1 b2 b3) as (E1 & E2 & E3); [done..|].
  unfold unpack3. change 255 with (Z.ones 8).
  rewrite !land_shiftr_val, Z.land_ones by lia.
  change (2 ^ 16) with 65536. change (2 ^ 8) with 256.
  by rewrite E1, E2, E3.
Qed.

Lemma triple_range b1 b2 b3 :
  0 <= b1 < 256 -> 0 <= b2 < 256 -> 0 <= b3 < 256 -> 0 <= triple b1 b2 b3 < 2 ^ 24.
Proof. intros. rewrite triple_val by lia. simpl. lia. Qed.

(** ** The alphabet *)

Lemma b64_char_table :
  forallb (fun m => let s := Z.of_nat m in
                    bool_decide (b64_index (b64_char s) = Some s) && negb (is_pad (b64_char s)))
          (seq 0 64) = true.
Proof. vm_compute. reflexivity. Qed.

(** Every index below 64 is a non-padding character that decodes back. *)
Lemma b64_char_index s :
  0 <= s < 64 -> b64_index (b64_char s) = Some s /\ is_pad (b64_char s) = false.
Proof.
  intros Hs. pose proof b64_char_table as T. rewrite forallb_forall in T.
  specialize (T (Z.to_nat s)). rewrite Z2Nat.id in T by lia.
  destruct (andb_prop _ _ (T ltac:(apply in_seq; lia))) as [H1 H2].
  split; [by apply bool_decide_eq_true in H1 | by apply negb_true_iff].
Qed.

Lemma sextet_index k n : 0 <= k -> b64_index (b64_char (sextet k n)) = Some (sextet k n).
Proof. intros. apply b64_char_index, sextet_range; lia. Qed.

Lemma sextet_not_pad k n : 0 <= k -> is_pad (b64_char (sextet k n)) = false.
Proof. intros. apply b64_char_index, sextet_range; lia. Qed.

(** ** Round trip *)

Lemma is_pad_pad : is_pad pad_char = true.
Proof. reflexivity. Qed.

Lemma sextet0_zero n : n mod 64 = 0 -> sextet 0 n = 0.
Proof.
  intros H. rewrite sextet_val by lia. change (2 ^ (6 * 0)) with 1. by rewrite Z.div_1_r.
Qed.

Lemma sextet1_zero n : n mod 4096 = 0 -> sextet 1 n = 0.
Proof.
  intros H. rewrite sextet_val by lia. change (2 ^ (6 * 1)) with 64.
  rewrite (Z.div_mod n 4096), H by lia.
  replace (4096 * (n / 4096) + 0) with ((n / 4096 * 64) * 64) by ring.
  rewrite Z.div_mul by lia. by rewrite Z.mod_mul.
Qed.

(** [a * m] is a multiple of [d] when the constant [m] is. *)
Lemma mod_mul_const a m d : d <> 0 -> m mod d = 0 -> (a * m) mod d = 0.
Proof.
  intros Hd Hm. apply Z.mod_divide; [done|]. apply Z.divide_mul_r. by apply Z.mod_divide.
Qed.

Ltac mod_of_multiple := apply mod_mul_const; [lia | reflexivity].

(** The decoder on one group of four characters. *)
Lemma dec_group_pad2 c1 c2 s1 s2 :
  b64_index c1 = Some s1 -> b64_index c2 = Some s2 ->
  b64_dec_chars [c1; c2; pad_char; pad_char] = Some (take 1 (unpack3 (join4 s1 s2 0 0))).
Proof. intros H1 H2. cbn [b64_dec_chars]. by rewrite H1, H2. Qed.

Lemma dec_group_pad1 c1 c2 c3 s1 s2 s3 :
  b64_index c1 = Some s1 -> b64_index c2 = Some s2 -> b64_index c3 = Some s3 ->
  is_pad c3 = false ->
  b64_dec_chars [c1; c2; c3; pad_char] = Some (take 2 (unpack3 (join4 s1 s2 s3 0))).
Proof. intros H1 H2 H3 P3. cbn [b64_dec_chars]. by rewrite H1, H2, P3, H3. Qed.

Lemma dec_group_full c1 c2 c3 c4 rest s1 s2 s3 s4 :
  b64_index c1 = Some s1 -> b64_index c2 = Some s2 -> b64_index c3 = Some s3 ->
  b64_index c4 = Some s4 -> is_pad c4 = false ->
  b64_dec_chars (c1 :: c2 :: c3 :: c4 :: rest) =
  r ← b64_dec_chars rest; Some (unpack3 (join4 s1 s2 s3 s4) ++ r).
Proof. intros H1 H2 H3 H4 P4. cbn [b64_dec_chars]. by rewrite H1, H2, P4, H3, H4. Qed.

Lemma b64_dec_chars_encode bs : b64_dec_chars (b64_chars bs) = Some bs.
Proof.
  induction bs as [bs IH] using (induction_ltof1 _ (@length _)).
  destruct bs as [|b1 [|b2 [|b3 rest]]]; [done| | |]; cbn [b64_chars].
  - pose proof (byte_val_range b1).
    set (n := triple (byte_val b1) 0 0).
    assert (0 <= n < 2 ^ 24) by (apply triple_range; lia).
    assert (n = byte_val b1 * (16 * 4096)) as En by (unfold n; rewrite triple_val; lia).
    rewrite (dec_group_pad2 _ _ (sextet 3 n) (sextet 2 n)) by (apply sextet_index; lia).
    rewrite <- (sextet1_zero n), <- (sextet0_zero n) at 1
      by (rewrite En; mod_of_multiple).
    rewrite join4_sextets by done. rewrite En.
    replace (byte_val b1 * (16 * 4096)) with (byte_val b1 * 65536 + 0 * 256 + 0) by ring.
    rewrite unpack3_val by lia. cbn. by rewrite byte_of_Z_val.
  - pose proof (byte_val_range b1). pose proof (byte_val_range b2).
    set (n := triple (byte_val b1) (byte_val b2) 0).
    assert (0 <= n < 2 ^ 24) by (apply triple_range; lia).
    assert (n = (byte_val b1 * 1024 + byte_val b2 * 4) * (1 * 64)) as En
      by (unfold n; rewrite triple_val; lia).
    rewrite (dec_group_pad1 _ _ _ (sextet 3 n) (sextet 2 n) (sextet 1 n))
      by (apply sextet_index || apply sextet_not_pad; lia).
    rewrite <- (sextet0_zero n) at 1 by (rewrite En; mod_of_multiple).
    rewrite join4_sextets by done. rewrite En.
    replace ((byte_val b1 * 1024 + byte_val b2 * 4) * (1 * 64))
      with (byte_val b1 * 65536 + byte_val b2 * 256 + 0) by ring.
    rewrite unpack3_val by lia. cbn. by rewrite !byte_of_Z_val.
  - pose proof (byte_val_range b1). pose proof (byte_val_range b2). pose proof (byte_val_range b3).
    set (n := triple (byte_val b1) (byte_val b2) (byte_val b3)).
    assert (0 <= n < 2 ^ 24) by (apply triple_range; lia).
    rewrite (dec_group_full _ _ _ _ _ (sextet 3 n) (sextet 2 n) (sextet 1 n) (sextet 0 n))
      by (apply sextet_index || apply sextet_not_pad; lia).
    rewrite IH by (unfold ltof; cbn; lia). cbn [mbind option_bind].
    rewrite join4_sextets by done. unfold n.
    rewrite triple_val, unpack3_val by lia. by rewrite !byte_of_Z_val.
Qed.

(** A non-empty byte string has a non-empty encoding. *)
Lemma b64_dec_encode_string bs : b64_dec_chars (list_ascii_of_string (b64encode bs)) = Some bs.
Proof. unfold b64encode. rewrite list_ascii_of_string_of_list_ascii. apply b64_dec_chars_encode. Qed.

Lemma b64encode_cons b bs : exists c t, b64encode (b :: bs) = String c t.
Proof. unfold b64encode. destruct bs as [|b2 [|b3 rest]]; cbn [b64_chars string_of_list_ascii]; eauto. Qed.

(** C25. [base64.b64decode(base64.b64encode(data)) = data]: decoding the
    encoding of any byte string gives it back. *)
Theorem b64_roundtrip bs : b64decode (b64encode bs) = Some bs.
Proof. unfold b64decode. apply b64_dec_encode_string. Qed.
