(* ===== verification/Json.v ===== *)
(** * JSON values and the two [json] encoders the scripts use

    Python dicts keep insertion order, so an object is an association list
    in insertion order. [dumps_compact] is [json.dumps(v,
    separators=(",", ":"))] (the converter's metadata blob); [dump_indent]
    is [json.dump(v, f, indent=2)] (every file the scripts write). Both
    follow [json.encoder]: strings through [encode_basestring_ascii]
    ([ensure_ascii=True]), [None] as [null], integers through [int.__repr__],
    empty containers as [[]] and [{}], and with an indent the item separator
    [","] and key separator [": "]. The dict updates [d[k] = v] and
    [d.setdefault(k, v)] and the list update [l[i] = x] are here too. *)

From Stdlib Require Import ZArith Lia Ascii String.
From S2P Require Import Prelude PyStr.

Local Open Scope string_scope.
#[local] Set Warnings "-register-all".

Inductive json : Type :=
| JNull
| JBool (b : bool)
| JInt (z : Z)
| JStr (s : string)
| JList (l : list json)
| JDict (kvs : list (string * json)).

(** ** String escaping ([encode_basestring_ascii]) *)

Definition quote_char : ascii := ascii_of_nat 34.
Definition backslash : ascii := ascii_of_nat 92.
Definition str1 (c : ascii) : string := String c EmptyString.

Definition hex_digit (n : nat) : ascii :=
  match String.get n "0123456789abcdef" with Some c => c | None => "0"%char end.

(** One character: the two-character escapes of [ESCAPE_DCT], [\u00XX] for
    other control characters and for bytes outside [0x20..0x7e]. The
    scripts only serialise ASCII strings; a byte above 0x7f is escaped as
    the code point of the same value. *)
Definition escape_char (c : ascii) : string :=
  let n := nat_of_ascii c in
  if decide (n = 92) then String backslash (str1 backslash)
  else if decide (n = 34) then String backslash (str1 quote_char)
  else if decide (n = 10) then String backslash "n"
  else if decide (n = 13) then String backslash "r"
  else if decide (n = 9) then String backslash "t"
  else if decide (n = 8) then String backslash "b"
  else if decide (n = 12) then String backslash "f"
  else if decide (32 <= n < 127)%nat then str1 c
  else String backslash ("u00" ++ str1 (hex_digit (n / 16)) ++ str1 (hex_digit (n mod 16))).

Fixpoint escape_str (s : string) : string :=
  match s with
  | EmptyString => EmptyString
  | String c s' => escape_char c ++ escape_str s'
  end.

Definition encode_str (s : string) : string :=
  String quote_char (escape_str s ++ str1 quote_char).

(** ** The encoders *)

Definition encode_scalar (v : json) : string :=
  match v with
  | JNull => "null"
  | JBool true => "true"
  | JBool false => "false"
  | JInt z => str_of_int z
  | JStr s => encode_str s
  | _ => EmptyString
  end.

(** [json.dumps(v, separators=(",", ":"))] *)
Fixpoint dumps_compact (v : json) : string :=
  match v with
  | JList l => "[" ++ String.concat "," (map dumps_compact l) ++ "]"
  | JDict kvs =>
      "{" ++ String.concat "," (map (fun kv => encode_str kv.1 ++ ":" ++ dumps_compact kv.2) kvs)
      ++ "}"
  | _ => encode_scalar v
  end.

Fixpoint spaces (n : nat) : string :=
  match n with
  | O => EmptyString
  | S n' => String " " (spaces n')
  end.

(** ['\n' + ' ' * (indent * level)] *)
Definition newline_indent (level : nat) : string := String (ascii_of_nat 10) (spaces (2 * level)).

(** [json.dump(v, f, indent=2)] at nesting [level]. *)
Fixpoint dump_indent_at (level : nat) (v : json) : string :=
  match v with
  | JList [] => "[]"
  | JList l =>
      "[" ++ newline_indent (S level)
      ++ String.concat ("," ++ newline_indent (S level)) (map (dump_indent_at (S level)) l)
      ++ newline_indent level ++ "]"
  | JDict [] => "{}"
  | JDict kvs =>
      "{" ++ newline_indent (S level)
      ++ String.concat ("," ++ newline_indent (S level))
           (map (fun kv => encode_str kv.1 ++ ": " ++ dump_indent_at (S level) kv.2) kvs)
      ++ newline_indent level ++ "}"
  | _ => encode_scalar v
  end.

Definition dump_indent (v : json) : string := dump_indent_at 0 v.

(** The bytes a text-mode UTF-8 file receives for a string. *)
Definition utf8 (s : string) : list Byte.byte := list_byte_of_string s.

(** ** Dict and list updates *)

Fixpoint dict_get (k : string) (kvs : list (string * json)) : option json :=
  match kvs with
  | [] => None
  | (k', v) :: kvs' => if decide (k = k') then Some v else dict_get k kvs'
  end.

(** [d[k] = v]: replaces the value in place, or appends a new key. *)
Fixpoint dict_set (k : string) (v : json) (kvs : list (string * json)) : list (string * json) :=
  match kvs with
  | [] => [(k, v)]
  | (k', v') :: kvs' => if decide (k = k') then (k', v) :: kvs' else (k', v') :: dict_set k v kvs'
  end.

(** [d.setdefault(k, v)]: no change when [k] is present. *)
Definition dict_setdefault (k : string) (v : json) (kvs : list (string * json)) :
    list (string * json) :=
  match dict_get k kvs with
  | Some _ => kvs
  | None => kvs ++ [(k, v)]
  end.

(** [l[i] = x] on a Python list: [IndexError] out of range. *)
Definition list_set {A} (i : nat) (x : A) (l : list A) : res (list A) :=
  if decide (i < length l)%nat then Ok (<[i := x]> l)
  else Raise (IndexError "list assignment index out of range").

(** Subscripting a JSON value held in a Python variable: [v[k]], [v[i]],
    and the assignments [v[k] = x], [v[i] = x]. *)
Definition getitem_key (k : string) (v : json) : res json :=
  match v with
  | JDict kvs => match dict_get k kvs with Some x => Ok x | None => Raise (KeyError k) end
  | _ => Raise (TypeError "not a dict")
  end.

Definition getitem_index (i : nat) (v : json) : res json :=
  match v with
  | JList l => match l !! i with Some x => Ok x | None => Raise (IndexError "list index out of range") end
  | _ => Raise (TypeError "not a list")
  end.

Definition setitem_key (k : string) (x : json) (v : json) : res json :=
  match v with
  | JDict kvs => Ok (JDict (dict_set k x kvs))
  | _ => Raise (TypeError "not a dict")
  end.

Definition setitem_index (i : nat) (x : json) (v : json) : res json :=
  match v with
  | JList l => res_map JList (list_set i x l)
  | _ => Raise (TypeError "not a list")
  end.

Definition setdefault_key (k : string) (x : json) (v : json) : res json :=
  match v with
  | JDict kvs => Ok (JDict (dict_setdefault k x kvs))
  | _ => Raise (TypeError "not a dict")
  end.

(** ** Lemmas *)

Lemma dict_get_set_eq k x kvs : dict_get k (dict_set k x kvs) = Some x.
Proof.
  induction kvs as [|[k' v'] kvs IH]; simpl; [by rewrite decide_True|].
  case_decide; simpl; [by rewrite decide_True | by rewrite decide_False].
Qed.

Lemma dict_get_set_ne k k' x kvs : k <> k' -> dict_get k' (dict_set k x kvs) = dict_get k' kvs.
Proof.
  intros Hne. induction kvs as [|[k'' v'] kvs IH]; simpl.
  - by rewrite decide_False.
  - case_decide as E; simpl; subst.
    + case_decide; [congruence | done].
    + case_decide; [done|]. apply IH.
Qed.

(** Updating a present key keeps the key order of the dict. *)
Lemma dict_set_keys k x kvs :
  is_Some (dict_get k kvs) -> map fst (dict_set k x kvs) = map fst kvs.
Proof.
  induction kvs as [|[k' v'] kvs IH]; simpl; [by intros []|].
  case_decide; simpl; [done|]. intros Hk. by rewrite IH.
Qed.

Lemma dict_setdefault_present k x kvs :
  is_Some (dict_get k kvs) -> dict_setdefault k x kvs = kvs.
Proof. unfold dict_setdefault. by intros [? ->]. Qed.
