(* ===== verification/FileSys.v ===== *)
(** * The file system the scripts read and write

    A directory is a [gmap] from file name to contents; the file system is
    a [gmap] from directory path (the string the scripts build) to
    directory. A file is a [Blob] of bytes or a zip [Archive] described by
    its entry list (the [zipfile] format and its compression are not
    modelled). The operations are the ones the scripts call:
    [os.makedirs(d, exist_ok=True)], [open(p, "w").write], [open(p,
    "rb").read], [os.path.exists], [shutil.rmtree], [shutil.copytree],
    [sorted(Path(d).glob(pat))] and [zipfile.ZipFile(p, "w")] with one
    [write] per entry. A path string [p] names the file [basename p] of the
    directory [dirname p]. A directory path is normalised by [dir_key]
    (trailing slashes dropped) before it is looked up, as the OS does for
    ["out/"] and ["out"]; other path spellings (["a//b"], ["./a"]) are
    distinct keys. *)

From Stdlib Require Import ZArith Lia Ascii String.
From S2P Require Import Prelude PyStr.

Local Open Scope string_scope.

Inductive file : Type :=
| Blob (data : list Byte.byte)
| Archive (entries : list (string * list Byte.byte)).

Abbreviation dir := (gmap string file).
Abbreviation fs := (gmap string dir).

#[export] Instance file_eq_dec : EqDecision file.
Proof. solve_decision. Defined.

(** The key of a directory path: ["out/"] and ["out"] are one directory. *)
Definition dir_key (d : string) : string := if all_slashes d then d else rstrip_slashes d.

Definition lookup_dir (d : string) (s : fs) : option dir := s !! dir_key d.

(** [os.makedirs(d, exist_ok=True)]: the empty path raises. *)
Definition makedirs (d : string) (s : fs) : res fs :=
  if bool_decide (d = EmptyString) then Raise (FileNotFoundError d)
  else match lookup_dir d s with
  | Some _ => Ok s
  | None => Ok (<[dir_key d := ∅]> s)
  end.

Definition exists_dir (d : string) (s : fs) : bool := bool_decide (is_Some (lookup_dir d s)).

(** Writing a file (truncating) in an existing directory. *)
Definition put_file (d name : string) (f : file) (s : fs) : res fs :=
  match lookup_dir d s with
  | Some files => Ok (<[dir_key d := <[name := f]> files]> s)
  | None => Raise (FileNotFoundError (path_join d name))
  end.

(** [open(p, "w").write(text)] for a text file written as UTF-8. *)
Definition write_path (p : string) (data : list Byte.byte) (s : fs) : res fs :=
  put_file (dirname p) (basename p) (Blob data) s.

(** [with zipfile.ZipFile(p, "w") as zf: zf.write(...)] *)
Definition write_archive (p : string) (entries : list (string * list Byte.byte)) (s : fs) : res fs :=
  put_file (dirname p) (basename p) (Archive entries) s.

(** [open(path, "rb").read()] *)
Definition read_file (d name : string) (s : fs) : res (list Byte.byte) :=
  match lookup_dir d s with
  | Some files =>
      match files !! name with
      | Some (Blob b) => Ok b
      | Some (Archive _) => Raise (ArchiveRead (path_join d name))
      | None => Raise (FileNotFoundError (path_join d name))
      end
  | None => Raise (FileNotFoundError (path_join d name))
  end.

Definition lookup_file (d name : string) (s : fs) : option file :=
  lookup_dir d s ≫= lookup name.

Definition read_path (p : string) (s : fs) : res (list Byte.byte) :=
  read_file (dirname p) (basename p) s.

(** [shutil.rmtree(d)] on an existing directory. *)
Definition rmtree (d : string) (s : fs) : fs := delete (dir_key d) s.

(** [shutil.copytree(src, dst)]: [dst] must not exist. *)
Definition copytree (src dst : string) (s : fs) : res fs :=
  match lookup_dir src s with
  | None => Raise (FileNotFoundError src)
  | Some files =>
      if exists_dir dst s then Raise (FileExistsError dst)
      else Ok (<[dir_key dst := files]> s)
  end.

(** [sorted(Path(d).glob(pre + "*" + suf))]: the matching names in
    increasing order; no names for a missing directory. *)
Definition glob (d pre suf : string) (s : fs) : list string :=
  match lookup_dir d s with
  | Some files => merge_sort String.le (filter (glob_match pre suf) (map fst (map_to_list files)))
  | None => []
  end.

(** [with zipfile.ZipFile(p, "w") as zf: for q in paths: zf.write(q,
    arcname=os.path.basename(q))]: opening creates (or truncates) the
    archive; each [write] reads a file; an exception leaves the archive
    with the entries written so far ([__exit__] closes it) and is passed
    on. *)
Fixpoint zip_entries (paths : list string) (s : fs) : list (string * list Byte.byte) * res unit :=
  match paths with
  | [] => ([], Ok tt)
  | q :: qs =>
      match read_path q s with
      | Raise e => ([], Raise e)
      | Ok b => let '(es, r) := zip_entries qs s in ((basename q, b) :: es, r)
      end
  end.

Definition zip_files (p : string) (paths : list string) (s : fs) : fs * res unit :=
  match write_archive p [] s with
  | Raise e => (s, Raise e)
  | Ok s1 =>
      let '(es, r) := zip_entries paths s1 in
      match write_archive p es s1 with
      | Ok s2 => (s2, r)
      | Raise e => (s1, Raise e)
      end
  end.

(** ** Lemmas *)

Lemma put_file_ok d name f s :
  is_Some (lookup_dir d s) -> exists s', put_file d name f s = Ok s'.
Proof. unfold put_file. intros [files ->]. eauto. Qed.

Lemma put_file_dirs d name f s s' d' :
  put_file d name f s = Ok s' -> is_Some (lookup_dir d' s) -> is_Some (lookup_dir d' s').
Proof.
  unfold put_file, lookup_dir. destruct (s !! dir_key d) eqn:E; [|done]. intros [= <-].
  destruct (decide (dir_key d' = dir_key d)) as [->|]; [by rewrite lookup_insert_eq|].
  by rewrite lookup_insert_ne.
Qed.

Lemma put_file_same d name f s s' :
  put_file d name f s = Ok s' -> lookup_file d name s' = Some f.
Proof.
  unfold put_file, lookup_file, lookup_dir. destruct (s !! dir_key d) eqn:E; [|done].
  intros [= <-]. by rewrite lookup_insert_eq; cbn; rewrite lookup_insert_eq.
Qed.

Lemma put_file_other d name f s s' d' name' :
  put_file d name f s = Ok s' -> (dir_key d', name') <> (dir_key d, name) ->
  lookup_file d' name' s' = lookup_file d' name' s.
Proof.
  unfold put_file, lookup_file, lookup_dir. destruct (s !! dir_key d) eqn:E; [|done].
  intros [= <-] Hne. destruct (decide (dir_key d' = dir_key d)) as [Hd|Hd].
  - rewrite Hd, lookup_insert_eq, E. cbn. rewrite lookup_insert_ne; [done|]. congruence.
  - by rewrite lookup_insert_ne.
Qed.

Lemma read_path_lookup p s b : lookup_file (dirname p) (basename p) s = Some (Blob b) -> read_path p s = Ok b.
Proof.
  unfold read_path, read_file, lookup_file. destruct (lookup_dir (dirname p) s); [|done].
  cbn. by intros ->.
Qed.

Lemma makedirs_ok d s : d <> EmptyString -> exists s', makedirs d s = Ok s' /\ is_Some (lookup_dir d s') /\
  forall d' name, lookup_file d' name s' = lookup_file d' name s.
Proof.
  intros Hd. unfold makedirs. rewrite bool_decide_eq_false_2 by done.
  destruct (lookup_dir d s) eqn:E; [eexists; split; [done|]; split; [by eexists|done]|].
  eexists; split; [done|]. unfold lookup_file, lookup_dir in *. split; [rewrite lookup_insert_eq; by eexists|].
  intros d' name. destruct (decide (dir_key d' = dir_key d)) as [->|Hne].
  - by rewrite lookup_insert_eq, E.
  - by rewrite lookup_insert_ne.
Qed.

Lemma zip_files_other p paths s d' name' :
  (dir_key d', name') <> (dir_key (dirname p), basename p) ->
  lookup_file d' name' (zip_files p paths s).1 = lookup_file d' name' s.
Proof.
  intros Hne. unfold zip_files, write_archive.
  destruct (put_file _ _ _ s) as [s1|e] eqn:E1; [|done].
  destruct (zip_entries paths s1) as [es r]. cbn.
  destruct (put_file _ _ _ s1) as [s2|e] eqn:E2; cbn;
    [rewrite (put_file_other _ _ _ _ _ _ _ E2 Hne)|]; by rewrite (put_file_other _ _ _ _ _ _ _ E1 Hne).
Qed.

Lemma zip_files_dirs p paths s d : is_Some (lookup_dir d s) -> is_Some (lookup_dir d (zip_files p paths s).1).
Proof.
  intros Hd. unfold zip_files, write_archive.
  destruct (put_file _ _ _ s) as [s1|e] eqn:E1; [|done].
  pose proof (put_file_dirs _ _ _ _ _ d E1 Hd) as Hd1.
  destruct (zip_entries paths s1) as [es r]. cbn.
  destruct (put_file _ _ _ s1) as [s2|e] eqn:E2; [|done]. cbn. by apply (put_file_dirs _ _ _ _ _ d E2).
Qed.

Lemma lookup_file_key d1 d2 name s : dir_key d1 = dir_key d2 -> lookup_file d1 name s = lookup_file d2 name s.
Proof. unfold lookup_file, lookup_dir. by intros ->. Qed.

Lemma lookup_dir_key d1 d2 s : dir_key d1 = dir_key d2 -> lookup_dir d1 s = lookup_dir d2 s.
Proof. unfold lookup_dir. by intros ->. Qed.

(** Reading a file only depends on what [lookup_file] finds. *)
Lemma read_file_lookup d name s :
  read_file d name s =
  match lookup_file d name s with
  | Some (Blob b) => Ok b
  | Some (Archive _) => Raise (ArchiveRead (path_join d name))
  | None => Raise (FileNotFoundError (path_join d name))
  end.
Proof. unfold read_file, lookup_file. by destruct (lookup_dir d s). Qed.

Lemma read_path_frame q s1 s2 :
  lookup_file (dirname q) (basename q) s1 = lookup_file (dirname q) (basename q) s2 ->
  read_path q s1 = read_path q s2.
Proof. unfold read_path. rewrite !read_file_lookup. by intros ->. Qed.

Lemma zip_entries_ok paths bs s :
  Forall2 (fun q b => read_path q s = Ok b) paths bs ->
  zip_entries paths s = (zip (map basename paths) bs, Ok tt).
Proof. induction 1 as [|q b qs bs' Hq _ IH]; [done|]. cbn. by rewrite Hq, IH. Qed.

(** [zip_files] succeeds when the archive's directory exists and every
    path is readable and is not the archive: the archive then holds the
    files under their base names, in order. *)
Lemma zip_files_ok p paths bs s :
  is_Some (lookup_dir (dirname p) s) ->
  Forall2 (fun q b => read_path q s = Ok b) paths bs ->
  Forall (fun q => (dir_key (dirname q), basename q) <> (dir_key (dirname p), basename p)) paths ->
  exists s', zip_files p paths s = (s', Ok tt) /\
    lookup_file (dirname p) (basename p) s' = Some (Archive (zip (map basename paths) bs)).
Proof.
  intros Hd Hr Hne. unfold zip_files, write_archive.
  destruct (put_file_ok (dirname p) (basename p) (Archive []) s Hd) as [s1 E1]. rewrite E1.
  rewrite (zip_entries_ok paths bs s1).
  2:{ clear Hd. revert Hne. induction Hr as [|q b qs bs' Hq _ IH]; intros Hne; constructor;
        apply Forall_cons in Hne as [Hn Hne]; [|by apply IH].
      rewrite <- Hq. apply read_path_frame. exact (put_file_other _ _ _ _ _ _ _ E1 Hn). }
  destruct (put_file_ok (dirname p) (basename p) (Archive (zip (map basename paths) bs)) s1)
    as [s2 E2]; [by apply (put_file_dirs _ _ _ _ _ _ E1)|].
  rewrite E2. eexists; split; [done|]. by apply (put_file_same _ _ _ _ _ E2).
Qed.

Lemma glob_elem d pre suf s n :
  n ∈ glob d pre suf s ->
  glob_match pre suf n = true /\ exists files f, lookup_dir d s = Some files /\ files !! n = Some f.
Proof.
  unfold glob. destruct (lookup_dir d s) as [files|] eqn:E; [|by intros ?%elem_of_nil].
  rewrite (merge_sort_Permutation _ _), list_elem_of_filter. intros [Hm Hn]. split; [by destruct (glob_match pre suf n)|].
  apply list_elem_of_fmap in Hn as ([n' f] & -> & Hin%elem_of_map_to_list). eauto.
Qed.

(** Creating a directory never changes what a glob finds. *)
Lemma glob_makedirs d d' pre suf s s' : makedirs d' s = Ok s' -> glob d pre suf s' = glob d pre suf s.
Proof.
  unfold makedirs. case_bool_decide; [done|].
  destruct (lookup_dir d' s) eqn:E; [by intros [= <-]|]. intros [= <-].
  unfold glob, lookup_dir in *. destruct (decide (dir_key d = dir_key d')) as [Hk|Hk].
  - by rewrite Hk, lookup_insert_eq, E, map_to_list_empty.
  - by rewrite lookup_insert_ne.
Qed.

Lemma makedirs_dirs d s s' d' : makedirs d s = Ok s' -> is_Some (lookup_dir d' s) -> is_Some (lookup_dir d' s').
Proof.
  unfold makedirs. case_bool_decide; [done|].
  destruct (lookup_dir d s) eqn:E; [by intros [= <-]|]. intros [= <-].
  unfold lookup_dir in *. destruct (decide (dir_key d' = dir_key d)) as [->|];
    [rewrite lookup_insert_eq; by eexists | by rewrite lookup_insert_ne].
Qed.

Lemma glob_NoDup d pre suf s : NoDup (glob d pre suf s).
Proof.
  unfold glob. destruct (lookup_dir d s); [|constructor].
  rewrite (merge_sort_Permutation _ _). apply NoDup_filter, NoDup_fst_map_to_list.
Qed.

(** A glob only looks at its own directory. *)
Lemma glob_same_dir d pre suf s s' : lookup_dir d s' = lookup_dir d s -> glob d pre suf s' = glob d pre suf s.
Proof. unfold glob. by intros ->. Qed.

Lemma put_file_dir_other d name f s s' d' :
  put_file d name f s = Ok s' -> dir_key d' <> dir_key d -> lookup_dir d' s' = lookup_dir d' s.
Proof.
  unfold put_file, lookup_dir. destruct (s !! dir_key d); [|done]. intros [= <-] Hne.
  by rewrite lookup_insert_ne.
Qed.

Lemma zip_files_dir_other p paths s d' :
  dir_key d' <> dir_key (dirname p) -> lookup_dir d' (zip_files p paths s).1 = lookup_dir d' s.
Proof.
  intros Hne. unfold zip_files, write_archive.
  destruct (put_file _ _ _ s) as [s1|e] eqn:E1; [|done].
  destruct (zip_entries paths s1) as [es r]. cbn.
  destruct (put_file _ _ _ s1) as [s2|e] eqn:E2; cbn;
    [rewrite (put_file_dir_other _ _ _ _ _ _ E2 Hne)|]; by rewrite (put_file_dir_other _ _ _ _ _ _ E1 Hne).
Qed.

(** When the matching files of [d] are the names [names], without
    duplicates, the glob is [names] sorted. *)
Lemma glob_listing d pre suf s names :
  is_Some (lookup_dir d s) -> NoDup names ->
  Forall (fun n => glob_match pre suf n = true) names ->
  (forall n, glob_match pre suf n = true -> is_Some (lookup_file d n s) <-> n ∈ names) ->
  glob d pre suf s = merge_sort String.le names.
Proof.
  intros [files Hd] Hnd Hm Hiff. unfold glob. rewrite Hd.
  apply (Sorted_unique String.le); [apply Sorted_merge_sort; typeclasses eauto..|].
  etrans; [apply merge_sort_Permutation|]. etrans; [|symmetry; apply merge_sort_Permutation].
  apply NoDup_Permutation.
  - apply NoDup_filter, NoDup_fst_map_to_list.
  - done.
  - intros n. rewrite list_elem_of_filter. split.
    + intros [Hn Hin]. assert (Hn' : glob_match pre suf n = true) by (by destruct (glob_match pre suf n)).
      apply Hiff; [done|]. unfold lookup_file. rewrite Hd. cbn.
      apply list_elem_of_fmap in Hin as ([n' f] & -> & Hin%elem_of_map_to_list). by exists f.
    + intros Hin. rewrite Forall_forall in Hm. pose proof (Hm n Hin) as Hn.
      split; [by rewrite Hn|]. apply Hiff in Hin as [f Hf]; [|done].
      unfold lookup_file in Hf. rewrite Hd in Hf. cbn in Hf.
      apply list_elem_of_fmap. exists (n, f). split; [done|]. by apply elem_of_map_to_list.
Qed.

(** The same, when [names] is already sorted. *)
Lemma glob_exact d pre suf s names :
  is_Some (lookup_dir d s) -> NoDup names -> Sorted String.le names ->
  Forall (fun n => glob_match pre suf n = true) names ->
  (forall n, glob_match pre suf n = true -> is_Some (lookup_file d n s) <-> n ∈ names) ->
  glob d pre suf s = names.
Proof.
  intros Hd Hnd Hsort Hm Hiff. rewrite (glob_listing d pre suf s names) by done.
  apply (Sorted_unique String.le); [apply Sorted_merge_sort; typeclasses eauto|done|apply merge_sort_Permutation].
Qed.
