(* ===== verification/Paths.v ===== *)
(** * Lemmas on [os.path.join], [dirname] and [basename]

    The scripts build every output path as [os.path.join(d, name)] with a
    file name [name] that holds no slash, and read it back through
    [dirname]/[basename] (the directory and file of [FileSys]). The lemmas
    here show that such a path names the file [name] of the directory [d]
    (up to trailing slashes, which [FileSys.dir_key] drops), and that a
    path ending in an extension without slash has a base name ending in
    it; and that every operation of [FileSys] keeps file names free of
    slashes ([fs_wf]). *)

From Stdlib Require Import ZArith Lia Ascii String.
From S2P Require Import Prelude PyStr FileSys.

Local Open Scope string_scope.

(** [s] ends with [t]. *)
Definition str_suffix (t s : string) : Prop := exists q, s = String.append q t.

(** A file system whose file names hold no slash, as on a real disk. *)
Definition fs_wf (s : fs) : Prop :=
  forall d files n f, s !! d = Some files -> files !! n = Some f -> no_slash n = true.

Section Paths.

Lemma all_slashes_forall s : all_slashes s = str_forall (fun c => bool_decide (c = "/"%char)) s.
Proof. induction s as [|c s IH]; [done|]. cbn. by rewrite IH. Qed.

Lemma all_slashes_rev s : all_slashes (str_rev s) = all_slashes s.
Proof. by rewrite !all_slashes_forall, str_forall_rev. Qed.

Lemma str_rev_cons c s : str_rev (String c s) = String.append (str_rev s) (String c EmptyString).
Proof. reflexivity. Qed.

Lemma str_rev_inj s t : str_rev s = str_rev t -> s = t.
Proof. intros H. by rewrite <- (str_rev_involutive s), H, str_rev_involutive. Qed.

Lemma str_app_inv_l s x y : String.append s x = String.append s y -> x = y.
Proof. induction s as [|c s IH]; [done|]. rewrite !str_app_cons. intros [= H]. auto. Qed.

Lemma str_app_inv_r s x y : String.append x s = String.append y s -> x = y.
Proof.
  intros H. apply (f_equal str_rev) in H. rewrite !str_rev_append in H.
  by apply str_app_inv_l, str_rev_inj in H.
Qed.

Lemma split_last_none c t :
  str_forall (fun a => bool_decide (a <> c)) t = true -> split_last c t = None.
Proof.
  induction t as [|a t IH]; [done|]. cbn. intros [Ha Ht]%andb_prop.
  rewrite IH by done. apply bool_decide_eq_true in Ha. by rewrite decide_False.
Qed.

Lemma split_last_app c s t :
  str_forall (fun a => bool_decide (a <> c)) t = true ->
  split_last c (String.append s t) = option_map (fun ba => (ba.1, String.append ba.2 t)) (split_last c s).
Proof.
  intros Ht. induction s as [|a s IH]; [by apply split_last_none|].
  rewrite str_app_cons. cbn [split_last]. rewrite IH. destruct (split_last c s) as [[b a']|]; [done|]. cbn. by case_decide.
Qed.

Lemma split_last_sep c s t :
  str_forall (fun a => bool_decide (a <> c)) t = true ->
  split_last c (String.append s (String c t)) = Some (s, t).
Proof.
  intros Ht. induction s as [|a s IH].
  { rewrite str_app_nil_l. cbn [split_last]. by rewrite split_last_none, decide_True. }
  rewrite str_app_cons. cbn [split_last]. by rewrite IH.
Qed.

Lemma split_last_some c s b a : split_last c s = Some (b, a) -> s = String.append b (String c a).
Proof.
  revert b a. induction s as [|x s IH]; intros b a; cbn; [done|].
  destruct (split_last c s) as [[b' a']|] eqn:E.
  - intros [= <- <-]. by rewrite (IH b' a' eq_refl).
  - case_decide; [|done]. intros [= <- <-]. by subst.
Qed.

Lemma ends_with_slash_app d : ends_with_slash d = true -> exists d', d = String.append d' "/".
Proof.
  unfold ends_with_slash. intros H. destruct (str_rev d) as [|c r] eqn:E; [done|].
  destruct c as [[] [] [] [] [] [] [] []]; try done.
  exists (str_rev r). by rewrite <- (str_rev_involutive d), E, str_rev_cons.
Qed.

Lemma lstrip_slashes_shape t :
  (lstrip_slashes t = EmptyString /\ all_slashes t = true) \/
  exists c u, lstrip_slashes t = String c u /\ c <> "/"%char /\ all_slashes t = false.
Proof.
  induction t as [|c t IH]; [by left|].
  destruct (decide (c = "/"%char)) as [->|Hc].
  - cbn -[all_slashes]. rewrite all_slashes_forall; cbn; rewrite <- all_slashes_forall. done.
  - right. exists c, t. split; [|split; [done|]].
    + destruct c as [[] [] [] [] [] [] [] []]; first [done | by contradict Hc].
    + cbn. by rewrite bool_decide_eq_false_2.
Qed.

Lemma lstrip_slashes_nonslash c u : c <> "/"%char -> lstrip_slashes (String c u) = String c u.
Proof. intros Hc. destruct c as [[] [] [] [] [] [] [] []]; first [done | by contradict Hc]. Qed.

Lemma all_slashes_app_slash d : all_slashes (String.append d "/") = all_slashes d.
Proof. rewrite !all_slashes_forall, str_forall_append. cbn. by rewrite andb_true_r. Qed.

Lemma rstrip_slashes_app_slash d : rstrip_slashes (String.append d "/") = rstrip_slashes d.
Proof. unfold rstrip_slashes. by rewrite str_rev_append. Qed.

Lemma dir_key_app_slash d : all_slashes d = false -> dir_key (String.append d "/") = dir_key d.
Proof. intros H. unfold dir_key. by rewrite all_slashes_app_slash, H, rstrip_slashes_app_slash. Qed.

(** [dir_key] is a normal form. *)
Lemma dir_key_idem d : dir_key (dir_key d) = dir_key d.
Proof.
  unfold dir_key. destruct (all_slashes d) eqn:E; [by rewrite E|].
  unfold rstrip_slashes.
  destruct (lstrip_slashes_shape (str_rev d)) as [[_ Hall]|(c & u & Hl & Hc & _)];
    [by rewrite all_slashes_rev, E in Hall|].
  rewrite Hl, all_slashes_rev, str_rev_involutive, lstrip_slashes_nonslash by done.
  cbn. by rewrite bool_decide_eq_false_2.
Qed.

Lemma not_ends_all_slashes d : d <> EmptyString -> ends_with_slash d = false -> all_slashes d = false.
Proof.
  unfold ends_with_slash. intros Hd He. rewrite <- all_slashes_rev.
  destruct (str_rev d) as [|c r] eqn:E.
  - contradict Hd. apply str_rev_inj. by rewrite E.
  - destruct (decide (c = "/"%char)) as [->|Hc]; [done|]. cbn. by rewrite bool_decide_eq_false_2.
Qed.

Lemma path_join_nonslash a c b : c <> "/"%char ->
  path_join a (String c b) =
  if bool_decide (a = EmptyString) || ends_with_slash a
  then String.append a (String c b) else String.append a (String "/" (String c b)).
Proof. intros Hc. destruct c as [[] [] [] [] [] [] [] []]; first [reflexivity | by contradict Hc]. Qed.

Lemma no_slash_head c b : no_slash (String c b) = true -> c <> "/"%char.
Proof. cbn. intros [Hc _]%andb_prop. by apply bool_decide_eq_true in Hc. Qed.

(** [os.path.join(d, name)] for a non-empty [d] and a name without slash
    is [d' + "/" + name] with [d' + "/"] the same directory as [d]. *)
Lemma path_join_shape d n : no_slash n = true -> d <> EmptyString ->
  exists d', path_join d n = String.append d' (String "/" n) /\ dir_key (String.append d' "/") = dir_key d.
Proof.
  intros Hn Hd. assert (Hj : path_join d n = if ends_with_slash d then String.append d n
                              else String.append d (String "/" n)).
  { destruct n as [|c b].
    - cbn. by rewrite bool_decide_eq_false_2.
    - rewrite path_join_nonslash by (by apply (no_slash_head c b)). by rewrite bool_decide_eq_false_2. }
  rewrite Hj. destruct (ends_with_slash d) eqn:E.
  - destruct (ends_with_slash_app d E) as [d' ->]. exists d'. split; [|done].
    by rewrite <- str_app_assoc.
  - exists d. split; [done|]. by apply dir_key_app_slash, not_ends_all_slashes.
Qed.

Lemma basename_join d n : no_slash n = true -> d <> EmptyString -> basename (path_join d n) = n.
Proof.
  intros Hn Hd. destruct (path_join_shape d n Hn Hd) as (d' & -> & _).
  unfold basename. by rewrite split_last_sep.
Qed.

Lemma dirname_join d n : no_slash n = true -> d <> EmptyString ->
  dir_key (dirname (path_join d n)) = dir_key d.
Proof.
  intros Hn Hd. destruct (path_join_shape d n Hn Hd) as (d' & -> & Hk).
  unfold dirname. rewrite split_last_sep by done. cbn zeta.
  change (dir_key (dir_key (String.append d' "/")) = dir_key d). by rewrite dir_key_idem.
Qed.

Lemma path_join_suffix a b : str_suffix b (path_join a b).
Proof.
  destruct b as [|c b].
  - exists (path_join a EmptyString). by rewrite str_app_nil_r.
  - destruct (decide (c = "/"%char)) as [->|Hc]; [by exists EmptyString|].
    rewrite path_join_nonslash by done.
    destruct (_ || _); [by exists a|]. exists (String.append a "/"). by rewrite <- str_app_assoc.
Qed.

Lemma basename_suffix p ext : no_slash ext = true -> str_suffix ext p -> str_suffix ext (basename p).
Proof.
  intros Hx [q ->]. unfold basename. rewrite split_last_app by done.
  destruct (split_last "/" q) as [[b a]|]; cbn; [by exists a | by exists q].
Qed.

Lemma app_eq_prefix x y u v :
  String.append x y = String.append u v -> String.prefix x u = true \/ String.prefix u x = true.
Proof.
  revert u. induction x as [|c x IH]; intros u; [left; by destruct u|].
  destruct u as [|d u]; [by right|]. rewrite !str_app_cons. intros [= <- H].
  cbn [String.prefix]. destruct (ascii_dec c c); [|done]. by apply IH.
Qed.

(** A name cannot end with two extensions neither of which ends the
    other. *)
Lemma suffix_exclusive t1 t2 s : str_suffix t1 s -> str_suffix t2 s ->
  String.prefix (str_rev t1) (str_rev t2) = false -> String.prefix (str_rev t2) (str_rev t1) = false ->
  False.
Proof.
  intros [q1 ->] [q2 H] H12 H21. apply (f_equal str_rev) in H. rewrite !str_rev_append in H.
  destruct (app_eq_prefix _ _ _ _ H); congruence.
Qed.

Lemma str_suffix_app x t s : str_suffix (String.append x t) s -> str_suffix t s.
Proof. intros [q ->]. exists (String.append q x). by rewrite str_app_assoc. Qed.

(** The base name of [os.path.join(a, b + ext)] ends with [ext]. *)
Lemma basename_join_ext a b ext : no_slash ext = true ->
  str_suffix ext (basename (path_join a (String.append b ext))).
Proof. intros Hx. apply basename_suffix; [done|]. eapply str_suffix_app, path_join_suffix. Qed.

Lemma prefix_app p s : String.prefix p s = true -> exists r, s = String.append p r.
Proof.
  revert s. induction p as [|c p IH]; intros s; [by exists s|].
  destruct s as [|d s]; [done|]. cbn [String.prefix]. destruct (ascii_dec c d) as [->|]; [|done].
  intros (r & ->)%IH. by exists r.
Qed.

(** A name matched by [glob(pre + "*" + suf)] ends with [suf]. *)
Lemma glob_match_suffix pre suf n : glob_match pre suf n = true -> str_suffix suf n.
Proof.
  unfold glob_match. intros [[_ H]%andb_prop _]%andb_prop. apply prefix_app in H as [r Hr].
  exists (str_rev r). apply str_rev_inj. by rewrite str_rev_append, str_rev_involutive.
Qed.

Lemma no_slash_append s t : no_slash (String.append s t) = no_slash s && no_slash t.
Proof. apply str_forall_append. Qed.

(** [PurePath.stem] of a name without slash has no slash. *)
Lemma path_stem_no_slash n : no_slash n = true -> no_slash (path_stem n) = true.
Proof.
  unfold path_stem. destruct (split_last "." n) as [[b a]|] eqn:E; [|done].
  apply split_last_some in E as ->. intros Hn. case_bool_decide; [|done].
  rewrite no_slash_append in Hn. by apply andb_prop in Hn as [? _].
Qed.

Lemma rstrip_slashes_no_slash d : d <> EmptyString -> no_slash d = true -> rstrip_slashes d = d.
Proof.
  intros Hd Hn. unfold rstrip_slashes. destruct (str_rev d) as [|c r] eqn:E.
  - contradict Hd. apply str_rev_inj. by rewrite E.
  - rewrite lstrip_slashes_nonslash, <- E, str_rev_involutive; [done|].
    apply (no_slash_head c r). unfold no_slash. by rewrite <- E, str_forall_rev.
Qed.

Lemma all_slashes_no_slash d : d <> EmptyString -> no_slash d = true -> all_slashes d = false.
Proof.
  destruct d as [|c d]; [done|]. intros _ Hn. cbn. by rewrite bool_decide_eq_false_2 by (by apply (no_slash_head c d)).
Qed.

Lemma ends_with_slash_no_slash d : no_slash d = true -> ends_with_slash d = false.
Proof.
  intros Hn. unfold ends_with_slash. destruct (str_rev d) as [|c r] eqn:E; [done|].
  assert (Hc : c <> "/"%char) by (apply (no_slash_head c r); unfold no_slash; by rewrite <- E, str_forall_rev).
  destruct c as [[] [] [] [] [] [] [] []]; first [done | by contradict Hc].
Qed.

(** [os.path.basename] and [os.path.dirname] of ["d/"]. *)
Lemma basename_trailing_slash d : no_slash d = true -> basename (String.append d "/") = EmptyString.
Proof. intros Hn. unfold basename. by rewrite split_last_sep. Qed.

Lemma dirname_trailing_slash d : d <> EmptyString -> no_slash d = true -> dirname (String.append d "/") = d.
Proof.
  intros Hd Hn. unfold dirname. rewrite split_last_sep by done. cbn zeta.
  rewrite all_slashes_app_slash, all_slashes_no_slash, rstrip_slashes_app_slash by done.
  by apply rstrip_slashes_no_slash.
Qed.

Lemma basename_no_slash d : no_slash d = true -> basename d = d.
Proof. intros Hn. unfold basename. by rewrite split_last_none. Qed.

Lemma dirname_no_slash d : no_slash d = true -> dirname d = EmptyString.
Proof. intros Hn. unfold dirname. by rewrite split_last_none. Qed.

Lemma path_join_empty b : path_join EmptyString b = b.
Proof.
  destruct b as [|c b]; [done|]. destruct (decide (c = "/"%char)) as [->|Hc]; [done|].
  by rewrite path_join_nonslash.
Qed.

End Paths.

(** ** Writing [os.path.join(d, name)] *)

Section Write.

Lemma str_length_app s t : String.length (String.append s t) = (String.length s + String.length t)%nat.
Proof. induction s as [|c s IH]; [done|]. rewrite str_app_cons. cbn. by rewrite IH. Qed.

Lemma str_length_rev s : String.length (str_rev s) = String.length s.
Proof. induction s as [|c s IH]; [done|]. rewrite str_rev_cons, str_length_app, IH. cbn. lia. Qed.

Lemma lstrip_slashes_length t : (String.length (lstrip_slashes t) <= String.length t)%nat.
Proof.
  induction t as [|c t IH]; [done|].
  destruct (decide (c = "/"%char)) as [->|Hc]; [cbn; lia|]. by rewrite lstrip_slashes_nonslash.
Qed.

Lemma dir_key_length d : (String.length (dir_key d) <= String.length d)%nat.
Proof.
  unfold dir_key. destruct (all_slashes d); [done|]. unfold rstrip_slashes.
  rewrite str_length_rev. etrans; [apply lstrip_slashes_length|]. by rewrite str_length_rev.
Qed.

(** A directory named [d + t], for a non-empty [t] without slash, is not
    the directory [d] (e.g. the backup [d + "_bak"]). *)
Lemma dir_key_append_ne d t : t <> EmptyString -> no_slash t = true -> dir_key (String.append d t) <> dir_key d.
Proof.
  intros Ht Hn. assert (Hk : dir_key (String.append d t) = String.append d t).
  { unfold dir_key. rewrite !all_slashes_forall, str_forall_append, <- !all_slashes_forall.
    rewrite (all_slashes_no_slash t), andb_false_r by done. unfold rstrip_slashes.
    rewrite str_rev_append. destruct (str_rev t) as [|c r] eqn:E.
    - contradict Ht. apply str_rev_inj. by rewrite E.
    - rewrite str_app_cons, lstrip_slashes_nonslash, <- str_app_cons, <- E, <- str_rev_append;
        [apply str_rev_involutive|].
      apply (no_slash_head c r). unfold no_slash. by rewrite <- E, str_forall_rev. }
  rewrite Hk. intros Heq. pose proof (dir_key_length d) as Hl. rewrite <- Heq, str_length_app in Hl.
  destruct t; [done|]. cbn in Hl. lia.
Qed.

Context (d n : string) (Hd : d <> EmptyString) (Hn : no_slash n = true).

(** [open(os.path.join(d, n), "w").write(...)] in an existing directory
    [d]: the file [n] of [d] holds the data, nothing else changes. *)
Lemma write_join_ok data s :
  is_Some (lookup_dir d s) ->
  exists s', write_path (path_join d n) data s = Ok s' /\
    lookup_file d n s' = Some (Blob data) /\
    (forall d' x, (dir_key d', x) <> (dir_key d, n) -> lookup_file d' x s' = lookup_file d' x s) /\
    (forall d', dir_key d' <> dir_key d -> lookup_dir d' s' = lookup_dir d' s) /\
    (forall d', is_Some (lookup_dir d' s) -> is_Some (lookup_dir d' s')).
Proof.
  intros Hex. pose proof (dirname_join d n Hn Hd) as Hdir.
  unfold write_path. rewrite (basename_join d n Hn Hd).
  destruct (put_file_ok (dirname (path_join d n)) n (Blob data) s) as [s' E];
    [by rewrite (lookup_dir_key _ d)|].
  rewrite E. eexists; split; [done|]. split; [|split; [|split]].
  - rewrite <- (lookup_file_key _ _ _ _ Hdir). by apply (put_file_same _ _ _ _ _ E).
  - intros d' x Hne. apply (put_file_other _ _ _ _ _ _ _ E). by rewrite Hdir.
  - intros d' Hne. apply (put_file_dir_other _ _ _ _ _ _ E). by rewrite Hdir.
  - intros d'. by apply (put_file_dirs _ _ _ _ _ _ E).
Qed.

Lemma read_join s data : lookup_file d n s = Some (Blob data) -> read_path (path_join d n) s = Ok data.
Proof.
  intros Hl. apply read_path_lookup.
  by rewrite (basename_join d n Hn Hd), (lookup_file_key _ d), Hl by auto using dirname_join.
Qed.

End Write.

(** ** Glob patterns *)

Section GlobMatch.

Lemma prefix_refl_app p r : String.prefix p (String.append p r) = true.
Proof.
  induction p as [|c p IH]; [by destruct r|]. rewrite str_app_cons. cbn [String.prefix].
  by destruct (ascii_dec c c).
Qed.

(** A name of the form [pre + x + suf] matches [pre + "*" + suf]. *)
Lemma glob_match_intro pre x suf :
  glob_match pre suf (String.append pre (String.append x suf)) = true.
Proof.
  unfold glob_match. rewrite prefix_refl_app. cbn.
  rewrite str_app_assoc, str_rev_append, prefix_refl_app. cbn.
  apply bool_decide_eq_true_2. rewrite !str_length_app. lia.
Qed.

End GlobMatch.

(** ** Well-formed file systems *)

Section Wf.

Lemma split_last_none_inv c t : split_last c t = None -> str_forall (fun a => bool_decide (a <> c)) t = true.
Proof.
  induction t as [|a t IH]; [done|]. cbn. destruct (split_last c t) as [[]|]; [done|].
  case_decide; [done|]. intros _. rewrite IH by done. by rewrite bool_decide_eq_true_2.
Qed.

Lemma split_last_after c s b a : split_last c s = Some (b, a) -> str_forall (fun x => bool_decide (x <> c)) a = true.
Proof.
  revert b a. induction s as [|x s IH]; intros b a; cbn; [done|].
  destruct (split_last c s) as [[b' a']|] eqn:E.
  - intros [= <- <-]. by apply (IH b').
  - case_decide; [|done]. intros [= <- <-]. by apply split_last_none_inv.
Qed.

(** [os.path.basename] never holds a slash. *)
Lemma basename_no_slash_any p : no_slash (basename p) = true.
Proof.
  unfold basename. destruct (split_last "/" p) as [[b a]|] eqn:E;
    [by apply split_last_after in E | by apply split_last_none_inv].
Qed.

Lemma fs_wf_insert_dir s d files :
  fs_wf s -> (forall n f, files !! n = Some f -> no_slash n = true) -> fs_wf (<[d := files]> s).
Proof.
  intros Hs Hf d' files' n f. destruct (decide (d' = d)) as [->|Hne].
  - rewrite lookup_insert_eq. intros [= <-]. apply Hf.
  - rewrite lookup_insert_ne by done. apply Hs.
Qed.

Lemma fs_wf_makedirs d s s' : fs_wf s -> makedirs d s = Ok s' -> fs_wf s'.
Proof.
  intros Hs. unfold makedirs. case_bool_decide; [done|].
  destruct (lookup_dir d s); intros [= <-]; [done|]. apply fs_wf_insert_dir; [done|].
  intros n f. by rewrite lookup_empty.
Qed.

Lemma fs_wf_put_file d name f s s' : fs_wf s -> no_slash name = true -> put_file d name f s = Ok s' -> fs_wf s'.
Proof.
  intros Hs Hn. unfold put_file, lookup_dir. destruct (s !! dir_key d) as [files|] eqn:E; [|done].
  intros [= <-]. apply fs_wf_insert_dir; [done|]. intros n' f'.
  destruct (decide (n' = name)) as [->|Hne]; [done|]. rewrite lookup_insert_ne by done.
  exact (Hs (dir_key d) files n' f' E).
Qed.

Lemma fs_wf_write_path p data s s' : fs_wf s -> write_path p data s = Ok s' -> fs_wf s'.
Proof. intros Hs. apply fs_wf_put_file; [done|apply basename_no_slash_any]. Qed.

Lemma fs_wf_write_archive p es s s' : fs_wf s -> write_archive p es s = Ok s' -> fs_wf s'.
Proof. intros Hs. apply fs_wf_put_file; [done|apply basename_no_slash_any]. Qed.

Lemma fs_wf_rmtree d s : fs_wf s -> fs_wf (rmtree d s).
Proof.
  intros Hs d' files n f. unfold rmtree. destruct (decide (d' = dir_key d)) as [->|Hne];
    [by rewrite lookup_delete_eq|rewrite lookup_delete_ne by done; exact (Hs d' files n f)].
Qed.

Lemma fs_wf_copytree src dst s s' : fs_wf s -> copytree src dst s = Ok s' -> fs_wf s'.
Proof.
  intros Hs. unfold copytree, lookup_dir. destruct (s !! dir_key src) as [files|] eqn:E; [|done].
  destruct (exists_dir dst s); [done|]. intros [= <-]. apply fs_wf_insert_dir; [done|].
  intros n f. exact (Hs (dir_key src) files n f E).
Qed.

Lemma fs_wf_zip_files p paths s : fs_wf s -> fs_wf (zip_files p paths s).1.
Proof.
  intros Hs. unfold zip_files. destruct (write_archive p [] s) as [s1|e] eqn:E1; [|done].
  pose proof (fs_wf_write_archive _ _ _ _ Hs E1) as Hs1.
  destruct (zip_entries paths s1) as [es r]. destruct (write_archive p es s1) as [s2|e] eqn:E2; [|done].
  cbn. by apply (fs_wf_write_archive _ _ _ _ Hs1 E2).
Qed.

Lemma glob_no_slash d pre suf s n : fs_wf s -> n ∈ glob d pre suf s -> no_slash n = true.
Proof.
  intros Hs (_ & files & f & Hd & Hn)%glob_elem. unfold lookup_dir in Hd. by apply (Hs _ _ _ _ Hd Hn).
Qed.

(** [fs_wf] checked by computation. *)
Lemma fs_wf_check s :
  bool_decide (map_Forall (fun _ files => map_Forall (fun n (_ : file) => no_slash n = true) files) s) = true ->
  fs_wf s.
Proof. intros H%bool_decide_eq_true d files n f Hd Hn. exact (H d files Hd n f Hn). Qed.

End Wf.
