(* ===== verification/Worker.v ===== *)
(** * The uploader's per-file worker: [post_item] and the retry loop

    [upload_items_to_fabric.py], lines 22-42. [post_item] reads the file
    and POSTs its bytes with the bearer token; [worker] calls it for
    [attempt = 1 .. retries], returns at the first call that does not raise
    (whatever the HTTP status), and after a raising call sleeps [attempt]
    seconds before the next one; when every attempt raised it reports
    failure with [str(last_exc)].

    The HTTP service is an oracle [network]: the outcome of attempt [n] on
    the file at path [p] is a response (status and body) or a transport
    fault. The effects of a worker are the list of [event]s it performs:
    requests sent and sleeps.

    Besides the behaviour on fault sequences, the trace is bounded for
    every network: at most [max(retries, 0)] requests and at most
    [n (n + 1) / 2] seconds of sleep. *)

From Stdlib Require Import ZArith Lia Ascii String.
From S2P Require Import Prelude PyStr Json FileSys.

Local Open Scope string_scope.

Module Worker.

Record request : Type := mk_request {
  req_url : string;
  req_headers : list (string * string);
  req_body : list Byte.byte;
  req_timeout : Z
}.

Inductive outcome : Type :=
| Response (status : Z) (text : string)
| Fault (msg : string).

(** The remote endpoint and transport, per file path and attempt number. *)
Definition network : Type := string -> nat -> outcome.

Inductive event : Type :=
| Post (r : request)
| Sleep (secs : Z).

(** The [(success, status, text)] triple the worker returns. *)
Record worker_result : Type := mk_result {
  w_success : bool;
  w_status : option Z;
  w_text : string
}.

Definition headers (token : string) : list (string * string) :=
  [("Authorization", "Bearer " ++ token); ("Content-Type", "application/json")].

(** [post_item(session, endpoint, token, filepath, timeout=30)] at attempt
    number [attempt]: the file read may raise, then the POST may raise. *)
Definition post_item (net : network) (s : fs) (endpoint token filepath : string)
    (attempt : nat) (timeout : Z) : list event * res (Z * string) :=
  match read_path filepath s with
  | Raise e => ([], Raise e)
  | Ok data =>
      ([Post (mk_request endpoint (headers token) data timeout)],
       match net filepath attempt with
       | Response st tx => Ok (st, tx)
       | Fault m => Raise (TransportError m)
       end)
  end.

(** [str(last_exc)], with [str(None) = "None"]. *)
Definition str_last_exc (last_exc : option exn) : string :=
  match last_exc with
  | Some e => exn_str e
  | None => "None"
  end.

(** The [for attempt in range(attempt, attempt + remaining)] loop. *)
Fixpoint worker_loop (net : network) (s : fs) (endpoint token filepath : string)
    (attempt remaining : nat) (last_exc : option exn) : list event * worker_result :=
  match remaining with
  | O => ([], mk_result false None (str_last_exc last_exc))
  | S r =>
      let '(evs, out) := post_item net s endpoint token filepath attempt 30 in
      match out with
      | Ok (st, tx) => (evs, mk_result true (Some st) tx)
      | Raise e =>
          let '(evs', w) := worker_loop net s endpoint token filepath (S attempt) r (Some e) in
          ((evs ++ Sleep (Z.of_nat attempt) :: evs')%list, w)
      end
  end.

(** [worker(session, endpoint, token, filepath, retries)]:
    [range(1, retries + 1)] is empty when [retries <= 0]. *)
Definition worker (net : network) (s : fs) (endpoint token filepath : string) (retries : Z)
    : list event * worker_result :=
  worker_loop net s endpoint token filepath 1 (Z.to_nat retries) None.

(** ** Observations on traces *)

Definition is_post (e : event) : bool := match e with Post _ => true | _ => false end.

Definition posts (evs : list event) : nat := count_true is_post evs.

Definition sleep_secs (e : event) : Z := match e with Sleep n => n | _ => 0%Z end.

Definition total_sleep (evs : list event) : Z := foldr Z.add 0%Z (map sleep_secs evs).

(** The trace of [n] consecutive faulting attempts from [first]: each sends
    the same request and then sleeps its attempt number. *)
Definition fault_trace (req : request) (first n : nat) : list event :=
  concat (map (fun k => [Post req; Sleep (Z.of_nat k)]) (seq first n)).

(** ** The retry loop on a readable file *)

Section ReadableFile.
Context (net : network) (s : fs) (endpoint token filepath : string) (data : list Byte.byte).
Hypothesis Hread : read_path filepath s = Ok data.

(** The request every attempt sends. *)
Definition the_request : request := mk_request endpoint (headers token) data 30.

Lemma post_item_readable attempt :
  post_item net s endpoint token filepath attempt 30 =
  ([Post the_request],
   match net filepath attempt with
   | Response st tx => Ok (st, tx)
   | Fault m => Raise (TransportError m)
   end).
Proof. unfold post_item. by rewrite Hread. Qed.

Lemma worker_loop_faults (msg : nat -> string) attempt n last_exc :
  (forall k, attempt <= k < attempt + n -> net filepath k = Fault (msg k)) ->
  worker_loop net s endpoint token filepath attempt n last_exc =
  (fault_trace the_request attempt n,
   mk_result false None
     (match n with O => str_last_exc last_exc | S _ => msg (attempt + n - 1) end)).
Proof.
  revert attempt last_exc. induction n as [|n IH]; intros attempt last_exc Hf; [done|].
  cbn [worker_loop]. rewrite post_item_readable, Hf by lia. cbn.
  rewrite IH by (intros; apply Hf; lia). cbn. unfold fault_trace. cbn.
  do 2 f_equal. destruct n; cbn; [by replace (attempt + 1 - 1) with attempt by lia|].
  f_equal. lia.
Qed.

Lemma worker_loop_answer (msg : nat -> string) attempt n last_exc K st tx :
  attempt <= K < attempt + n ->
  (forall k, attempt <= k < K -> net filepath k = Fault (msg k)) ->
  net filepath K = Response st tx ->
  worker_loop net s endpoint token filepath attempt n last_exc =
  ((fault_trace the_request attempt (K - attempt) ++ [Post the_request])%list,
   mk_result true (Some st) tx).
Proof.
  revert attempt last_exc. induction n as [|n IH]; intros attempt last_exc HK Hf Hr; [lia|].
  cbn [worker_loop]. rewrite post_item_readable.
  destruct (decide (K = attempt)) as [->|Hne].
  - rewrite Hr. by rewrite Nat.sub_diag.
  - rewrite Hf by lia. cbn. rewrite (IH (S attempt)) by (auto with lia).
    replace (K - attempt) with (S (K - S attempt)) by lia. done.
Qed.
End ReadableFile.

Lemma fault_trace_S req first n :
  fault_trace req first (S n) = Post req :: Sleep (Z.of_nat first) :: fault_trace req (S first) n.
Proof. reflexivity. Qed.

Lemma posts_cons e evs : posts (e :: evs) = (if is_post e then 1 else 0) + posts evs.
Proof. unfold posts, count_true. cbn. by destruct (is_post e). Qed.

Lemma posts_app evs1 evs2 : posts (evs1 ++ evs2) = posts evs1 + posts evs2.
Proof. apply count_true_app. Qed.

Lemma total_sleep_cons e evs : total_sleep (e :: evs) = (sleep_secs e + total_sleep evs)%Z.
Proof. reflexivity. Qed.

Lemma fault_trace_posts req first n : posts (fault_trace req first n) = n.
Proof.
  revert first. induction n as [|n IH]; intros first; [done|].
  rewrite fault_trace_S, !posts_cons, IH. done.
Qed.

Lemma fault_trace_sleep req first n :
  total_sleep (fault_trace req first n) = foldr Z.add 0%Z (map Z.of_nat (seq first n)).
Proof.
  revert first. induction n as [|n IH]; intros first; [done|].
  rewrite fault_trace_S, !total_sleep_cons, IH. cbn. lia.
Qed.

Lemma sum_seq_1 n : foldr Z.add 0%Z (map Z.of_nat (seq 1 n)) = (Z.of_nat n * (Z.of_nat n + 1) / 2)%Z.
Proof.
  assert (forall m, 2 * foldr Z.add 0%Z (map Z.of_nat (seq m n)) =
                    Z.of_nat n * (2 * Z.of_nat m + Z.of_nat n - 1))%Z as H.
  { induction n as [|n IH]; intros m; cbn; [lia|]. rewrite Z.mul_add_distr_l, IH. lia. }
  specialize (H 1). replace (Z.of_nat n * (Z.of_nat n + 1))%Z
    with (2 * foldr Z.add 0%Z (map Z.of_nat (seq 1 n)))%Z by lia.
  rewrite Z.mul_comm, Z.div_mul by lia. done.
Qed.
Lemma total_sleep_app evs1 evs2 : total_sleep (evs1 ++ evs2) = (total_sleep evs1 + total_sleep evs2)%Z.
Proof. unfold total_sleep. rewrite map_app, foldr_app. induction evs1 as [|e evs1 IH]; cbn; lia. Qed.

Lemma sum_seq_nonneg first n : (0 <= foldr Z.add 0%Z (map Z.of_nat (seq first n)))%Z.
Proof. revert first. induction n as [|n IH]; intros first; cbn; [lia|]. specialize (IH (S first)). lia. Qed.

(** One call of [post_item] sends at most one request and never sleeps. *)
Lemma post_item_events net s endpoint token filepath attempt timeout :
  let evs := (post_item net s endpoint token filepath attempt timeout).1 in
  posts evs <= 1 /\ total_sleep evs = 0%Z.
Proof. cbv zeta. unfold post_item. destruct (read_path filepath s); cbn; split; (lia || reflexivity). Qed.

(** The loop from [attempt], with [n] attempts left, whatever the network
    answers and whether or not the file can be read. *)
Lemma worker_loop_bounds net s endpoint token filepath attempt n last_exc :
  let evs := (worker_loop net s endpoint token filepath attempt n last_exc).1 in
  posts evs <= n /\
  (0 <= total_sleep evs <= foldr Z.add 0%Z (map Z.of_nat (seq attempt n)))%Z.
Proof.
  revert attempt last_exc. induction n as [|n IH]; intros attempt last_exc; cbn [worker_loop]; [cbn; lia|].
  pose proof (post_item_events net s endpoint token filepath attempt 30) as [Hp Hs].
  pose proof (sum_seq_nonneg (S attempt) n).
  destruct (post_item _ _ _ _ _ _ _) as [evs [[st tx]|e]]; cbn [fst] in Hp, Hs |- *; [cbn [seq map foldr]; lia|].
  destruct (IH (S attempt) (Some e)) as [Hp' Hs'].
  destruct (worker_loop _ _ _ _ _ _ _ _) as [evs' w]. cbn [fst] in Hp', Hs' |- *.
  rewrite posts_app, posts_cons, total_sleep_app, total_sleep_cons. cbn [seq map foldr is_post sleep_secs]. lia.
Qed.

(** ** Properties of [worker] *)

(** C1. Retry exhaustion: when the file is readable and every one of the
    [retries] attempts raises a transport fault, the worker sends exactly
    [retries] identical requests, sleeps [1, 2, ..., retries] seconds (one
    sleep after each attempt, the last one included), and reports failure
    with no status and the message of the last fault. *)
Theorem worker_exhausts net s endpoint token filepath data retries (msg : nat -> string) :
  read_path filepath s = Ok data ->
  (1 <= retries)%Z ->
  (forall k, 1 <= k <= Z.to_nat retries -> net filepath k = Fault (msg k)) ->
  let '(evs, w) := worker net s endpoint token filepath retries in
  w = mk_result false None (msg (Z.to_nat retries)) /\
  evs = fault_trace (the_request endpoint token data) 1 (Z.to_nat retries) /\
  posts evs = Z.to_nat retries /\
  total_sleep evs = (retries * (retries + 1) / 2)%Z.
Proof.
  intros Hread Hr Hf. unfold worker.
  rewrite (worker_loop_faults net s endpoint token filepath data Hread msg) by (intros; apply Hf; lia).
  destruct (Z.to_nat retries) as [|n] eqn:En; [lia|].
  split; [by replace (1 + S n - 1) with (S n) by lia|]. split; [done|].
  rewrite fault_trace_posts, fault_trace_sleep, sum_seq_1, <- En, Z2Nat.id by lia. done.
Qed.

Lemma worker_exhausts_witness :
  let net : network := fun _ k => Fault ("timeout " ++ str_of_int (Z.of_nat k)) in
  let s : fs := {[ "items" := {[ "item_a.json" := Blob [Byte.x7b; Byte.x7d] ]} ]} in
  read_path "items/item_a.json" s = Ok [Byte.x7b; Byte.x7d] /\
  (1 <= 3)%Z /\
  (forall k, 1 <= k <= Z.to_nat 3 -> net "items/item_a.json" k = Fault ("timeout " ++ str_of_int (Z.of_nat k))) /\
  (let '(evs, w) := worker net s "https://host/items" "tok" "items/item_a.json" 3 in
   w = mk_result false None ("timeout " ++ str_of_int (Z.of_nat (Z.to_nat 3))) /\
   evs = fault_trace (the_request "https://host/items" "tok" [Byte.x7b; Byte.x7d]) 1 (Z.to_nat 3) /\
   posts evs = Z.to_nat 3 /\ total_sleep evs = (3 * (3 + 1) / 2)%Z).
Proof.
  intros net s. split; [reflexivity|]. split; [lia|]. split; [reflexivity|].
  apply (worker_exhausts net s _ _ _ [Byte.x7b; Byte.x7d] 3
           (fun k => "timeout " ++ str_of_int (Z.of_nat k))); [reflexivity | lia | reflexivity].
Defined.

(** C2. First answer wins: when attempts [1 .. K-1] raise transport faults
    and attempt [K <= retries] gets an HTTP response (any status code,
    4xx and 5xx included), the worker reports success with that status and
    body after exactly [K] requests and [K - 1] sleeps, and makes no further
    attempt. *)
Theorem worker_first_answer net s endpoint token filepath data retries (msg : nat -> string) K st tx :
  read_path filepath s = Ok data ->
  1 <= K <= Z.to_nat retries ->
  (forall k, 1 <= k < K -> net filepath k = Fault (msg k)) ->
  net filepath K = Response st tx ->
  let '(evs, w) := worker net s endpoint token filepath retries in
  w = mk_result true (Some st) tx /\
  evs = (fault_trace (the_request endpoint token data) 1 (K - 1) ++
         [Post (the_request endpoint token data)])%list /\
  posts evs = K.
Proof.
  intros Hread HK Hf Hr. unfold worker.
  rewrite (worker_loop_answer net s endpoint token filepath data Hread msg 1 _ None K st tx)
    by (auto with lia).
  split; [done|]. split; [done|].
  rewrite posts_app, fault_trace_posts, posts_cons. cbn. unfold posts, count_true. cbn. lia.
Qed.

Lemma worker_first_answer_witness :
  let net : network := fun _ k => if decide (k = 2) then Response 400 "bad request" else Fault "reset" in
  let s : fs := {[ "items" := {[ "item_a.json" := Blob [Byte.x7b; Byte.x7d] ]} ]} in
  read_path "items/item_a.json" s = Ok [Byte.x7b; Byte.x7d] /\
  1 <= 2 <= Z.to_nat 3 /\
  (forall k, 1 <= k < 2 -> net "items/item_a.json" k = Fault "reset") /\
  net "items/item_a.json" 2 = Response 400 "bad request" /\
  (let '(evs, w) := worker net s "https://host/items" "tok" "items/item_a.json" 3 in
   w = mk_result true (Some 400%Z) "bad request" /\
   evs = (fault_trace (the_request "https://host/items" "tok" [Byte.x7b; Byte.x7d]) 1 (2 - 1) ++
          [Post (the_request "https://host/items" "tok" [Byte.x7b; Byte.x7d])])%list /\
   posts evs = 2).
Proof.
  intros net s. split; [reflexivity|]. split; [cbn; lia|].
  split; [intros k Hk; unfold net; rewrite decide_False by lia; reflexivity|].
  split; [reflexivity|].
  apply (worker_first_answer net s _ _ _ [Byte.x7b; Byte.x7d] 3 (fun _ => "reset") 2); [reflexivity | cbn; lia | | reflexivity].
  intros k Hk. unfold net. rewrite decide_False by lia. reflexivity.
Defined.

(** C13. With [retries <= 0] the loop body never runs: no request, no
    sleep, and the file is reported failed with text ["None"] (the string
    of the initial [last_exc = None]). *)
Theorem worker_no_attempt net s endpoint token filepath retries :
  (retries <= 0)%Z ->
  worker net s endpoint token filepath retries = ([], mk_result false None "None").
Proof. intros Hr. unfold worker. by replace (Z.to_nat retries) with 0 by lia. Qed.

Lemma worker_no_attempt_witness :
  (0 <= 0)%Z /\ worker (fun _ _ => Response 201 "") ∅ "u" "t" "f" 0 = ([], mk_result false None "None").
Proof. split; [lia|]. apply worker_no_attempt. lia. Defined.

(** C12. Every request the worker sends goes to the endpoint with the
    headers [Authorization: Bearer <token>] and [Content-Type:
    application/json], a 30-second timeout, and the file's current bytes
    as body. *)
Theorem worker_requests net s endpoint token filepath retries r :
  Post r ∈ (worker net s endpoint token filepath retries).1 ->
  req_url r = endpoint /\
  req_headers r = [("Authorization", "Bearer " ++ token); ("Content-Type", "application/json")] /\
  req_timeout r = 30%Z /\
  read_path filepath s = Ok (req_body r).
Proof.
  unfold worker. generalize 1 (Z.to_nat retries) (@None exn).
  intros attempt n. revert attempt. induction n as [|n IH]; intros attempt last Hin; cbn in Hin.
  - by apply elem_of_nil in Hin.
  - unfold post_item in Hin. destruct (read_path filepath s) as [data|e] eqn:Hread.
    + destruct (net filepath attempt); cbn in Hin.
      * apply list_elem_of_singleton in Hin. by inv Hin.
      * destruct (worker_loop _ _ _ _ _ _ _ _) as [evs' w] eqn:E.
        cbn in Hin. rewrite elem_of_cons in Hin. destruct Hin as [Hin|Hin]; [by inv Hin|].
        rewrite elem_of_cons in Hin. destruct Hin as [Hin|Hin]; [discriminate|].
        eapply (IH (S attempt) (Some (TransportError _))). by rewrite E.
    + destruct (worker_loop _ _ _ _ _ _ _ _) as [evs' w] eqn:E.
      cbn in Hin. rewrite elem_of_cons in Hin. destruct Hin as [Hin|Hin]; [discriminate|].
      eapply (IH (S attempt) (Some e)). by rewrite E.
Qed.

Lemma worker_requests_witness :
  let s : fs := {[ "items" := {[ "item_a.json" := Blob [Byte.x7b] ]} ]} in
  let r := mk_request "https://host/items" (headers "tok") [Byte.x7b] 30 in
  Post r ∈ (worker (fun _ _ => Response 201 "ok") s "https://host/items" "tok" "items/item_a.json" 3).1 /\
  (req_url r = "https://host/items" /\ req_headers r = headers "tok" /\ req_timeout r = 30%Z /\
   read_path "items/item_a.json" s = Ok (req_body r)).
Proof.
  intros s r. assert (H : Post r ∈ (worker (fun _ _ => Response 201 "ok") s "https://host/items" "tok" "items/item_a.json" 3).1)
    by (cbn; left). split; [exact H|]. exact (worker_requests _ _ _ _ _ _ r H).
Defined.
(** C3. Bounds: whatever the network answers and whether or not the
    file can be read, one [worker] call sends at most [n] requests and
    sleeps between [0] and [1 + 2 + ... + n = n (n + 1) / 2] seconds in
    total, where [n = max(retries, 0)]. *)
Theorem worker_bounds net s endpoint token filepath retries :
  let evs := (worker net s endpoint token filepath retries).1 in
  posts evs <= Z.to_nat retries /\
  (0 <= total_sleep evs <= Z.of_nat (Z.to_nat retries) * (Z.of_nat (Z.to_nat retries) + 1) / 2)%Z.
Proof. cbv zeta. unfold worker. rewrite <- sum_seq_1. apply worker_loop_bounds. Qed.

End Worker.
