(* ===== verification/Pool.v ===== *)
(** * One batch on a [ThreadPoolExecutor], collected with [as_completed]

    [upload_items_to_fabric.py], lines 86-97. All files of the batch are
    submitted at once; the executor keeps them in a FIFO work queue and
    runs at most [max_workers] of them at a time; any running task may
    finish first; the main thread, iterating [as_completed], appends the
    result of some finished task that it has not yet taken (futures that
    were already done when [as_completed] started come out in an arbitrary
    order, later ones in completion order: the relation allows any
    finished one). Leaving the [with] block waits for everything.

    The state records the work queue, the running tasks, the finished but
    not yet collected tasks, the completion log (the order in which tasks
    finished) and the collected tasks (the order of [results.append]).

    The abstract contract the script relies on, [as_completed_spec] (the
    collected order is a permutation of the batch), is refined by the pool:
    with a worker, the possible collection orders are exactly the
    permutations. *)

From Stdlib Require Import Lia String.
From S2P Require Import Prelude.

Module Pool.

Section Pool.
Context {T : Type}.
Variable max_workers : nat.

Record pool : Type := mk_pool {
  queue : list T;
  running : list T;
  finished : list T;
  log : list T;
  collected : list T
}.

Inductive pool_step : pool -> pool -> Prop :=
| step_start t q r f l c :
    length r < max_workers ->
    pool_step (mk_pool (t :: q) r f l c) (mk_pool q (r ++ [t]) f l c)
| step_finish q r1 t r2 f l c :
    pool_step (mk_pool q (r1 ++ t :: r2) f l c) (mk_pool q (r1 ++ r2) (f ++ [t]) (l ++ [t]) c)
| step_collect q r f1 t f2 l c :
    pool_step (mk_pool q r (f1 ++ t :: f2) l c) (mk_pool q r (f1 ++ f2) l (c ++ [t])).

#[local] Hint Constructors pool_step : pyfab.

(** [{ex.submit(worker, ...): fp for fp in batch}] *)
Definition pool_init (tasks : list T) : pool := mk_pool tasks [] [] [] [].

Definition pool_done (p : pool) : Prop := queue p = [] /\ running p = [] /\ finished p = [].

(** A run of the batch that ends with every task collected, in the order
    [order]. *)
Definition pool_completes (tasks order : list T) : Prop :=
  exists p, rtc pool_step (pool_init tasks) p /\ pool_done p /\ collected p = order.

(** What every reachable state satisfies. *)
Definition pool_inv (tasks : list T) (p : pool) : Prop :=
  length (running p) <= max_workers /\
  queue p ++ running p ++ finished p ++ collected p ≡ₚ tasks /\
  log p ≡ₚ finished p ++ collected p.

Definition measure (p : pool) : nat := 3 * length (queue p) + 2 * length (running p) + length (finished p).

(** ** Invariant *)

Lemma pool_step_inv tasks p p' : pool_inv tasks p -> pool_step p p' -> pool_inv tasks p'.
Proof.
  intros (Hlen & Hperm & Hlog) Hstep.
  inv Hstep; unfold pool_inv in *; cbn in *; rewrite ?length_app in *; cbn in *;
    (split; [lia|]); (split; [rewrite <- Hperm; solve_Permutation|]);
    rewrite Hlog; solve_Permutation.
Qed.

Lemma pool_inv_init tasks : pool_inv tasks (pool_init tasks).
Proof. unfold pool_inv; cbn. split; [lia|]. by rewrite !app_nil_r. Qed.

Lemma pool_reach_inv tasks p : rtc pool_step (pool_init tasks) p -> pool_inv tasks p.
Proof.
  intros Hrtc. remember (pool_init tasks) as p0 eqn:E.
  assert (H0 : pool_inv tasks p0) by (subst; apply pool_inv_init). clear E.
  induction Hrtc as [|x y z Hxy _ IH]; [done|]. apply IH.
  by apply (pool_step_inv tasks x y).
Qed.

(** ** Termination and progress *)

Lemma pool_step_measure p p' : pool_step p p' -> measure p' < measure p.
Proof. intros Hs. inv Hs; unfold measure; cbn; rewrite ?length_app; cbn; lia. Qed.

(** There is no infinite run of the pool. *)
Lemma pool_wf : well_founded (fun p' p => pool_step p p').
Proof. apply (well_founded_lt_compat _ measure). intros. by apply pool_step_measure. Qed.

(** A state that is not done can always move (one worker is enough). *)
Lemma pool_progress p : 0 < max_workers -> ~ pool_done p -> exists p', pool_step p p'.
Proof.
  intros Hw Hnd. destruct p as [q r f l c].
  destruct f as [|t f]; [|exists (mk_pool q r f l (c ++ [t])); apply (step_collect q r [] t f)].
  destruct r as [|t r]; [|exists (mk_pool q r [t] (l ++ [t]) c); apply (step_finish q [] t r [])].
  destruct q as [|t q]; [by destruct Hnd|].
  exists (mk_pool q [t] [] l c). apply (step_start t q [] [] l c). cbn. lia.
Qed.

(** From any state, the pool can run to a state where every task has been
    collected. *)
Lemma pool_can_finish p : 0 < max_workers -> exists p', rtc pool_step p p' /\ pool_done p'.
Proof.
  intros Hw. induction p as [p IH] using (well_founded_induction pool_wf).
  destruct (decide (queue p = [] /\ running p = [] /\ finished p = [])) as [Hd|Hnd].
  - exists p. split; [constructor|done].
  - destruct (pool_progress p Hw Hnd) as [p1 Hs].
    destruct (IH p1 Hs) as (p2 & Hr & Hd). exists p2. split; [|done]. by eapply rtc_l.
Qed.

(** Running each task to completion before starting the next is a run of
    the pool (with at least one worker). *)
Lemma pool_sequential_run q l c :
  0 < max_workers ->
  rtc pool_step (mk_pool q [] [] l c) (mk_pool [] [] [] (l ++ q) (c ++ q)).
Proof.
  intros Hw. revert l c. induction q as [|t q IH]; intros l c.
  - rewrite !app_nil_r. constructor.
  - eapply rtc_l; [apply (step_start t q [] [] l c); cbn; lia|].
    eapply rtc_l; [apply (step_finish q [] t [] [] l c)|].
    eapply rtc_l; [apply (step_collect q [] [] t [] (l ++ [t]) c)|]. cbn.
    replace (l ++ t :: q) with ((l ++ [t]) ++ q) by by rewrite <- app_assoc.
    replace (c ++ t :: q) with ((c ++ [t]) ++ q) by by rewrite <- app_assoc. apply IH.
Qed.

(** With at least one worker, collecting the batch in submission order is
    a possible outcome. *)
Lemma pool_completes_fifo tasks : 0 < max_workers -> pool_completes tasks tasks.
Proof.
  intros Hw. exists (mk_pool [] [] [] tasks tasks). split; [|done].
  exact (pool_sequential_run tasks [] [] Hw).
Qed.

Lemma pool_done_collected tasks p :
  rtc pool_step (pool_init tasks) p -> pool_done p -> collected p ≡ₚ tasks.
Proof.
  intros Hr (Hq & Hrun & Hf). destruct (pool_reach_inv tasks p Hr) as (_ & Hperm & _).
  by rewrite Hq, Hrun, Hf in Hperm.
Qed.

(** With one worker the completion log, the running task and the queue
    are the batch in submission order. *)
Lemma pool_one_worker_order tasks p :
  max_workers = 1 -> rtc pool_step (pool_init tasks) p ->
  log p ++ running p ++ queue p = tasks /\ length (running p) <= 1.
Proof.
  intros Hw Hrtc. remember (pool_init tasks) as p0 eqn:E.
  assert (H0 : log p0 ++ running p0 ++ queue p0 = tasks /\ length (running p0) <= 1)
    by (subst; cbn; split; [done | lia]). clear E.
  induction Hrtc as [|x y z Hxy _ IH]; [done|]. apply IH. clear IH.
  destruct H0 as [Horder Hlen]. inv Hxy; cbn in *.
  - destruct r; cbn in *; [|lia]. split; [done|cbn; lia].
  - rewrite length_app in Hlen. cbn in Hlen.
    destruct r1, r2; cbn in *; try lia. rewrite <- app_assoc. split; [done|lia].
  - done.
Qed.




(** Whatever the scheduling, a completed batch collects each of its files
    exactly once: the order of [results.append] is a permutation of the
    batch. *)
Lemma pool_completes_perm tasks order :
  pool_completes tasks order -> order ≡ₚ tasks.
Proof. intros (p & Hr & Hd & <-). by apply (pool_done_collected tasks p). Qed.


(** ** Refinement of the [as_completed] contract

    What the script relies on is only this: the loop over
    [as_completed(futures)] yields every submitted future exactly once, in
    some order. The pool implements exactly that contract: every finished
    run collects a permutation of the batch, and (with a worker) every
    permutation is the collection order of some run. *)

Definition as_completed_spec (tasks order : list T) : Prop := order ≡ₚ tasks.

(** Running the queue one task at a time leaves every task finished, in
    submission order, none collected. *)
Lemma pool_finish_queue q f l c :
  0 < max_workers ->
  rtc pool_step (mk_pool q [] f l c) (mk_pool [] [] (f ++ q) (l ++ q) c).
Proof.
  intros Hw. revert f l. induction q as [|t q IH]; intros f l; [rewrite !app_nil_r; constructor|].
  eapply rtc_l; [apply (step_start t q [] f l c); cbn; lia|].
  eapply rtc_l; [apply (step_finish q [] t [] f l c)|]. cbn.
  rewrite (cons_middle t f q), (cons_middle t l q), !app_assoc. apply IH.
Qed.

(** The finished tasks can be collected in any order. *)
Lemma pool_collect_perm f l c o :
  o ≡ₚ f -> rtc pool_step (mk_pool [] [] f l c) (mk_pool [] [] [] l (c ++ o)).
Proof.
  revert f c. induction o as [|t o IH]; intros f c Hp.
  - apply Permutation_nil in Hp as ->. rewrite app_nil_r. constructor.
  - assert (Ht : t ∈ f) by (rewrite <- Hp; apply elem_of_cons; by left).
    apply list_elem_of_split in Ht as (f1 & f2 & ->).
    eapply rtc_l; [apply (step_collect [] [] f1 t f2 l c)|].
    rewrite (cons_middle t c o), app_assoc. apply IH.
    by apply (Permutation_app_inv [] o f1 f2 t).
Qed.

Lemma pool_run_any_order tasks order :
  0 < max_workers -> as_completed_spec tasks order -> pool_completes tasks order.
Proof.
  intros Hw Hp. exists (mk_pool [] [] [] tasks order). split; [|done].
  eapply rtc_trans; [apply (pool_finish_queue tasks [] [] [] Hw)|]. cbn.
  exact (pool_collect_perm tasks tasks [] order Hp).
Qed.

(** C6. Refinement: with at least one worker, the orders in which a
    batch can be collected are exactly the permutations of the batch, the
    abstract contract of [as_completed]: every run that collects all
    futures collects each one once, and every such order is possible. *)
Theorem pool_refines tasks order :
  0 < max_workers -> pool_completes tasks order <-> as_completed_spec tasks order.
Proof. intros Hw. split; [apply pool_completes_perm|by apply pool_run_any_order]. Qed.

End Pool.

(** ** Concrete runs *)

Local Open Scope string_scope.

Definition two_started : pool := mk_pool ["c"] ["a"; "b"] [] [] [].

Lemma two_started_reach : rtc (pool_step 2) (pool_init ["a"; "b"; "c"]) two_started.
Proof.
  eapply rtc_l; [apply (step_start 2 "a" ["b"; "c"] [] [] [] []); cbn; lia|].
  eapply rtc_l; [apply (step_start 2 "b" ["c"] ["a"] [] [] []); cbn; lia|].
  constructor.
Qed.



(** Two workers, the second file finishes and is collected first. *)
Lemma swapped_run : pool_completes 2 ["a"; "b"] ["b"; "a"].
Proof.
  exists (mk_pool [] [] [] ["b"; "a"] ["b"; "a"]). split; [|split; [done|done]].
  eapply rtc_l; [apply (step_start 2 "a" ["b"] [] [] [] []); cbn; lia|].
  eapply rtc_l; [apply (step_start 2 "b" [] ["a"] [] [] []); cbn; lia|].
  eapply rtc_l; [apply (step_finish 2 [] ["a"] "b" [] [] [] [])|]. cbn.
  eapply rtc_l; [apply (step_finish 2 [] [] "a" [] ["b"] ["b"] [])|]. cbn.
  eapply rtc_l; [apply (step_collect 2 [] [] [] "b" ["a"] ["b"; "a"] [])|]. cbn.
  eapply rtc_l; [apply (step_collect 2 [] [] [] "a" [] ["b"; "a"] ["b"])|]. cbn.
  constructor.
Qed.


(** Two workers, three files, collected last-submitted first. *)
Lemma pool_refines_witness : 0 < 2 /\ pool_completes 2 ["a"; "b"; "c"] ["c"; "a"; "b"].
Proof.
  split; [lia|]. apply (pool_refines 2 ["a"; "b"; "c"] ["c"; "a"; "b"]); [lia|].
  unfold as_completed_spec. solve_Permutation.
Defined.

End Pool.
