(* ===== verification/Uploader.v ===== *)
(** * The uploader's [chunked] and [main]

    [upload_items_to_fabric.py], lines 44-109. [chunked] slices the sorted
    file list with [range(0, len, size)]; [main] enumerates [*.json] of the
    source directory, handles the empty directory, the dry run and the
    missing token, then runs the batches one after the other: each batch
    on a fresh thread pool (the order in which its results are appended is
    a collection order of [Pool.pool_step]), a pause after every batch
    that leaves files remaining, and the summary line.

    The parsed command line is the record [args]. The observable behaviour
    is the list of [out_event]s: printed lines, the worker's requests and
    back-off sleeps (attached to the file they belong to, in the order the
    results are collected), and the pauses between batches; an uncaught
    exception ends the run.

    The request count of a whole run is bounded by [retries] per file on
    every path of [main]. *)

From Stdlib Require Import ZArith Lia Ascii String.
From S2P Require Import Prelude PyStr Json FileSys Worker Pool.

Local Open Scope string_scope.

Module Uploader.
Import Worker.

(** ** [chunked] *)

(** [iterable[i:i + size]] for [0 <= i]. *)
Definition slice {A} (l : list A) (i size : Z) : list A :=
  take (Z.to_nat (i + size) - Z.to_nat i) (drop (Z.to_nat i) l).

(** [chunked(iterable, size)] *)
Definition chunked {A} (l : list A) (size : Z) : res (list (list A)) :=
  let? starts := py_range 0 (Z.of_nat (length l)) size in
  Ok (map (fun i => slice l i size) starts).

(** ** The command line and the observable events *)

Record args : Type := mk_args {
  a_endpoint : string;
  a_token : option string;
  a_src : string;
  a_concurrency : Z;
  a_retries : Z;
  a_dry_run : bool;
  a_batch_size : Z;
  a_sleep_after : Z
}.

Inductive out_event : Type :=
| Print (line : string)
| Net (e : Worker.event)
| Pause (secs : Z).

(** [(fp.name, success, status, text[:200])] *)
Record row : Type := mk_row {
  r_name : string;
  r_success : bool;
  r_status : option Z;
  r_text : string
}.

(** [str(status)] for an [int] or [None]. *)
Definition str_status (st : option Z) : string :=
  match st with Some z => str_of_int z | None => "None" end.

(** [files.index(x)]: the first position of [x]. *)
Fixpoint py_index (x : string) (l : list string) : res nat :=
  match l with
  | [] => Raise (ValueError (x ++ " is not in list"))
  | y :: l' => if decide (x = y) then Ok 0 else res_map S (py_index x l')
  end.

(** [time.sleep(secs)] *)
Definition py_sleep (secs : Z) : res out_event :=
  if (secs <? 0)%Z then Raise (ValueError "sleep length must be non-negative") else Ok (Pause secs).

(** ** One batch *)

Section Run.
Variable (net : network) (s : fs) (a : args) (token : string).
(** [sched n batch]: the order in which the results of batch [n] are
    appended (a collection order of the pool, see [sched_ok]). *)
Variable sched : nat -> list string -> list string.

(** [print(fp.name, "->", "OK" if success else "FAILED", status)] *)
Definition result_line (name : string) (w : worker_result) : string :=
  name ++ " -> " ++ (if w_success w then "OK" else "FAILED") ++ " " ++ str_status (w_status w).

Definition upload_one (name : string) : list out_event * row :=
  let '(evs, w) := worker net s (a_endpoint a) token (path_join (a_src a) name) (a_retries a) in
  ((map Net evs ++ [Print (result_line name w)])%list,
   mk_row name (w_success w) (w_status w) (String.substring 0 200 (w_text w))).

(** The [for fut in as_completed(futures)] loop, in collection order. *)
Fixpoint collect (order : list string) : list out_event * list row :=
  match order with
  | [] => ([], [])
  | name :: order' =>
      let '(evs, r) := upload_one name in
      let '(evs', rows) := collect order' in
      ((evs ++ evs')%list, r :: rows)
  end.

Definition batch_header (files : list string) (batch_num : nat) (batch : list string) : res string :=
  match batch with
  | [] => Raise (IndexError "list index out of range")
  | first :: _ =>
      let? i := py_index first files in
      let? last := list_last batch in
      let? j := py_index last files in
      Ok ("Starting batch " ++ str_of_int (Z.of_nat batch_num) ++ ": " ++
          str_of_int (Z.of_nat (length batch)) ++ " items (files " ++ str_of_int (Z.of_nat (i + 1)) ++
          ".." ++ str_of_int (Z.of_nat (j + 1)) ++ " of " ++ str_of_int (Z.of_nat (length files)) ++ ")")
  end.

(** The [for batch in chunked(files, args.batch_size)] loop from batch
    number [batch_num] on, with the results collected so far. *)
Fixpoint run_batches (files : list string) (batches : list (list string)) (batch_num : nat)
    (results : list row) : list out_event * res (list row) :=
  match batches with
  | [] => ([], Ok results)
  | batch :: rest =>
      let n := S batch_num in
      match batch_header files n batch with
      | Raise e => ([], Raise e)
      | Ok header =>
          if (a_concurrency a <=? 0)%Z
          then ([Print header], Raise (ValueError "max_workers must be greater than 0"))
          else
            let '(evs, rows) := collect (sched n batch) in
            let results' := (results ++ rows)%list in
            let remaining := (Z.of_nat (length files) - Z.of_nat (length results'))%Z in
            let '(pause, stop) :=
              if (0 <? remaining)%Z then
                match py_sleep (a_sleep_after a) with
                | Ok p =>
                    ([Print ("Batch " ++ str_of_int (Z.of_nat n) ++ " complete. Sleeping " ++
                             str_of_int (a_sleep_after a) ++ " seconds before next batch... (" ++
                             str_of_int remaining ++ " items remaining)"); p], None)
                | Raise e => ([], Some e)
                end
              else ([], None) in
            match stop with
            | Some e => ((Print header :: evs ++ pause)%list, Raise e)
            | None =>
                let '(evs', out) := run_batches files rest n results' in
                ((Print header :: evs ++ pause ++ evs')%list, out)
            end
      end
  end.
End Run.

(** ** [main] *)

Definition summary (results : list row) : string :=
  "Uploaded " ++ str_of_int (Z.of_nat (count_true r_success results)) ++ "/" ++
  str_of_int (Z.of_nat (length results)) ++ " items".

Definition dry_run_lines (a : args) (files : list string) : list out_event :=
  (Print ("Dry-run: " ++ str_of_int (Z.of_nat (length files)) ++ " files found. Showing first 10:")
   :: map (fun f => Print (" - " ++ f)) (take 10 files) ++
   [Print ("Batch size: " ++ str_of_int (a_batch_size a) ++ ", sleep after each batch: " ++
           str_of_int (a_sleep_after a) ++ "s")])%list.

Definition main (net : network) (s : fs) (a : args) (sched : nat -> list string -> list string)
    : list out_event * res unit :=
  let files := glob (a_src a) "" ".json" s in
  match files with
  | [] => ([Print ("No JSON files found in " ++ a_src a)], Ok tt)
  | _ =>
      if a_dry_run a then (dry_run_lines a files, Ok tt)
      else match a_token a with
      | None | Some EmptyString => ([Print "Error: --token is required for actual upload"], Ok tt)
      | Some token =>
          match chunked files (a_batch_size a) with
          | Raise e => ([], Raise e)
          | Ok batches =>
              let '(evs, out) := run_batches net s a token sched files batches 0 [] in
              match out with
              | Raise e => (evs, Raise e)
              | Ok results => ((evs ++ [Print (summary results)])%list, Ok tt)
              end
          end
      end
  end.

(** A scheduling of the batches that the thread pool can produce. *)
Definition sched_ok (a : args) (sched : nat -> list string -> list string) : Prop :=
  forall n batch, Pool.pool_completes (Z.to_nat (a_concurrency a)) batch (sched n batch).

Definition is_net (e : out_event) : bool := match e with Net _ => true | _ => false end.
Definition is_pause (e : out_event) : bool := match e with Pause _ => true | _ => false end.
Definition is_request (e : out_event) : bool := match e with Net (Post _) => true | _ => false end.

(** ** [chunked] *)

Section Chunks.
Context {A : Type}.

(** The batches of size [n] of [l], as the reference definition. *)
Definition batches_of (n : nat) (l : list A) (m : nat) : list (list A) :=
  map (fun k => take n (drop (k * n) l)) (seq 0 m).

Lemma range_len_pos len n : (0 < n)%Z -> range_len 0 len n = Z.to_nat ((len + n - 1) / n).
Proof. intros Hn. unfold range_len. destruct (Z.ltb_spec 0 n); [by rewrite Z.sub_0_r | lia]. Qed.

Lemma chunked_pos (l : list A) (size : Z) :
  (0 < size)%Z ->
  chunked l size = Ok (batches_of (Z.to_nat size) l (Z.to_nat ((Z.of_nat (length l) + size - 1) / size))).
Proof.
  intros Hs. unfold chunked, py_range. rewrite decide_False by lia. cbn.
  rewrite range_len_pos by done. unfold batches_of. rewrite map_map. f_equal.
  apply map_ext. intros k. unfold slice. f_equal; [|f_equal]; lia.
Qed.

(** A negative size gives an empty [range]: no batch. *)
Lemma chunked_neg (l : list A) (size : Z) : (size < 0)%Z -> chunked l size = Ok [].
Proof.
  intros Hs. unfold chunked, py_range. rewrite decide_False by lia. cbn.
  unfold range_len. destruct (Z.ltb_spec 0 size); [lia|].
  assert ((0 - Z.of_nat (length l) - size - 1) / - size < 1)%Z by (apply Z.div_lt_upper_bound; lia).
  by replace (Z.to_nat ((0 - Z.of_nat (length l) - size - 1) / - size)) with 0 by lia.
Qed.

Lemma seq_S_shift m : seq 0 (S m) = 0 :: map S (seq 0 m).
Proof. cbn. by rewrite <- seq_shift. Qed.

Lemma batches_of_S n l m :
  batches_of n l (S m) = take n l :: batches_of n (drop n l) m.
Proof.
  unfold batches_of. rewrite seq_S_shift. cbn. rewrite drop_0. f_equal.
  rewrite map_map. apply map_ext. intros k. by rewrite drop_drop.
Qed.

Lemma concat_batches_of n l m : length l <= m * n -> concat (batches_of n l m) = l.
Proof.
  revert l. induction m as [|m IH]; intros l Hl.
  - cbn in Hl. destruct l; [done | cbn in Hl; lia].
  - rewrite batches_of_S. cbn. rewrite IH by (rewrite length_drop; cbn in Hl; lia).
    apply take_drop.
Qed.

(** [m = ceil(len / size)] batches cover [len] items and [m - 1] do not. *)
Lemma ceil_div_bounds (len : nat) (size : Z) :
  (0 < size)%Z -> 0 < len ->
  len <= Z.to_nat ((Z.of_nat len + size - 1) / size) * Z.to_nat size /\
  (Z.to_nat ((Z.of_nat len + size - 1) / size) - 1) * Z.to_nat size < len.
Proof.
  intros Hs Hl. set (q := ((Z.of_nat len + size - 1) / size)%Z).
  pose proof (Z.div_mod (Z.of_nat len + size - 1) size ltac:(lia)) as Hd.
  pose proof (Z.mod_pos_bound (Z.of_nat len + size - 1) size ltac:(lia)) as Hr.
  fold q in Hd. assert (1 <= q)%Z by nia.
  split; apply Nat2Z.inj_lt || apply Nat2Z.inj_le;
    rewrite ?Nat2Z.inj_mul, ?Nat2Z.inj_sub, ?Z2Nat.id by lia; nia.
Qed.

Lemma length_batches_of n l m : length (batches_of n l m) = m.
Proof. unfold batches_of. by rewrite length_map, length_seq. Qed.

Lemma batch_of_lookup n l m i b :
  batches_of n l m !! i = Some b -> b = take n (drop (i * n) l) /\ i < m.
Proof.
  unfold batches_of. rewrite list_lookup_fmap. intros Hb.
  destruct (seq 0 m !! i) eqn:E; [|discriminate]. inv Hb.
  apply lookup_seq in E as [-> ?]. by split.
Qed.
End Chunks.

(** The facts about [chunked] that [main] relies on. *)
Lemma chunked_props {A} (l : list A) (size : Z) bs :
  (0 < size)%Z -> chunked l size = Ok bs ->
  concat bs = l /\
  length bs = Z.to_nat ((Z.of_nat (length l) + size - 1) / size) /\
  (forall i b, bs !! i = Some b -> 0 < length b <= Z.to_nat size /\
                                   (S i < length bs -> length b = Z.to_nat size)).
Proof.
  intros Hs Hc. rewrite chunked_pos in Hc by done. inv Hc.
  set (n := Z.to_nat size). set (m := Z.to_nat ((Z.of_nat (length l) + size - 1) / size)).
  assert (Hm : length l <= m * n /\ (m - 1) * n < length l \/ m = 0 /\ length l = 0).
  { destruct l as [|x l']; [right; split; [|done]|left].
    - unfold m. cbn. rewrite Z.div_small by lia. done.
    - apply ceil_div_bounds; cbn; lia. }
  split; [apply concat_batches_of; lia|]. split; [apply length_batches_of|].
  intros i b Hb. rewrite length_batches_of in *. apply batch_of_lookup in Hb as [-> Hi].
  rewrite length_take, length_drop. assert (0 < n) by (unfold n; lia).
  destruct Hm as [[H1 H2]|[-> _]]; [|lia].
  assert (i * n <= (m - 1) * n) by (apply Nat.mul_le_mono_r; lia).
  split; [lia|]. intros Hsi.
  assert (S i * n <= (m - 1) * n) by (apply Nat.mul_le_mono_r; lia). cbn in *. lia.
Qed.

Lemma chunked_concat_le {A} (l : list A) (size : Z) bs :
  chunked l size = Ok bs -> length (concat bs) <= length l.
Proof.
  intros Hc. destruct (Z.lt_trichotomy size 0) as [Hn|[->|Hp]].
  - rewrite chunked_neg in Hc by done. inv Hc. cbn. lia.
  - done.
  - destruct (chunked_props l size bs Hp Hc) as [-> _]. lia.
Qed.

(** C9. [chunked] partitions the files into contiguous batches: for a
    positive size their concatenation is the list, there are
    [ceil(len / size)] of them, each holds between 1 and [size] files, and
    every batch but the last holds exactly [size]. *)
Theorem chunked_partition {A} (l : list A) (size : Z) bs :
  (0 < size)%Z -> chunked l size = Ok bs ->
  concat bs = l /\
  length bs = Z.to_nat ((Z.of_nat (length l) + size - 1) / size) /\
  (forall i b, bs !! i = Some b -> 0 < length b <= Z.to_nat size /\
                                   (S i < length bs -> length b = Z.to_nat size)).
Proof. apply chunked_props. Qed.

Lemma chunked_partition_witness :
  (0 < 50)%Z /\ chunked (seq 0 125) 50 = Ok (batches_of 50 (seq 0 125) 3) /\
  (concat (batches_of 50 (seq 0 125) 3) = seq 0 125 /\
   length (batches_of 50 (seq 0 125) 3) = Z.to_nat ((Z.of_nat (length (seq 0 125)) + 50 - 1) / 50) /\
   (forall i b, batches_of 50 (seq 0 125) 3 !! i = Some b -> 0 < length b <= Z.to_nat 50 /\
                 (S i < length (batches_of 50 (seq 0 125) 3) -> length b = Z.to_nat 50))).
Proof.
  assert (H : chunked (seq 0 125) 50 = Ok (batches_of 50 (seq 0 125) 3)) by reflexivity.
  split; [lia|]. split; [exact H|]. exact (chunked_partition _ 50 _ ltac:(lia) H).
Defined.

(** The batch sizes from the 125-file example of the specification:
    [chunked] of 125 files by 50 gives batches of 50, 50 and 25. *)
Example chunked_125_by_50 :
  res_map (map length) (chunked (seq 0 125) 50) = Ok [50; 50; 25].
Proof. vm_compute. reflexivity. Qed.

(** C18. A zero batch size raises [ValueError] (from [range]) and a
    negative one yields no batch at all. *)
Theorem chunked_bad_size {A} (l : list A) (size : Z) :
  (size <= 0)%Z ->
  chunked l size = (if decide (size = 0%Z) then Raise (ValueError "range() arg 3 must not be zero")
                    else Ok []).
Proof.
  intros Hs. unfold chunked, py_range. case_decide; [done|]. cbn.
  unfold range_len. destruct (Z.ltb_spec 0 size); [lia|].
  assert ((0 - Z.of_nat (length l) - size - 1) / - size < 1)%Z
    by (apply Z.div_lt_upper_bound; lia).
  replace (Z.to_nat ((0 - Z.of_nat (length l) - size - 1) / - size)) with 0 by lia. done.
Qed.

Lemma chunked_bad_size_witness :
  (0 <= 0)%Z /\ chunked [1; 2; 3] 0 = Raise (ValueError "range() arg 3 must not be zero").
Proof. split; [lia|]. exact (chunked_bad_size [1; 2; 3] 0 ltac:(lia)). Defined.
(** ** Lemmas on [main] *)

Lemma py_index_in x l : In x l -> exists i, py_index x l = Ok i.
Proof.
  induction l as [|y l IH]; cbn; [done|]. intros [->|Hin].
  - rewrite decide_True by done. eauto.
  - case_decide; [eauto|]. destruct (IH Hin) as [i ->]. by exists (S i).
Qed.

Lemma list_last_in {A} (l : list A) : l <> [] -> exists y, list_last l = Ok y /\ In y l.
Proof.
  intros Hne. unfold list_last. destruct (last l) as [y|] eqn:E.
  - exists y. split; [done|]. apply list_elem_of_In. by apply last_Some_elem_of.
  - by apply last_None in E.
Qed.

Lemma batch_header_ok files n b :
  b <> [] -> (forall x, In x b -> In x files) -> exists h, batch_header files n b = Ok h.
Proof.
  intros Hne Hsub. destruct b as [|x b]; [done|]. cbn.
  destruct (py_index_in x files) as [i ->]; [apply Hsub; by left|]. cbn.
  destruct (list_last_in (x :: b)) as (y & -> & Hy); [done|]. cbn.
  destruct (py_index_in y files) as [j ->]; [by apply Hsub|]. by eexists.
Qed.

(** [files.index(x)] in a list without duplicates is the position of [x]. *)
Lemma py_index_nodup x l j : NoDup l -> l !! j = Some x -> py_index x l = Ok j.
Proof.
  revert j. induction l as [|y l IH]; intros j Hnd Hj; [done|].
  apply NoDup_cons in Hnd as [Hy Hnd]. cbn. destruct j as [|j]; cbn in Hj.
  - inv Hj. by rewrite decide_True.
  - rewrite decide_False by (intros ->; apply Hy; by eapply list_elem_of_lookup_2).
    by rewrite (IH j Hnd Hj).
Qed.

(** The first and last files of the batch [take n (drop k l)]. *)
Lemma batch_ends (l : list string) n k x b :
  take n (drop k l) = x :: b ->
  l !! k = Some x /\ list_last (x :: b) = Ok (default x (l !! (k + length b))) /\
  is_Some (l !! (k + length b)).
Proof.
  intros Hb. assert (Hl : length (x :: b) <= n) by (rewrite <- Hb, length_take; lia). cbn in Hl.
  assert (H0 : (x :: b) !! 0 = Some x) by done. rewrite <- Hb, lookup_take_lt, lookup_drop in H0 by lia.
  rewrite Nat.add_0_r in H0. split; [done|].
  assert (Hlast : (x :: b) !! length b = last (x :: b)) by (rewrite last_lookup; done).
  destruct (last (x :: b)) as [y|] eqn:Ey; [|by apply last_None in Ey].
  rewrite <- Hb, lookup_take_lt, lookup_drop in Hlast by lia.
  unfold list_last. rewrite Ey, Hlast. split; [done|by eexists].
Qed.

(** C10. Batch headers: for files without duplicates (as [sorted(glob)]
    gives them) and a positive size, the header of the [(i+1)]-th batch
    reads ["Starting batch i+1: m items (files a..b of n)"] with [m] the
    batch's length, [a = i * size + 1] and [b = i * size + m]: the
    one-based positions of its first and last file in the whole list. *)
Theorem batch_headers (files : list string) size bs i b :
  NoDup files -> (0 < size)%Z -> chunked files size = Ok bs -> bs !! i = Some b ->
  batch_header files (S i) b =
    Ok ("Starting batch " ++ str_of_int (Z.of_nat (S i)) ++ ": " ++ str_of_int (Z.of_nat (length b)) ++
        " items (files " ++ str_of_int (Z.of_nat (i * Z.to_nat size + 1)) ++ ".." ++
        str_of_int (Z.of_nat (i * Z.to_nat size + length b)) ++ " of " ++
        str_of_int (Z.of_nat (length files)) ++ ")").
Proof.
  intros Hnd Hs Hc Hb. destruct (chunked_props files size bs Hs Hc) as (_ & _ & Hsz).
  destruct (Hsz i b Hb) as [[Hpos _] _].
  rewrite chunked_pos in Hc by done. injection Hc as <-.
  destruct (batch_of_lookup _ _ _ _ _ Hb) as [Eb _]. destruct b as [|x b']; [cbn in Hpos; lia|].
  destruct (batch_ends files _ _ x b' (eq_sym Eb)) as (Hx & Hlast & [y Hy]).
  rewrite Hy in Hlast. cbn [default] in Hlast.
  cbn [batch_header]. rewrite (py_index_nodup x files _ Hnd Hx). cbn -[str_of_int]. rewrite Hlast.
  cbn -[str_of_int]. rewrite (py_index_nodup y files _ Hnd Hy). cbn -[str_of_int].
  by replace (i * Z.to_nat size + length b' + 1) with (i * Z.to_nat size + length (x :: b')) by (cbn; lia).
Qed.

Lemma py_sleep_ok secs : (0 <= secs)%Z -> py_sleep secs = Ok (Pause secs).
Proof. intros. unfold py_sleep. by destruct (Z.ltb_spec secs 0); [lia|]. Qed.

Lemma fifo_sched_ok a : (0 < a_concurrency a)%Z -> sched_ok a (fun _ b => b).
Proof. intros Hc n b. apply Pool.pool_completes_fifo. lia. Qed.

(** Counting the requests of a list of events built by cons and append. *)
Local Ltac count_requests :=
  cbn [fst] in *; rewrite ?count_true_cons, ?count_true_app; change (count_true is_request []) with 0;
  cbn [is_request] in *; lia.

Section Main.
Context (net : network) (s : fs) (a : args) (token : string).
Context (sched : nat -> list string -> list string).

(** The row the script records for one file. *)
Definition row_of (name : string) : row := (upload_one net s a token name).2.

Lemma upload_one_events name :
  (upload_one net s a token name).1 =
  (map Net (worker net s (a_endpoint a) token (path_join (a_src a) name) (a_retries a)).1 ++
   [Print (result_line name (worker net s (a_endpoint a) token (path_join (a_src a) name) (a_retries a)).2)])%list.
Proof. unfold upload_one. by destruct (worker _ _ _ _ _ _). Qed.

Lemma collect_rows order : (collect net s a token order).2 = map row_of order.
Proof.
  induction order as [|nm order IH]; [done|]. cbn [collect map].
  rewrite <- IH. unfold row_of.
  by destruct (upload_one net s a token nm), (collect net s a token order).
Qed.

Lemma collect_events order e :
  e ∈ (collect net s a token order).1 -> (exists ev, e = Net ev) \/ (exists l, e = Print l).
Proof.
  induction order as [|nm order IH]; cbn [collect]; [set_solver|].
  pose proof (upload_one_events nm) as He.
  destruct (upload_one net s a token nm) as [e1 r1].
  destruct (collect net s a token order) as [e2 r2]. cbn in *. subst e1.
  rewrite !elem_of_app. intros [[Hin|Hin]|Hin]; [|right; apply list_elem_of_singleton in Hin; eauto|auto].
  apply list_elem_of_fmap in Hin as (ev & -> & _). eauto.
Qed.

Lemma collect_no_pause order : count_true is_pause (collect net s a token order).1 = 0.
Proof.
  apply count_true_none. intros e He.
  by destruct (collect_events order e He) as [[ev ->]|[l ->]].
Qed.
(** The rows appended for the batches from number [S k] on. *)
Fixpoint sched_rows (k : nat) (batches : list (list string)) : list row :=
  match batches with
  | [] => []
  | b :: bs => (map row_of (sched (S k) b) ++ sched_rows (S k) bs)%list
  end.

Lemma sched_rows_perm k batches :
  sched_ok a sched -> sched_rows k batches ≡ₚ map row_of (concat batches).
Proof.
  intros Hok. revert k. induction batches as [|b bs IH]; intros k; [done|]. cbn.
  rewrite map_app, IH. apply Permutation_app_tail, Permutation_map.
  eapply Pool.pool_completes_perm, Hok.
Qed.

Lemma run_batches_ok files batches k results :
  sched_ok a sched -> (0 < a_concurrency a)%Z -> (0 <= a_sleep_after a)%Z ->
  Forall (fun b => b <> [] /\ forall x, In x b -> In x files) batches ->
  length results + length (concat batches) = length files ->
  (run_batches net s a token sched files batches k results).2 = Ok (results ++ sched_rows k batches)%list /\
  count_true is_pause (run_batches net s a token sched files batches k results).1 = length batches - 1 /\
  (forall e, e ∈ (run_batches net s a token sched files batches k results).1 ->
             is_pause e = true -> e = Pause (a_sleep_after a)).
Proof.
  intros Hok Hc Hsl. revert k results.
  induction batches as [|b bs IH]; intros k results Hall Hlen.
  { cbn. rewrite app_nil_r. split; [done|]. split; [done|]. set_solver. }
  inv Hall as [|? ? [Hne Hsub] Hbs]. cbn [run_batches].
  destruct (batch_header_ok files (S k) b Hne Hsub) as [h ->].
  destruct (Z.leb_spec (a_concurrency a) 0) as [|_]; [lia|].
  destruct (collect net s a token (sched (S k) b)) as [evs rows] eqn:Ec.
  assert (Hrows : rows = map row_of (sched (S k) b))
    by (pose proof (collect_rows (sched (S k) b)) as Hr; rewrite Ec in Hr; exact Hr).
  assert (Hlr : length rows = length b)
    by (rewrite Hrows, length_map; apply Permutation_length, (Pool.pool_completes_perm _ _ _ (Hok _ _))).
  pose proof (collect_no_pause (sched (S k) b)) as Hnp. rewrite Ec in Hnp. cbn -[count_true] in Hnp.
  assert (Hev : forall e, e ∈ evs -> is_pause e = false).
  { intros e He. assert (He' : e ∈ (collect net s a token (sched (S k) b)).1) by (rewrite Ec; exact He).
    by destruct (collect_events _ e He') as [[? ->]|[? ->]]. }
  cbn [concat] in Hlen. rewrite length_app in Hlen.
  destruct bs as [|b' bs'].
  - cbn in Hlen. rewrite length_app, Hlr.
    destruct (Z.ltb_spec 0 (Z.of_nat (length files) - Z.of_nat (length results + length b))); [lia|].
    cbn -[count_true]. rewrite !app_nil_r, Hrows. split; [done|].
    rewrite count_true_cons, Hnp. split; [done|].
    intros e He Hp. apply elem_of_cons in He as [->|He]; [discriminate|]. by rewrite Hev in Hp.
  - pose proof Hbs as Hbs0. apply Forall_cons in Hbs0 as [[Hne' _] _].
    rewrite length_app, Hlr.
    assert (0 < length (concat (b' :: bs'))) by (cbn; rewrite length_app; destruct b'; cbn; [done|lia]).
    destruct (Z.ltb_spec 0 (Z.of_nat (length files) - Z.of_nat (length results + length b))); [|lia].
    rewrite py_sleep_ok by done.
    destruct (IH (S k) (results ++ rows)%list) as (Hout & Hcnt & Hpause);
      [exact Hbs | rewrite length_app, Hlr; lia |].
    destruct (run_batches net s a token sched files (b' :: bs') (S k) (results ++ rows)) as [evs' out] eqn:Er.
    cbn -[count_true] in *. split; [by rewrite Hout, Hrows, <- app_assoc|].
    repeat rewrite ?count_true_cons, ?count_true_app. rewrite Hnp, Hcnt. cbn. split; [lia|].
    intros e He Hp. apply elem_of_cons in He as [->|He]; [discriminate|].
    apply elem_of_app in He as [He|He]; [by rewrite Hev in Hp|].
    apply elem_of_cons in He as [->|He]; [discriminate|].
    apply elem_of_cons in He as [->|He]; [done|].
    by apply Hpause.
Qed.
Lemma row_of_success name :
  r_success (row_of name) =
  w_success (worker net s (a_endpoint a) token (path_join (a_src a) name) (a_retries a)).2.
Proof. unfold row_of, upload_one. by destruct (worker _ _ _ _ _ _). Qed.

Lemma chunked_batches_ok (files : list string) size batches :
  (0 < size)%Z -> chunked files size = Ok batches ->
  Forall (fun b => b <> [] /\ forall x, In x b -> In x files) batches /\
  length (concat batches) = length files.
Proof.
  intros Hs Hc. destruct (chunked_props files size batches Hs Hc) as (Hcat & _ & Hb).
  split; [|by rewrite Hcat]. apply Forall_lookup. intros i b Hi. split.
  - destruct (Hb i b Hi) as [[Hl _] _]. destruct b; [cbn in Hl; lia | done].
  - intros x Hx. rewrite <- Hcat. apply in_concat. exists b. split; [|done].
    apply list_elem_of_In. exact (list_elem_of_lookup_2 _ _ _ Hi).
Qed.

(** [main] on a real run: the result rows are those of the batches in
    collection order, and the pauses are the ones between batches. *)
Lemma main_run :
  sched_ok a sched -> a_dry_run a = false -> a_token a = Some token -> token <> "" ->
  (0 < a_batch_size a)%Z -> (0 < a_concurrency a)%Z -> (0 <= a_sleep_after a)%Z ->
  glob (a_src a) "" ".json" s <> [] ->
  exists batches evs,
    chunked (glob (a_src a) "" ".json" s) (a_batch_size a) = Ok batches /\
    main net s a sched = ((evs ++ [Print (summary (sched_rows 0 batches))])%list, Ok tt) /\
    count_true is_pause evs = length batches - 1 /\
    (forall e, e ∈ evs -> is_pause e = true -> e = Pause (a_sleep_after a)).
Proof.
  intros Hok Hdry Htok Hne Hbs Hc Hsl Hfiles.
  pose proof (chunked_pos (glob (a_src a) "" ".json" s) (a_batch_size a) Hbs) as Hch.
  set (files := glob (a_src a) "" ".json" s) in *.
  set (batches := batches_of _ files _) in Hch.
  destruct (chunked_batches_ok files _ batches Hbs Hch) as [Hall Hlen].
  destruct (run_batches_ok files batches 0 [] Hok Hc Hsl Hall ltac:(cbn; lia)) as (Hout & Hcnt & Hp).
  exists batches, (run_batches net s a token sched files batches 0 []).1.
  split; [done|]. unfold main. fold files.
  destruct files as [|f fs] eqn:Ef; [done|]. rewrite Hdry, Htok.
  destruct token as [|c t]; [done|]. rewrite Hch.
  destruct (run_batches _ _ _ _ _ _ _ _ _) as [evs out]. cbn in Hout. subst out.
  split; [done|]. split; [done|]. done.
Qed.
(** ** Requests *)

Lemma upload_one_requests name :
  count_true is_request (upload_one net s a token name).1 <= Z.to_nat (a_retries a).
Proof.
  rewrite upload_one_events, count_true_app, count_true_map.
  rewrite (count_true_ext _ is_post) by (by intros []).
  destruct (worker_loop_bounds net s (a_endpoint a) token (path_join (a_src a) name) 1 (Z.to_nat (a_retries a)) None)
    as [Hp _]. rewrite (count_true_cons _ (Print _)). change (count_true is_request []) with 0.
    unfold worker, posts in *. cbn [is_request]. lia.
Qed.

Lemma collect_requests order :
  count_true is_request (collect net s a token order).1 <= length order * Z.to_nat (a_retries a).
Proof.
  induction order as [|nm order IH]; cbn [collect]; [done|].
  pose proof (upload_one_requests nm) as H1.
  destruct (upload_one net s a token nm) as [e1 r1], (collect net s a token order) as [e2 r2].
  cbn [fst] in *. rewrite count_true_app. cbn [length]. lia.
Qed.


Lemma run_batches_requests files batches k results :
  sched_ok a sched ->
  count_true is_request (run_batches net s a token sched files batches k results).1 <=
    length (concat batches) * Z.to_nat (a_retries a).
Proof.
  intros Hok. revert k results. induction batches as [|b bs IH]; intros k results; cbn [run_batches]; [done|].
  destruct (batch_header files (S k) b) as [h|e]; [|count_requests].
  destruct (a_concurrency a <=? 0)%Z; [count_requests|].
  pose proof (collect_requests (sched (S k) b)) as Hc.
  rewrite (Permutation_length (Pool.pool_completes_perm _ _ _ (Hok (S k) b))) in Hc.
  destruct (collect net s a token (sched (S k) b)) as [evs rows].
  replace (length (concat (b :: bs)) * Z.to_nat (a_retries a)) with
    (length b * Z.to_nat (a_retries a) + length (concat bs) * Z.to_nat (a_retries a))
    by (cbn [concat]; rewrite length_app; lia).
  destruct (0 <? _)%Z; [destruct (py_sleep (a_sleep_after a)) as [p|e] eqn:Ep|].
  - assert (Hp : is_request p = false) by (unfold py_sleep in Ep; destruct (_ <? 0)%Z; by inv Ep).
    specialize (IH (S k) (results ++ rows)%list).
    destruct (run_batches _ _ _ _ _ _ _ _ _) as [evs' out]. cbn [fst] in *.
    rewrite ?count_true_cons, ?count_true_app, (count_true_cons _ _ [p]), (count_true_cons _ p []), Hp.
    count_requests.
  - count_requests.
  - specialize (IH (S k) (results ++ rows)%list).
    destruct (run_batches _ _ _ _ _ _ _ _ _) as [evs' out]. count_requests.
Qed.

End Main.

(** C7. The summary line: on a real upload (token given, batch size,
    concurrency positive, pause non-negative) of a non-empty directory,
    [main] returns normally and its last line reports, over the number of
    [*.json] files, the number of files whose worker succeeded, whatever
    the order in which the pool completed them. *)
Theorem main_summary net s a token sched :
  sched_ok a sched -> a_dry_run a = false -> a_token a = Some token -> token <> "" ->
  (0 < a_batch_size a)%Z -> (0 < a_concurrency a)%Z -> (0 <= a_sleep_after a)%Z ->
  glob (a_src a) "" ".json" s <> [] ->
  exists evs,
    main net s a sched =
    ((evs ++ [Print ("Uploaded " ++
        str_of_int (Z.of_nat (count_true (fun f =>
          w_success (worker net s (a_endpoint a) token (path_join (a_src a) f) (a_retries a)).2)
          (glob (a_src a) "" ".json" s))) ++ "/" ++
        str_of_int (Z.of_nat (length (glob (a_src a) "" ".json" s))) ++ " items")])%list, Ok tt).
Proof.
  intros Hok Hdry Htok Hne Hbs Hc Hsl Hfiles.
  destruct (main_run net s a token sched Hok Hdry Htok Hne Hbs Hc Hsl Hfiles)
    as (batches & evs & Hch & Hmain & _). exists evs. rewrite Hmain. do 4 f_equal.
  destruct (chunked_props _ _ _ Hbs Hch) as (Hcat & _).
  pose proof (sched_rows_perm net s a token sched 0 batches Hok) as Hp.
  unfold summary. rewrite (count_true_perm _ _ _ Hp), (Permutation_length Hp), Hcat.
  rewrite count_true_map, length_map.
  erewrite count_true_ext; [reflexivity | intros x; apply row_of_success].
Qed.

(** C16. Dry run: with [--dry-run] on a non-empty directory [main] sends
    no request, sleeps never, and prints the count line, at most ten file
    names and the batch settings. *)
Theorem main_dry_run net s a sched :
  a_dry_run a = true -> glob (a_src a) "" ".json" s <> [] ->
  let '(evs, r) := main net s a sched in
  r = Ok tt /\ count_true is_net evs = 0 /\ count_true is_pause evs = 0 /\
  length evs = 2 + Nat.min 10 (length (glob (a_src a) "" ".json" s)).
Proof.
  intros Hdry Hne. unfold main. destruct (glob (a_src a) "" ".json" s) as [|f fs] eqn:E; [done|].
  rewrite Hdry. split; [done|].
  assert (Hp : forall e, e ∈ dry_run_lines a (f :: fs) -> exists l, e = Print l).
  { intros e. unfold dry_run_lines. rewrite elem_of_cons, elem_of_app, list_elem_of_singleton.
    intros [-> | [(x & -> & _)%list_elem_of_fmap | ->]]; eauto. }
  split; [|split]; [apply count_true_none; intros e He; by destruct (Hp e He) as [? ->] ..|].
  unfold dry_run_lines. cbn [length]. rewrite length_app, length_map, length_take. cbn. lia.
Qed.
(** C17. A real run without a token (absent or empty) prints the error
    line, sends nothing and returns normally. *)
Theorem main_no_token net s a sched :
  a_dry_run a = false -> (a_token a = None \/ a_token a = Some "") ->
  glob (a_src a) "" ".json" s <> [] ->
  main net s a sched = ([Print "Error: --token is required for actual upload"], Ok tt).
Proof.
  intros Hdry Htok Hne. unfold main.
  destruct (glob (a_src a) "" ".json" s); [done|]. rewrite Hdry.
  by destruct Htok as [-> | ->].
Qed.

(** C19. Batch size 0: the first iteration of [chunked] raises
    [ValueError] from [range]; nothing was printed or sent before. *)
Theorem main_zero_batch_size net s a token sched :
  a_dry_run a = false -> a_token a = Some token -> token <> "" -> a_batch_size a = 0%Z ->
  glob (a_src a) "" ".json" s <> [] ->
  main net s a sched = ([], Raise (ValueError "range() arg 3 must not be zero")).
Proof.
  intros Hdry Htok Hne Hbs Hfiles. unfold main.
  destruct (glob (a_src a) "" ".json" s); [done|]. rewrite Hdry, Htok.
  destruct token; [done|]. unfold chunked, py_range. by rewrite Hbs.
Qed.

(** C20. A negative batch size gives no batch: nothing is uploaded, yet
    the run ends normally with the summary ["Uploaded 0/0 items"]. *)
Theorem main_negative_batch_size net s a token sched :
  a_dry_run a = false -> a_token a = Some token -> token <> "" -> (a_batch_size a < 0)%Z ->
  glob (a_src a) "" ".json" s <> [] ->
  main net s a sched = ([Print "Uploaded 0/0 items"], Ok tt).
Proof.
  intros Hdry Htok Hne Hbs Hfiles. unfold main.
  destruct (glob (a_src a) "" ".json" s) as [|f fs]; [done|]. rewrite Hdry, Htok.
  destruct token; [done|]. by rewrite chunked_neg.
Qed.

(** C21. [--concurrency 0] (or negative): the first batch header is
    printed, then creating the executor raises [ValueError]; no request
    is sent. *)
Theorem main_no_workers net s a token sched :
  a_dry_run a = false -> a_token a = Some token -> token <> "" -> (0 < a_batch_size a)%Z ->
  (a_concurrency a <= 0)%Z -> glob (a_src a) "" ".json" s <> [] ->
  exists header, main net s a sched = ([Print header], Raise (ValueError "max_workers must be greater than 0")).
Proof.
  intros Hdry Htok Hne Hbs Hc Hfiles.
  pose proof (chunked_pos (glob (a_src a) "" ".json" s) (a_batch_size a) Hbs) as Hch.
  set (files := glob (a_src a) "" ".json" s) in *.
  set (batches := batches_of _ files _) in Hch.
  destruct (chunked_batches_ok files _ batches Hbs Hch) as [Hall Hlen].
  unfold main. fold files. destruct files as [|f fs] eqn:Ef; [done|].
  rewrite Hdry, Htok. destruct token as [|c t]; [done|]. rewrite Hch.
  destruct batches as [|b bs]; [cbn in Hlen; lia|].
  apply Forall_cons in Hall as [[Hb Hsub] _].
  destruct (batch_header_ok (f :: fs) 1 b Hb Hsub) as [h Hh].
  exists h. cbn [run_batches]. rewrite Hh. by destruct (Z.leb_spec (a_concurrency a) 0); [|lia].
Qed.
(** ** Witnesses on a three-file directory *)

Lemma dry_run_no_request a files : count_true is_request (dry_run_lines a files) = 0.
Proof.
  apply count_true_none. intros e He. unfold dry_run_lines in He.
  apply elem_of_cons in He as [->|He]; [done|]. apply elem_of_app in He as [He|He].
  - by apply list_elem_of_fmap in He as (f & -> & _).
  - by apply list_elem_of_singleton in He as ->.
Qed.


Definition sample_fs : fs :=
  {[ "items" := {[ "a.json" := Blob [Byte.x7b; Byte.x7d]; "b.json" := Blob [Byte.x7b; Byte.x7d];
                   "c.json" := Blob [Byte.x7b; Byte.x7d] ]} ]}.

Definition sample_net : network := fun _ attempt =>
  if decide (attempt = 1) then Fault "timed out" else Response 201 "created".

Definition sample_args (dry : bool) (token : option string) (conc size : Z) : args :=
  mk_args "https://api.example/items" token "items" conc 2 dry size 5.

Lemma main_summary_witness :
  exists evs, main sample_net sample_fs (sample_args false (Some "tok") 2 2) (fun _ b => b) =
    ((evs ++ [Print "Uploaded 3/3 items"])%list, Ok tt).
Proof.
  destruct (main_summary sample_net sample_fs (sample_args false (Some "tok") 2 2) "tok" (fun _ b => b))
    as [evs Hm]; [apply fifo_sched_ok; reflexivity|reflexivity|reflexivity|discriminate|reflexivity|reflexivity|discriminate|vm_compute; discriminate|].
  exists evs. rewrite Hm. vm_compute. reflexivity.
Defined.


Lemma main_dry_run_witness :
  let '(evs, r) := main sample_net sample_fs (sample_args true None 2 2) (fun _ b => b) in
  r = Ok tt /\ count_true is_net evs = 0 /\ count_true is_pause evs = 0 /\ length evs = 5.
Proof.
  pose proof (main_dry_run sample_net sample_fs (sample_args true None 2 2) (fun _ b => b)
    eq_refl ltac:(vm_compute; discriminate)) as H.
  destruct (main _ _ _ _) as [evs r]. destruct H as (? & ? & ? & ->). repeat split; try done.
Defined.

Lemma main_no_token_witness :
  main sample_net sample_fs (sample_args false (Some "") 2 2) (fun _ b => b) =
    ([Print "Error: --token is required for actual upload"], Ok tt).
Proof.
  exact (main_no_token sample_net sample_fs (sample_args false (Some "") 2 2) (fun _ b => b)
    eq_refl (or_intror eq_refl) ltac:(vm_compute; discriminate)).
Defined.

Lemma main_zero_batch_size_witness :
  main sample_net sample_fs (sample_args false (Some "tok") 2 0) (fun _ b => b) =
    ([], Raise (ValueError "range() arg 3 must not be zero")).
Proof.
  exact (main_zero_batch_size sample_net sample_fs (sample_args false (Some "tok") 2 0) "tok"
    (fun _ b => b) eq_refl eq_refl ltac:(discriminate) eq_refl ltac:(vm_compute; discriminate)).
Defined.

Lemma main_negative_batch_size_witness :
  main sample_net sample_fs (sample_args false (Some "tok") 2 (-1)) (fun _ b => b) =
    ([Print "Uploaded 0/0 items"], Ok tt).
Proof.
  exact (main_negative_batch_size sample_net sample_fs (sample_args false (Some "tok") 2 (-1)) "tok"
    (fun _ b => b) eq_refl eq_refl ltac:(discriminate) eq_refl ltac:(vm_compute; discriminate)).
Defined.

Lemma main_no_workers_witness :
  exists header, main sample_net sample_fs (sample_args false (Some "tok") 0 2) (fun _ b => b) =
    ([Print header], Raise (ValueError "max_workers must be greater than 0")).
Proof.
  exact (main_no_workers sample_net sample_fs (sample_args false (Some "tok") 0 2) "tok"
    (fun _ b => b) eq_refl eq_refl ltac:(discriminate) eq_refl ltac:(discriminate)
    ltac:(vm_compute; discriminate)).
Defined.

(** Five files in batches of two: the second batch is files 3..4 of 5. *)
Lemma batch_headers_witness :
  chunked ["a"; "b"; "c"; "d"; "e"] 2 = Ok [["a"; "b"]; ["c"; "d"]; ["e"]] /\
  batch_header ["a"; "b"; "c"; "d"; "e"] 2 ["c"; "d"] = Ok "Starting batch 2: 2 items (files 3..4 of 5)".
Proof.
  assert (Hc : chunked ["a"; "b"; "c"; "d"; "e"] 2 = Ok [["a"; "b"]; ["c"; "d"]; ["e"]]) by reflexivity.
  split; [exact Hc|].
  rewrite (batch_headers ["a"; "b"; "c"; "d"; "e"] 2 [["a"; "b"]; ["c"; "d"]; ["e"]] 1 ["c"; "d"]);
    [reflexivity| |lia|exact Hc|reflexivity].
  apply (bool_decide_unpack _). vm_compute. reflexivity.
Defined.

End Uploader.
