(* ===== verification/Generator.v ===== *)
(** * [generate_notebooks.py]: the notebook generator

    [TEMPLATE] is the JSON value of the script; [notebook_data] is the
    sequence of subscripts and assignments of [generate_notebook] (lines
    51-62) on the copy [data]. [deepcopy] makes [data] and its cells
    private to one call: in the value model every JSON value is already
    unshared, so a copy is the value itself and [TEMPLATE] is never
    changed. [generate_notebook] writes [json.dump(data, indent=2)] to
    [os.path.join(path, f"notebook_{index:03d}.ipynb")]; [main] creates the
    output directory, runs the loop over [range(1, count + 1)], zips the
    created files (an exception there only drops the zip message) and
    prints its report. [repo_root] is [dirname(dirname(__file__))], a
    parameter of the model. *)

From Stdlib Require Import ZArith Lia Ascii String.
From S2P Require Import Prelude PyStr Json FileSys Paths.

Local Open Scope string_scope.

Module Generator.

Definition md_cell : json :=
  JDict [("cell_type", JStr "markdown"); ("metadata", JDict [("language", JStr "markdown")]);
         ("source", JList [JStr "# Notebook";
                           JStr "This notebook was generated for import into Microsoft Fabric."])].

(** [print("Hello from generated notebook")] *)
Definition hello_line : string :=
  "print(" ++ str1 quote_char ++ "Hello from generated notebook" ++ str1 quote_char ++ ")".

Definition code_cell : json :=
  JDict [("cell_type", JStr "code"); ("metadata", JDict [("language", JStr "python")]);
         ("execution_count", JNull); ("outputs", JList []);
         ("source", JList [JStr "# Sample cell"; JStr hello_line])].

Definition language_info : json := JDict [("language_info", JDict [("name", JStr "python")])].

Definition TEMPLATE : json :=
  JDict [("nbformat", JInt 4); ("nbformat_minor", JInt 5); ("cells", JList [md_cell; code_cell]);
         ("metadata", language_info)].

Definition notebook_name (index : Z) : string := "notebook_" ++ format_03d index ++ ".ipynb".

Definition marker_source (index : Z) : json :=
  JList [JStr "# Notebook"; JStr ("Generated notebook #" ++ str_of_int index ++ " for Fabric import.")].

(** Lines 51-62, on the private copy [data]. *)
Definition notebook_data (index : Z) : res json :=
  let data := TEMPLATE in
  let? cells := getitem_key "cells" TEMPLATE in
  let? data := setitem_key "cells" cells data in
  let? cells := getitem_key "cells" data in
  let? cell0 := getitem_index 0 cells in
  let? cell0 := setitem_key "source" (marker_source index) cell0 in
  let? cells := setitem_index 0 cell0 cells in
  let? data := setitem_key "cells" cells data in
  let? data := setdefault_key "nbformat" (JInt 4) data in
  let? data := setdefault_key "nbformat_minor" (JInt 5) data in
  setdefault_key "metadata" language_info data.

Definition generate_notebook (path : string) (index : Z) (s : fs) : res (fs * string) :=
  let out := path_join path (notebook_name index) in
  let? data := notebook_data index in
  let? s' := write_path out (utf8 (dump_indent data)) s in
  Ok (s', out).

Record gen_args : Type := mk_gen_args {
  g_count : Z;
  g_outdir : string
}.

(** [ensure_dir(path)]: [os.makedirs(path, exist_ok=True)]. *)
Definition ensure_dir (path : string) (s : fs) : res fs := makedirs path s.

(** [for i in ...: created.append(generate_notebook(outdir, i))]; the files
    written before an exception stay written. *)
Fixpoint gen_loop (outdir : string) (idxs : list Z) (s : fs) : fs * res (list string) :=
  match idxs with
  | [] => (s, Ok [])
  | i :: idxs' =>
      match generate_notebook outdir i s with
      | Raise e => (s, Raise e)
      | Ok (s1, p) => let '(s2, r) := gen_loop outdir idxs' s1 in (s2, res_map (cons p) r)
      end
  end.

(** [main()]: the final file system, the printed lines and the outcome. *)
Definition main (repo_root : string) (a : gen_args) (s : fs) : fs * list string * res unit :=
  let outdir := path_join repo_root (g_outdir a) in
  match ensure_dir outdir s with
  | Raise e => (s, [], Raise e)
  | Ok s1 =>
      match py_range 1 (g_count a + 1) 1 with
      | Raise e => (s1, [], Raise e)
      | Ok idxs =>
          let '(s2, r) := gen_loop outdir idxs s1 in
          match r with
          | Raise e => (s2, [], Raise e)
          | Ok created =>
              let zip_path := path_join repo_root (g_outdir a ++ ".zip") in
              let '(s3, zr) := zip_files zip_path created s2 in
              (s3, ("Created " ++ str_of_int (Z.of_nat (length created)) ++ " notebooks in: " ++ outdir)
                     :: match zr with Ok _ => ["Zip created: " ++ zip_path] | Raise _ => [] end,
               Ok tt)
          end
      end
  end.

(** ** What a generated notebook holds *)

Definition md_cell_of (index : Z) : json :=
  JDict [("cell_type", JStr "markdown"); ("metadata", JDict [("language", JStr "markdown")]);
         ("source", marker_source index)].

Definition notebook_spec (index : Z) : json :=
  JDict [("nbformat", JInt 4); ("nbformat_minor", JInt 5); ("cells", JList [md_cell_of index; code_cell]);
         ("metadata", language_info)].

Definition notebook_bytes (index : Z) : list Byte.byte := utf8 (dump_indent (notebook_spec index)).

(** ** Lemmas *)

Lemma notebook_data_spec i : notebook_data i = Ok (notebook_spec i).
Proof. reflexivity. Qed.

Lemma notebook_name_no_slash i : (0 <= i)%Z -> no_slash (notebook_name i) = true.
Proof.
  intros Hi. unfold notebook_name, no_slash. rewrite !str_forall_append. cbn -[format_03d].
  rewrite (str_forall_impl is_digit); [done| |by apply format_03d_digits].
  intros c Hc. apply bool_decide_eq_true. by intros ->.
Qed.

Lemma notebook_name_inj i j : (0 <= i)%Z -> (0 <= j)%Z -> notebook_name i = notebook_name j -> i = j.
Proof. intros Hi Hj H. by apply str_app_inv_l, str_app_inv_r, format_03d_inj in H. Qed.

Lemma notebook_name_ipynb i : str_suffix ".ipynb" (notebook_name i).
Proof. exists ("notebook_" ++ format_03d i). unfold notebook_name. by rewrite str_app_assoc. Qed.

Lemma generate_notebook_ok outdir i s :
  outdir <> "" -> (0 <= i)%Z -> is_Some (lookup_dir outdir s) ->
  exists s', generate_notebook outdir i s = Ok (s', path_join outdir (notebook_name i)) /\
    lookup_file outdir (notebook_name i) s' = Some (Blob (notebook_bytes i)) /\
    (forall d n, (dir_key d, n) <> (dir_key outdir, notebook_name i) -> lookup_file d n s' = lookup_file d n s) /\
    (forall d, is_Some (lookup_dir d s) -> is_Some (lookup_dir d s')).
Proof.
  intros Hd Hi Hex. unfold generate_notebook. rewrite notebook_data_spec. cbn [res_bind].
  destruct (write_join_ok outdir (notebook_name i) Hd (notebook_name_no_slash i Hi) (notebook_bytes i) s Hex)
    as (s' & E & Hl & Hf & _ & Hdirs).
  unfold notebook_bytes in E. rewrite E. eexists; split; [done|]. auto.
Qed.

Lemma gen_loop_ok outdir idxs s :
  outdir <> "" -> Forall (fun i => 0 <= i)%Z idxs -> is_Some (lookup_dir outdir s) ->
  exists s', gen_loop outdir idxs s = (s', Ok (map (fun i => path_join outdir (notebook_name i)) idxs)) /\
    (forall i, i ∈ idxs -> lookup_file outdir (notebook_name i) s' = Some (Blob (notebook_bytes i))) /\
    (forall d n, (forall i, i ∈ idxs -> (dir_key d, n) <> (dir_key outdir, notebook_name i)) ->
       lookup_file d n s' = lookup_file d n s) /\
    (forall d, is_Some (lookup_dir d s) -> is_Some (lookup_dir d s')).
Proof.
  intros Hd. revert s. induction idxs as [|i0 idxs IH]; intros s Hpos Hex.
  { exists s. repeat split; [set_solver..|done]. }
  apply Forall_cons in Hpos as [Hi0 Hpos].
  destruct (generate_notebook_ok outdir i0 s Hd Hi0 Hex) as (s1 & E1 & Hs1 & Hf1 & Hd1).
  destruct (IH s1 Hpos (Hd1 _ Hex)) as (s2 & E2 & Hs2 & Hf2 & Hd2).
  exists s2. cbn. rewrite E1, E2. split; [done|]. split; [|split].
  - intros i [->|Hin]%elem_of_cons; [|by apply Hs2].
    destruct (decide (i0 ∈ idxs)) as [Hin|Hnin]; [by apply Hs2|].
    rewrite Hf2; [done|]. intros j Hj Heq. apply Hnin.
    assert (Hn : notebook_name i0 = notebook_name j) by congruence.
    rewrite Forall_forall in Hpos. by rewrite (notebook_name_inj i0 j Hi0 (Hpos j Hj) Hn).
  - intros d n Hne. rewrite Hf2, Hf1; [done| |].
    + apply Hne, list_elem_of_here.
    + intros j Hj. apply Hne. by apply list_elem_of_further.
  - auto.
Qed.

Lemma range_1_elem count i : i ∈ map (fun k => (1 + Z.of_nat k)%Z) (seq 0 (Z.to_nat (count + 1 - 1))) <->
  (1 <= i <= count)%Z.
Proof.
  rewrite list_elem_of_fmap. setoid_rewrite elem_of_seq. split.
  - intros (k & -> & _ & Hk). lia.
  - intros Hi. exists (Z.to_nat (i - 1)). lia.
Qed.

(** The output directory after [makedirs] and the loop: the notebooks
    [1..count], and the list of created paths. *)
Lemma main_loop_ok repo_root a s :
  (0 <= g_count a)%Z -> path_join repo_root (g_outdir a) <> "" ->
  exists s1 s2 idxs,
    makedirs (path_join repo_root (g_outdir a)) s = Ok s1 /\
    py_range 1 (g_count a + 1) 1 = Ok idxs /\ length idxs = Z.to_nat (g_count a) /\
    (forall i, i ∈ idxs <-> (1 <= i <= g_count a)%Z) /\
    gen_loop (path_join repo_root (g_outdir a)) idxs s1 =
      (s2, Ok (map (fun i => path_join (path_join repo_root (g_outdir a)) (notebook_name i)) idxs)) /\
    (forall i, i ∈ idxs -> lookup_file (path_join repo_root (g_outdir a)) (notebook_name i) s2 =
                           Some (Blob (notebook_bytes i))) /\
    (forall d n, (forall i, i ∈ idxs -> (dir_key d, n) <> (dir_key (path_join repo_root (g_outdir a)), notebook_name i)) ->
       lookup_file d n s2 = lookup_file d n s) /\
    (forall d, is_Some (lookup_dir d s) -> is_Some (lookup_dir d s2)) /\
    is_Some (lookup_dir (path_join repo_root (g_outdir a)) s2).
Proof.
  intros Hc Hd. set (outdir := path_join repo_root (g_outdir a)) in *.
  destruct (makedirs_ok outdir s Hd) as (s1 & E1 & Hex & Hf1).
  pose proof (py_range_1 1 (g_count a + 1)) as Er.
  set (idxs := map _ (seq 0 _)) in Er.
  assert (Hpos : Forall (fun i => 0 <= i)%Z idxs).
  { apply Forall_forall. intros i Hi%range_1_elem. lia. }
  destruct (gen_loop_ok outdir idxs s1 Hd Hpos Hex) as (s2 & E2 & Hs2 & Hf2 & Hd2).
  exists s1, s2, idxs. split; [done|]. split; [done|]. split; [unfold idxs; rewrite length_map, length_seq; lia|].
  split; [intros i; apply range_1_elem|]. split; [done|]. split; [done|].
  split; [intros d n Hne; by rewrite Hf2, Hf1|]. split; [|by apply Hd2].
  intros d Hd0. by apply Hd2, (makedirs_dirs _ _ _ _ E1).
Qed.

Lemma gen_loop_wf outdir idxs s : fs_wf s -> fs_wf (gen_loop outdir idxs s).1.
Proof.
  revert s. induction idxs as [|i idxs IH]; intros s Hs; [done|]. cbn [gen_loop].
  unfold generate_notebook. destruct (notebook_data i) as [data|e]; cbn [res_bind]; [|done].
  destruct (write_path _ _ s) as [s1|e] eqn:E; cbn [res_bind]; [|done].
  pose proof (IH s1 (fs_wf_write_path _ _ _ _ Hs E)) as H.
  by destruct (gen_loop outdir idxs s1).
Qed.

(** The zip ([<outdir>.zip]) is never one of the notebooks. *)
Lemma zip_not_notebook d r x i :
  (dir_key d, notebook_name i) <> (dir_key (dirname (path_join r (x ++ ".zip"))), basename (path_join r (x ++ ".zip"))).
Proof.
  intros [= _ Hb]. apply (suffix_exclusive ".zip" ".ipynb" (notebook_name i)); [|apply notebook_name_ipynb|done..].
  rewrite Hb. by apply basename_join_ext.
Qed.

Lemma notebook_read outdir i s :
  outdir <> "" -> (0 <= i)%Z -> lookup_file outdir (notebook_name i) s = Some (Blob (notebook_bytes i)) ->
  read_path (path_join outdir (notebook_name i)) s = Ok (notebook_bytes i).
Proof. intros Hd Hi. by apply read_join, notebook_name_no_slash. Qed.

Lemma zip_map_same {A B C} (f : A -> B) (g : A -> C) l : zip (map f l) (map g l) = map (fun x => (f x, g x)) l.
Proof. induction l as [|x l IH]; [done|]. cbn. by rewrite IH. Qed.

(** C37. A count of zero or less ([range(1, count + 1)] is empty) writes
    no notebook: the output directory is created, the files it held are
    left as they were, the zip is an archive with no member (when the
    directory it goes into exists), and the report reads ["Created 0
    notebooks"] and the zip line. *)
Theorem main_no_notebooks repo_root a s :
  (g_count a <= 0)%Z -> path_join repo_root (g_outdir a) <> "" ->
  is_Some (lookup_dir (dirname (path_join repo_root (g_outdir a ++ ".zip"))) s) ->
  let zp := path_join repo_root (g_outdir a ++ ".zip") in
  let '(s', out, r) := main repo_root a s in
  r = Ok tt /\
  out = ["Created 0 notebooks in: " ++ path_join repo_root (g_outdir a); "Zip created: " ++ zp] /\
  lookup_file (dirname zp) (basename zp) s' = Some (Archive []) /\
  forall i, lookup_file (path_join repo_root (g_outdir a)) (notebook_name i) s' =
            lookup_file (path_join repo_root (g_outdir a)) (notebook_name i) s.
Proof.
  intros Hc Hd Hz zp. destruct (makedirs_ok _ s Hd) as (s1 & E1 & _ & Hf1).
  destruct (zip_files_ok zp [] [] s1) as (s2 & E2 & Ha);
    [exact (makedirs_dirs _ _ _ _ E1 Hz)|constructor|constructor|].
  assert (Er : py_range 1 (g_count a + 1) 1 = Ok []).
  { unfold py_range, range_len. rewrite decide_False by lia. cbn -[Z.sub Z.add Z.div].
    by replace (Z.to_nat ((g_count a + 1 - 1 + 1 - 1) / 1)) with 0 by (rewrite Z.div_1_r; lia). }
  unfold main, ensure_dir. rewrite E1, Er. cbn [gen_loop]. fold zp. rewrite E2.
  split; [done|]. split; [done|]. split; [done|].
  intros i. rewrite <- Hf1. replace s2 with (zip_files zp [] s1).1 by (by rewrite E2).
  apply zip_files_other. intros [= _ Hb].
  apply (suffix_exclusive ".zip" ".ipynb" (notebook_name i)); [|apply notebook_name_ipynb|done..].
  rewrite Hb. by apply basename_join_ext.
Qed.

(** C35. The generator writes, for every [i] in [1..count], the file
    [notebook_{i:03d}.ipynb] of the output directory, holding
    [json.dump(data, indent=2)] of the template whose first cell reads
    ["Generated notebook #i for Fabric import."]; it returns normally
    and its first line reports [count] notebooks. *)
Theorem main_writes_notebooks repo_root a s :
  (0 <= g_count a)%Z -> path_join repo_root (g_outdir a) <> "" ->
  let '(s', out, r) := main repo_root a s in
  r = Ok tt /\
  head out = Some ("Created " ++ str_of_int (g_count a) ++ " notebooks in: " ++ path_join repo_root (g_outdir a)) /\
  forall i, (1 <= i <= g_count a)%Z ->
    read_path (path_join (path_join repo_root (g_outdir a)) (notebook_name i)) s' =
      Ok (utf8 (dump_indent (notebook_spec i))).
Proof.
  intros Hc Hd. destruct (main_loop_ok repo_root a s Hc Hd) as (s1 & s2 & idxs & E1 & Er & Hlen & Hin & E2 & Hs2 & _).
  unfold main, ensure_dir. rewrite E1, Er, E2. destruct (zip_files _ _ s2) as [s3 zr] eqn:Ez.
  split; [done|]. split.
  - cbn. by rewrite length_map, Hlen, Z2Nat.id.
  - intros i Hi. apply notebook_read; [done|lia|].
    replace s3 with (zip_files (path_join repo_root (g_outdir a ++ ".zip"))
                       (map (fun i => path_join (path_join repo_root (g_outdir a)) (notebook_name i)) idxs) s2).1
      by by rewrite Ez.
    rewrite zip_files_other by apply zip_not_notebook. by apply Hs2, Hin.
Qed.

(** C36. When the directory of [<outdir>.zip] exists, the generator also
    prints ["Zip created: ..."] and the archive holds exactly the
    notebooks [1..count], in order, each under its base name with the
    bytes written to the output directory. *)
Theorem main_zips_notebooks repo_root a s :
  (0 <= g_count a)%Z -> path_join repo_root (g_outdir a) <> "" ->
  is_Some (lookup_dir (dirname (path_join repo_root (g_outdir a ++ ".zip"))) s) ->
  let zp := path_join repo_root (g_outdir a ++ ".zip") in
  let '(s', out, r) := main repo_root a s in
  r = Ok tt /\ out !! 1%nat = Some ("Zip created: " ++ zp) /\
  lookup_file (dirname zp) (basename zp) s' =
    Some (Archive (map (fun k => let i := (1 + Z.of_nat k)%Z in (notebook_name i, notebook_bytes i))
                       (seq 0 (Z.to_nat (g_count a))))).
Proof.
  intros Hc Hd Hz zp.
  destruct (main_loop_ok repo_root a s Hc Hd) as (s1 & s2 & idxs & E1 & Er & Hlen & Hin & E2 & Hs2 & _ & Hd2 & _).
  set (outdir := path_join repo_root (g_outdir a)) in *.
  destruct (zip_files_ok zp (map (fun i => path_join outdir (notebook_name i)) idxs) (map notebook_bytes idxs) s2)
    as (s3 & Ez & Ha).
  - by apply Hd2.
  - apply Forall2_fmap, Forall_Forall2_diag, Forall_forall. intros i Hi. unfold compose.
    apply notebook_read; [done|apply Hin in Hi; lia|by apply Hs2].
  - apply Forall_fmap, Forall_forall. intros i Hi. unfold compose. rewrite basename_join.
    + rewrite dirname_join by (try apply notebook_name_no_slash; apply Hin in Hi; lia || done).
      apply zip_not_notebook.
    + apply notebook_name_no_slash. apply Hin in Hi. lia.
    + done.
  - unfold main, ensure_dir. fold outdir. rewrite E1, Er, E2. fold zp. rewrite Ez. split; [done|]. split; [done|].
    rewrite Ha. do 2 f_equal. rewrite py_range_1 in Er. injection Er as <-.
    replace (g_count a + 1 - 1)%Z with (g_count a) by lia.
    rewrite !map_map, zip_map_same. apply map_ext. intros k. cbn.
    rewrite basename_join; [done| |done]. apply notebook_name_no_slash. lia.
Qed.

(** The file system after a successful run: the notebooks are in the
    output directory, every other file that is not a [.zip] is as before,
    no directory disappears, and file names stay free of slashes. *)
Lemma main_files repo_root a s :
  (0 <= g_count a)%Z -> path_join repo_root (g_outdir a) <> "" ->
  let s' := (main repo_root a s).1.1 in
  (forall i, (1 <= i <= g_count a)%Z ->
     lookup_file (path_join repo_root (g_outdir a)) (notebook_name i) s' = Some (Blob (notebook_bytes i))) /\
  (forall d n, (forall i, (1 <= i <= g_count a)%Z ->
                 (dir_key d, n) <> (dir_key (path_join repo_root (g_outdir a)), notebook_name i)) ->
     ~ str_suffix ".zip" n -> lookup_file d n s' = lookup_file d n s) /\
  (forall d, is_Some (lookup_dir d s) -> is_Some (lookup_dir d s')) /\
  is_Some (lookup_dir (path_join repo_root (g_outdir a)) s') /\
  (fs_wf s -> fs_wf s').
Proof.
  intros Hc Hd s'.
  destruct (main_loop_ok repo_root a s Hc Hd) as (s1 & s2 & idxs & E1 & Er & _ & Hin & E2 & Hs2 & Hf2 & Hd2 & Hx2).
  set (zp := path_join repo_root (g_outdir a ++ ".zip")).
  assert (Hs' : s' = (zip_files zp (map (fun i => path_join (path_join repo_root (g_outdir a)) (notebook_name i)) idxs) s2).1).
  { unfold s', main, ensure_dir. rewrite E1, Er, E2. fold zp. by destruct (zip_files _ _ s2). }
  assert (Hz : forall d n, ~ str_suffix ".zip" n -> lookup_file d n s' = lookup_file d n s2).
  { intros d n Hn. rewrite Hs'. apply zip_files_other. intros [= _ Hb]. apply Hn. rewrite Hb.
    by apply basename_join_ext. }
  split; [|split; [|split; [|split]]].
  - intros i Hi. rewrite Hz; [by apply Hs2, Hin|]. intros Hzip.
    apply (suffix_exclusive ".zip" ".ipynb" (notebook_name i)); [done|apply notebook_name_ipynb|done..].
  - intros d n Hne Hn. rewrite Hz by done. apply Hf2. intros i Hi. by apply Hne, Hin.
  - intros d Hd0. rewrite Hs'. by apply zip_files_dirs, Hd2.
  - rewrite Hs'. by apply zip_files_dirs.
  - intros Hwf. rewrite Hs'. apply fs_wf_zip_files.
    pose proof (gen_loop_wf (path_join repo_root (g_outdir a)) idxs s1 (fs_wf_makedirs _ _ _ Hwf E1)) as H.
    by rewrite E2 in H.
Qed.

(** ** Witnesses: three notebooks under [/repo/gen] *)

Definition sample_fs : fs := {[ "/repo" := ∅ ]}.

Lemma main_writes_notebooks_witness :
  let '(s', out, r) := main "/repo" (mk_gen_args 3 "gen") sample_fs in
  r = Ok tt /\ head out = Some "Created 3 notebooks in: /repo/gen" /\
  read_path "/repo/gen/notebook_002.ipynb" s' = Ok (utf8 (dump_indent (notebook_spec 2))).
Proof.
  pose proof (main_writes_notebooks "/repo" (mk_gen_args 3 "gen") sample_fs ltac:(cbn; lia)
    ltac:(vm_compute; discriminate)) as H.
  destruct (main _ _ _) as [[s' out] r]. destruct H as (Hr & Hh & Hf).
  split; [done|]. split; [exact Hh|]. exact (Hf 2%Z ltac:(cbn; lia)).
Defined.

Lemma main_zips_notebooks_witness :
  let '(s', out, r) := main "/repo" (mk_gen_args 3 "gen") sample_fs in
  out !! 1%nat = Some "Zip created: /repo/gen.zip" /\
  lookup_file "/repo" "gen.zip" s' =
    Some (Archive [("notebook_001.ipynb", notebook_bytes 1); ("notebook_002.ipynb", notebook_bytes 2);
                   ("notebook_003.ipynb", notebook_bytes 3)]).
Proof.
  pose proof (main_zips_notebooks "/repo" (mk_gen_args 3 "gen") sample_fs ltac:(cbn; lia)
    ltac:(vm_compute; discriminate) ltac:(exists ∅; reflexivity)) as H.
  cbv zeta in H. destruct (main _ _ _) as [[s' out] r]. destruct H as (_ & Ho & Ha).
  split; [exact Ho|]. exact Ha.
Defined.

(** [--count -5]: no notebook, an empty zip, a normal report. *)
Lemma main_no_notebooks_witness :
  let zp := path_join "/repo" ("gen" ++ ".zip") in
  let '(s', out, r) := main "/repo" (mk_gen_args (-5) "gen") sample_fs in
  r = Ok tt /\
  out = ["Created 0 notebooks in: " ++ path_join "/repo" "gen"; "Zip created: " ++ zp] /\
  lookup_file (dirname zp) (basename zp) s' = Some (Archive []) /\
  forall i, lookup_file (path_join "/repo" "gen") (notebook_name i) s' =
            lookup_file (path_join "/repo" "gen") (notebook_name i) sample_fs.
Proof.
  exact (main_no_notebooks "/repo" (mk_gen_args (-5) "gen") sample_fs ltac:(cbn; lia)
           ltac:(vm_compute; discriminate) ltac:(eexists; vm_compute; reflexivity)).
Defined.

End Generator.
