(* ===== verification/Converter.v ===== *)
(** * [convert_to_fabric_items.py]: notebooks to item definitions

    [convert_one] is one iteration of the loop of [convert_all] (lines
    52-69): read the notebook, encode it in base64, take the index after
    the last ["_"] of the stem, build the [.platform] metadata with
    [displayName = f"Generated Notebook {int(idx)}"], serialise it
    compactly and encode it, and write [json.dump(make_item(...),
    indent=2)] to [item_<stem>.json] of the output directory.
    [convert_all] creates the output directory, globs [*.ipynb] of the
    source directory in sorted order, runs the loop (an exception aborts
    it, the files written so far stay), and zips the items to
    [os.path.join(os.path.dirname(out), os.path.basename(out) + ".zip")];
    an exception while zipping only drops the zip path. *)

From Stdlib Require Import ZArith Lia Ascii String.
From S2P Require Import Prelude PyStr Base64 Json FileSys Paths.

Local Open Scope string_scope.

Module Converter.

(** [ensure_dir(path)]: [os.makedirs(path, exist_ok=True)]. *)
Definition ensure_dir (path : string) (s : fs) : res fs := makedirs path s.

Definition payload_part (path payload : string) : json :=
  JDict [("path", JStr path); ("payload", JStr payload); ("payloadType", JStr "InlineBase64")].

(** [make_item(json_b64, platform_b64=None)]: the [.platform] part only
    when [platform_b64] is truthy (not [None], not empty). *)
Definition make_item (json_b64 : string) (platform_b64 : option string) : json :=
  let parts := [payload_part "artifact.content.ipynb" json_b64] in
  let parts :=
    match platform_b64 with
    | Some (String _ _ as p) => (parts ++ [payload_part ".platform" p])%list
    | _ => parts
    end in
  JDict [("format", JStr "ipynb"); ("parts", JList parts)].

Definition platform_obj (idx : Z) : json :=
  JDict [("kernel_info", JDict [("name", JStr "synapse_pyspark")]); ("dependencies", JDict []);
         ("displayName", JStr ("Generated Notebook " ++ str_of_int idx));
         ("metadata", JDict [("language", JStr "python"); ("language_group", JStr "synapse_pyspark")])].

(** [fp.stem.split("_")[-1]] *)
Definition stem_index (name : string) : res string := list_last (str_split "_" (path_stem name)).

Definition item_name (name : string) : string := "item_" ++ path_stem name ++ ".json".

(** One iteration of the loop, on the file [name] of [src_dir]. *)
Definition convert_one (src_dir out_dir name : string) (s : fs) : res (fs * string) :=
  let fp := path_join src_dir name in
  let? data := read_path fp s in
  let b64 := b64encode data in
  let? idx := stem_index name in
  let? k := py_int idx in
  let platform_json := dumps_compact (platform_obj k) in
  let platform_b64 := b64encode (utf8 platform_json) in
  let item := make_item b64 (Some platform_b64) in
  let? _ := stem_index name in
  let out_path := path_join out_dir (item_name name) in
  let? s' := write_path out_path (utf8 (dump_indent item)) s in
  Ok (s', out_path).

Fixpoint convert_loop (src_dir out_dir : string) (names : list string) (s : fs) : fs * res (list string) :=
  match names with
  | [] => (s, Ok [])
  | n :: names' =>
      match convert_one src_dir out_dir n s with
      | Raise e => (s, Raise e)
      | Ok (s1, p) => let '(s2, r) := convert_loop src_dir out_dir names' s1 in (s2, res_map (cons p) r)
      end
  end.

Definition zip_path_of (out_dir : string) : string :=
  path_join (dirname out_dir) (basename out_dir ++ ".zip").

(** [convert_all(src_dir, out_dir)]: the created paths and the zip path. *)
Definition convert_all (src_dir out_dir : string) (s : fs) : fs * res (list string * option string) :=
  match ensure_dir out_dir s with
  | Raise e => (s, Raise e)
  | Ok s1 =>
      let names := glob src_dir "" ".ipynb" s1 in
      let '(s2, r) := convert_loop src_dir out_dir names s1 in
      match r with
      | Raise e => (s2, Raise e)
      | Ok created =>
          let zp := zip_path_of out_dir in
          let '(s3, zr) := zip_files zp created s2 in
          (s3, Ok (created, match zr with Ok _ => Some zp | Raise _ => None end))
      end
  end.

Record conv_args : Type := mk_conv_args {
  c_src : string;
  c_out : string
}.

Definition main (a : conv_args) (s : fs) : fs * list string * res unit :=
  let '(s', r) := convert_all (c_src a) (c_out a) s in
  match r with
  | Raise e => (s', [], Raise e)
  | Ok (created, zp) =>
      (s', ("Created " ++ str_of_int (Z.of_nat (length created)) ++ " item JSON files in: " ++ c_out a)
             :: match zp with Some (String _ _ as z) => ["Zip created: " ++ z] | _ => [] end,
       Ok tt)
  end.

(** ** The item of one notebook *)

Definition item_json (data : list Byte.byte) (k : Z) : json :=
  make_item (b64encode data) (Some (b64encode (utf8 (dumps_compact (platform_obj k))))).

Definition item_bytes (data : list Byte.byte) (k : Z) : list Byte.byte := utf8 (dump_indent (item_json data k)).

(** ** Lemmas *)

Lemma item_name_no_slash n : no_slash n = true -> no_slash (item_name n) = true.
Proof. intros Hn. unfold item_name. rewrite !no_slash_append, path_stem_no_slash by done. done. Qed.

Lemma item_name_inj n m : item_name n = item_name m -> path_stem n = path_stem m.
Proof. unfold item_name. intros H. by apply str_app_inv_l, str_app_inv_r in H. Qed.

Lemma item_name_json n : str_suffix ".json" (item_name n).
Proof. exists ("item_" ++ path_stem n). unfold item_name. by rewrite str_app_assoc. Qed.

(** An item file is never a notebook, nor the zip. *)
Lemma item_not_notebook d d' n m : str_suffix ".ipynb" m -> (dir_key d, m) <> (dir_key d', item_name n).
Proof. intros Hm [= _ ->]. by apply (suffix_exclusive ".ipynb" ".json" (item_name n)); [|apply item_name_json|..]. Qed.

Lemma item_not_zip d out n :
  (dir_key d, item_name n) <> (dir_key (dirname (zip_path_of out)), basename (zip_path_of out)).
Proof.
  intros [= _ Hb]. apply (suffix_exclusive ".zip" ".json" (item_name n)); [|apply item_name_json|done..].
  rewrite Hb. by apply basename_join_ext.
Qed.

Lemma item_read out n data s :
  out <> "" -> no_slash n = true -> lookup_file out (item_name n) s = Some (Blob data) ->
  read_path (path_join out (item_name n)) s = Ok data.
Proof. intros Hd Hn. by apply read_join, item_name_no_slash. Qed.

Lemma convert_one_ok src out n s data idx k :
  out <> "" -> no_slash n = true -> is_Some (lookup_dir out s) ->
  read_path (path_join src n) s = Ok data -> stem_index n = Ok idx -> py_int idx = Ok k ->
  exists s', convert_one src out n s = Ok (s', path_join out (item_name n)) /\
    lookup_file out (item_name n) s' = Some (Blob (item_bytes data k)) /\
    (forall d x, (dir_key d, x) <> (dir_key out, item_name n) -> lookup_file d x s' = lookup_file d x s) /\
    (forall d, is_Some (lookup_dir d s) -> is_Some (lookup_dir d s')).
Proof.
  intros Hd Hn Hex Hr Hs Hk. unfold convert_one. rewrite Hr, Hs. cbn [res_bind]. rewrite Hk. cbn [res_bind].
  destruct (write_join_ok out (item_name n) Hd (item_name_no_slash n Hn) (item_bytes data k) s Hex)
    as (s' & E & Hl & Hf & _ & Hdirs).
  unfold item_bytes, item_json in E. rewrite E. eexists; split; [done|]. auto.
Qed.

(** Writing an item never changes what a notebook reads. *)
Lemma notebook_read_frame src out n m s s' :
  src <> "" -> no_slash m = true -> str_suffix ".ipynb" m ->
  (forall d x, (dir_key d, x) <> (dir_key out, item_name n) -> lookup_file d x s' = lookup_file d x s) ->
  read_path (path_join src m) s' = read_path (path_join src m) s.
Proof.
  intros Hs Hm Hsuf Hf. apply read_path_frame, Hf. rewrite basename_join by done.
  by apply item_not_notebook.
Qed.

Section Loop.
Context (src out : string) (Hsrc : src <> "") (Hout : out <> "").

Definition convertible (s : fs) (m : string) : Prop :=
  no_slash m = true /\ str_suffix ".ipynb" m /\
  exists data idx k, read_path (path_join src m) s = Ok data /\ stem_index m = Ok idx /\ py_int idx = Ok k.

Lemma convert_loop_ok names s :
  Forall (convertible s) names -> NoDup (map path_stem names) -> is_Some (lookup_dir out s) ->
  exists s', convert_loop src out names s = (s', Ok (map (fun m => path_join out (item_name m)) names)) /\
    (forall m data idx k, m ∈ names -> read_path (path_join src m) s = Ok data -> stem_index m = Ok idx ->
       py_int idx = Ok k -> lookup_file out (item_name m) s' = Some (Blob (item_bytes data k))) /\
    (forall d x, (forall m, m ∈ names -> (dir_key d, x) <> (dir_key out, item_name m)) ->
       lookup_file d x s' = lookup_file d x s) /\
    (forall d, is_Some (lookup_dir d s) -> is_Some (lookup_dir d s')).
Proof.
  revert s. induction names as [|m0 names IH]; intros s Hc Hnd Hex.
  { exists s. repeat split; [set_solver..|done]. }
  apply Forall_cons in Hc as [(Hn0 & Hsuf0 & data0 & idx0 & k0 & Hr0 & Hs0 & Hk0) Hc].
  apply NoDup_cons in Hnd as [Hnin Hnd].
  destruct (convert_one_ok src out m0 s data0 idx0 k0 Hout Hn0 Hex Hr0 Hs0 Hk0) as (s1 & E1 & Hl1 & Hf1 & Hd1).
  assert (Hread : forall m, convertible s m -> read_path (path_join src m) s1 = read_path (path_join src m) s)
    by (intros m (Hm & Hsuf & _); by apply (notebook_read_frame src out m0)).
  destruct (IH s1) as (s2 & E2 & Hl2 & Hf2 & Hd2); [|done|by apply Hd1|].
  { eapply Forall_impl; [exact Hc|]. intros m Hm. pose proof (Hread m Hm) as E.
    destruct Hm as (? & ? & data & idx & k & ? & ? & ?). split; [done|]. split; [done|].
    exists data, idx, k. by rewrite E. }
  exists s2. cbn [convert_loop]. rewrite E1, E2. split; [done|]. split; [|split].
  - intros m data idx k [->|Hin]%elem_of_cons Hr Hs Hk.
    + rewrite Hf2; [congruence|]. intros m Hm Heq. apply Hnin.
      assert (Hst : item_name m0 = item_name m) by congruence.
      apply item_name_inj in Hst. rewrite Hst. by apply list_elem_of_fmap_2.
    + apply (Hl2 m data idx k Hin); [|done..]. rewrite Hread; [done|]. by rewrite Forall_forall in Hc; apply Hc.
  - intros d x Hne. rewrite Hf2, Hf1; [done| |].
    + apply Hne, list_elem_of_here.
    + intros m Hm. apply Hne. by apply list_elem_of_further.
  - auto.
Qed.

End Loop.

Lemma convert_loop_wf src out names s : fs_wf s -> fs_wf (convert_loop src out names s).1.
Proof.
  revert s. induction names as [|n names IH]; intros s Hs; [done|]. cbn [convert_loop].
  destruct (convert_one src out n s) as [[s1 p]|e] eqn:E; [|done].
  assert (Hs1 : fs_wf s1).
  { unfold convert_one in E. destruct (read_path _ s); cbn in E; [|done].
    destruct (stem_index n); cbn in E; [|done]. destruct (py_int _); cbn in E; [|done].
    destruct (write_path _ _ s) as [s1'|] eqn:Ew; cbn in E; [|done]. injection E as <- _.
    by apply (fs_wf_write_path _ _ _ _ Hs Ew). }
  pose proof (IH s1 Hs1) as H. by destruct (convert_loop src out names s1).
Qed.

(** The file system after a successful conversion: the items are in the
    output directory, every other file that is not a [.zip] is as before,
    and file names stay free of slashes. *)
Lemma convert_all_ok src out s :
  src <> "" -> out <> "" ->
  NoDup (map path_stem (glob src "" ".ipynb" s)) ->
  Forall (fun m => no_slash m = true /\ exists data idx k,
            read_path (path_join src m) s = Ok data /\ stem_index m = Ok idx /\ py_int idx = Ok k)
         (glob src "" ".ipynb" s) ->
  let '(s', r) := convert_all src out s in
  exists zp, r = Ok (map (fun m => path_join out (item_name m)) (glob src "" ".ipynb" s), zp) /\
    (forall m data idx k, m ∈ glob src "" ".ipynb" s ->
      read_path (path_join src m) s = Ok data -> stem_index m = Ok idx -> py_int idx = Ok k ->
      lookup_file out (item_name m) s' = Some (Blob (item_bytes data k))) /\
    (forall d n, (forall m, m ∈ glob src "" ".ipynb" s -> (dir_key d, n) <> (dir_key out, item_name m)) ->
       ~ str_suffix ".zip" n -> lookup_file d n s' = lookup_file d n s) /\
    is_Some (lookup_dir out s') /\
    (fs_wf s -> fs_wf s').
Proof.
  intros Hsrc Hout Hnd Hc. destruct (makedirs_ok out s Hout) as (s1 & E1 & Hex & Hf1).
  assert (Hr1 : forall m, read_path (path_join src m) s1 = read_path (path_join src m) s)
    by (intros m; by apply read_path_frame).
  unfold convert_all, ensure_dir. rewrite E1, (glob_makedirs _ _ _ _ _ _ E1).
  set (names := glob src "" ".ipynb" s) in *.
  destruct (convert_loop_ok src out Hsrc Hout names s1) as (s2 & E2 & Hl2 & Hf2 & Hx2); [|done..|].
  { rewrite Forall_forall in Hc |- *. intros m Hm. destruct (Hc m Hm) as (Hn & data & idx & k & Hr & Hs & Hk).
    split; [done|]. split; [by eapply glob_match_suffix, glob_elem|].
    exists data, idx, k. by rewrite Hr1. }
  pose proof (convert_loop_wf src out names s1) as Hw2. rewrite E2 in Hw2. cbn in Hw2.
  rewrite E2. set (paths := map _ names).
  assert (Hz : forall d n, ~ str_suffix ".zip" n -> lookup_file d n (zip_files (zip_path_of out) paths s2).1 = lookup_file d n s2).
  { intros d n Hn. apply zip_files_other. intros [= _ Hb]. apply Hn. rewrite Hb.
    by apply basename_join_ext. }
  pose proof (zip_files_dirs (zip_path_of out) paths s2 out (Hx2 _ Hex)) as Hx3.
  pose proof (fs_wf_zip_files (zip_path_of out) paths s2) as Hw3.
  destruct (zip_files _ _ s2) as [s3 zr] eqn:Ez. cbn in Hz, Hx3, Hw3. eexists; split; [done|].
  split; [|split; [|split]].
  - intros m data idx k Hm Hr Hs Hk. rewrite Hz; [apply (Hl2 m data idx k Hm); [by rewrite Hr1|done..]|].
    intros Hzip. by apply (suffix_exclusive ".zip" ".json" (item_name m)); [|apply item_name_json|..].
  - intros d n Hne Hn. by rewrite Hz, Hf2, Hf1.
  - done.
  - intros Hw. by apply Hw3, Hw2, (fs_wf_makedirs _ _ _ Hw E1).
Qed.

(** C22. The converter writes one item per notebook: when every
    [*.ipynb] of the source directory is readable, has an integer index and
    a distinct stem, [convert_all] returns the item paths in the sorted
    order of the notebooks, and the item of notebook [m] holds
    [json.dump(make_item(b64(data), b64(platform(k))), indent=2)] for the
    notebook's bytes [data] and its index [k]. *)
Theorem convert_all_items src out s :
  src <> "" -> out <> "" ->
  NoDup (map path_stem (glob src "" ".ipynb" s)) ->
  Forall (fun m => no_slash m = true /\ exists data idx k,
            read_path (path_join src m) s = Ok data /\ stem_index m = Ok idx /\ py_int idx = Ok k)
         (glob src "" ".ipynb" s) ->
  let '(s', r) := convert_all src out s in
  exists zp, r = Ok (map (fun m => path_join out (item_name m)) (glob src "" ".ipynb" s), zp) /\
    forall m data idx k, m ∈ glob src "" ".ipynb" s ->
      read_path (path_join src m) s = Ok data -> stem_index m = Ok idx -> py_int idx = Ok k ->
      read_path (path_join out (item_name m)) s' = Ok (item_bytes data k).
Proof.
  intros Hsrc Hout Hnd Hc. pose proof (convert_all_ok src out s Hsrc Hout Hnd Hc) as H.
  destruct (convert_all src out s) as [s' r]. destruct H as (zp & Hr & Hl & _). exists zp. split; [done|].
  intros m data idx k Hm Hrd Hs Hk. rewrite Forall_forall in Hc. apply item_read; [done|by apply Hc|].
  exact (Hl m data idx k Hm Hrd Hs Hk).
Qed.

Lemma platform_b64_cons k : exists c t, b64encode (utf8 (dumps_compact (platform_obj k))) = String c t.
Proof.
  assert (Hu : exists b bs, utf8 (dumps_compact (platform_obj k)) = b :: bs) by (eexists _, _; reflexivity).
  destruct Hu as (b & bs & ->). apply b64encode_cons.
Qed.

(** An item has the content part and, the platform blob being non-empty,
    the [.platform] part. *)
Lemma item_json_parts data k :
  item_json data k =
    JDict [("format", JStr "ipynb");
           ("parts", JList [payload_part "artifact.content.ipynb" (b64encode data);
                            payload_part ".platform" (b64encode (utf8 (dumps_compact (platform_obj k))))])].
Proof. unfold item_json, make_item. by destruct (platform_b64_cons k) as (c & t & ->). Qed.


Lemma convert_loop_error src out names1 m names2 s data idx e :
  src <> "" -> out <> "" -> is_Some (lookup_dir out s) -> Forall (convertible src s) names1 ->
  no_slash m = true -> str_suffix ".ipynb" m ->
  read_path (path_join src m) s = Ok data -> stem_index m = Ok idx -> py_int idx = Raise e ->
  exists s', convert_loop src out (names1 ++ m :: names2)%list s = (s', Raise e).
Proof.
  intros Hsrc Hout. revert s. induction names1 as [|m0 names1 IH]; intros s Hex Hc Hm Hsuf Hr Hs Hk.
  - exists s. cbn. unfold convert_one. by rewrite Hr, Hs; cbn [res_bind]; rewrite Hk.
  - apply Forall_cons in Hc as [(Hn0 & Hsuf0 & data0 & idx0 & k0 & Hr0 & Hs0 & Hk0) Hc].
    destruct (convert_one_ok src out m0 s data0 idx0 k0 Hout Hn0 Hex Hr0 Hs0 Hk0) as (s1 & E1 & _ & Hf1 & Hd1).
    assert (Hread : forall x, no_slash x = true -> str_suffix ".ipynb" x ->
                    read_path (path_join src x) s1 = read_path (path_join src x) s)
      by (intros x ??; by apply (notebook_read_frame src out m0)).
    destruct (IH s1 (Hd1 _ Hex)) as (s2 & E2); [|exact Hm|exact Hsuf|rewrite Hread; [exact Hr|exact Hm|exact Hsuf]|exact Hs|exact Hk|].
    + eapply Forall_impl; [exact Hc|]. intros x (Hx & Hsx & d & i & k & Hrx & ?). split; [done|].
      split; [done|]. exists d, i, k. by rewrite Hread.
    + exists s2. cbn [app convert_loop]. by rewrite E1, E2.
Qed.

(** C26. A notebook whose stem does not end in an integer stops the
    conversion with the [ValueError] of [int()] (it "fails loudly"): the
    notebooks before it in sorted order are converted, no zip is
    made. *)
Theorem convert_all_bad_index src out s names1 m names2 data idx :
  src <> "" -> out <> "" ->
  glob src "" ".ipynb" s = (names1 ++ m :: names2)%list ->
  Forall (convertible src s) names1 -> no_slash m = true ->
  read_path (path_join src m) s = Ok data -> stem_index m = Ok idx -> py_int idx = Raise (int_error idx) ->
  exists s', convert_all src out s = (s', Raise (ValueError ("invalid literal for int() with base 10: '" ++ idx ++ "'"))).
Proof.
  intros Hsrc Hout Hg Hc Hm Hr Hs Hk. destruct (makedirs_ok out s Hout) as (s1 & E1 & Hex & Hf1).
  assert (Hr1 : forall x, read_path (path_join src x) s1 = read_path (path_join src x) s)
    by (intros x; by apply read_path_frame).
  unfold convert_all, ensure_dir. rewrite E1, (glob_makedirs _ _ _ _ _ _ E1), Hg.
  destruct (convert_loop_error src out names1 m names2 s1 data idx (int_error idx)) as (s2 & E2);
    [done|done|done| |done| |by rewrite Hr1|done|done|].
  - eapply Forall_impl; [exact Hc|]. intros x (Hx & Hsx & d & i & k & Hrx & ?). split; [done|].
    split; [done|]. exists d, i, k. by rewrite Hr1.
  - eapply glob_match_suffix, (glob_elem src "" ".ipynb" s). rewrite Hg. apply elem_of_app. right. apply list_elem_of_here.
  - exists s2. by rewrite E2.
Qed.

Lemma zip_path_of_cons d : exists c t, zip_path_of d = String c t.
Proof.
  destruct (path_join_suffix (dirname d) (basename d ++ ".zip")) as [r Hr]. unfold zip_path_of. rewrite Hr.
  destruct r as [|c r]; [|by eexists _, _]. rewrite str_app_nil_l.
  destruct (basename d) as [|c b]; by eexists _, _.
Qed.

(** C27. An empty or missing source directory is not an error: the
    converter creates the output directory, writes no item, still opens
    the zip (an archive with no member, when the directory it goes into
    exists), and reports ["Created 0 item JSON files"] and the zip. *)
Theorem main_empty_src a s :
  c_out a <> "" -> glob (c_src a) "" ".ipynb" s = [] ->
  is_Some (lookup_dir (dirname (zip_path_of (c_out a))) s) ->
  let '(s', out, r) := main a s in
  r = Ok tt /\
  out = ["Created 0 item JSON files in: " ++ c_out a; "Zip created: " ++ zip_path_of (c_out a)] /\
  lookup_file (dirname (zip_path_of (c_out a))) (basename (zip_path_of (c_out a))) s' = Some (Archive []).
Proof.
  intros Hout Hg Hz. destruct (makedirs_ok (c_out a) s Hout) as (s1 & E1 & _ & _).
  destruct (zip_files_ok (zip_path_of (c_out a)) [] [] s1) as (s2 & E2 & Ha);
    [exact (makedirs_dirs _ _ _ _ E1 Hz)|constructor|constructor|].
  unfold main, convert_all, ensure_dir. rewrite E1, (glob_makedirs _ _ _ _ _ _ E1), Hg. cbn [convert_loop].
  rewrite E2. destruct (zip_path_of_cons (c_out a)) as (c & t & Ec). rewrite Ec in Ha |- *. by split.
Qed.

(** C29. The zip of the converter sits beside the output directory only
    when [--out] has no trailing slash: for ["d"] it is ["d.zip"], but for
    ["d/"] [basename] is empty and the archive is the hidden file
    ["d/.zip"] inside the output directory. *)
Theorem zip_path_trailing_slash d :
  d <> "" -> no_slash d = true ->
  zip_path_of d = d ++ ".zip" /\ zip_path_of (d ++ "/") = d ++ "/.zip".
Proof.
  intros Hd Hn. unfold zip_path_of. split.
  - by rewrite dirname_no_slash, basename_no_slash, path_join_empty.
  - rewrite dirname_trailing_slash, basename_trailing_slash by done. rewrite str_app_nil_l.
    rewrite path_join_nonslash by done. rewrite bool_decide_eq_false_2, ends_with_slash_no_slash by done.
    done.
Qed.

(** C28. The example of the specification: converting
    [notebook_007.ipynb] writes [item_notebook_007.json], whose platform
    part carries [displayName = "Generated Notebook 7"]. *)
Theorem convert_notebook_007 src out s data :
  out <> "" -> is_Some (lookup_dir out s) -> read_path (path_join src "notebook_007.ipynb") s = Ok data ->
  exists s', convert_one src out "notebook_007.ipynb" s = Ok (s', path_join out "item_notebook_007.json") /\
    read_path (path_join out "item_notebook_007.json") s' = Ok (item_bytes data 7) /\
    dict_get "displayName" (match platform_obj 7 with JDict kvs => kvs | _ => [] end) =
      Some (JStr "Generated Notebook 7").
Proof.
  intros Hout Hex Hr.
  destruct (convert_one_ok src out "notebook_007.ipynb" s data "007" 7 Hout eq_refl Hex Hr eq_refl eq_refl)
    as (s' & E & Hl & _). exists s'. split; [exact E|]. split; [|reflexivity].
  exact (item_read out "notebook_007.ipynb" _ s' Hout eq_refl Hl).
Qed.

(** ** Witnesses: two notebooks of [/src] converted to [/items] *)

Definition sample_fs : fs :=
  {[ "/src" := {[ "notebook_001.ipynb" := Blob [Byte.x7b; Byte.x7d];
                  "notebook_002.ipynb" := Blob [Byte.x5b; Byte.x5d] ]} ]}.

Lemma convert_all_items_witness :
  let '(s', r) := convert_all "/src" "/items" sample_fs in
  exists zp, r = Ok (["/items/item_notebook_001.json"; "/items/item_notebook_002.json"], zp) /\
    read_path "/items/item_notebook_002.json" s' = Ok (item_bytes [Byte.x5b; Byte.x5d] 2).
Proof.
  assert (Hg : glob "/src" "" ".ipynb" sample_fs = ["notebook_001.ipynb"; "notebook_002.ipynb"])
    by reflexivity.
  assert (Hnd : NoDup (map path_stem (glob "/src" "" ".ipynb" sample_fs)))
    by (rewrite Hg; vm_compute; apply NoDup_cons; split; [rewrite list_elem_of_singleton; discriminate|apply NoDup_singleton]).
  assert (Hc : Forall (fun m => no_slash m = true /\ exists data idx k,
            read_path (path_join "/src" m) sample_fs = Ok data /\ stem_index m = Ok idx /\ py_int idx = Ok k)
         (glob "/src" "" ".ipynb" sample_fs)).
  { rewrite Hg. constructor; [|constructor; [|constructor]]; (split; [vm_compute; reflexivity|]).
    - exists [Byte.x7b; Byte.x7d], "001", 1%Z. split; [vm_compute; reflexivity|split; vm_compute; reflexivity].
    - exists [Byte.x5b; Byte.x5d], "002", 2%Z. split; [vm_compute; reflexivity|split; vm_compute; reflexivity]. }
  pose proof (convert_all_items "/src" "/items" sample_fs ltac:(discriminate) ltac:(discriminate) Hnd Hc)
    as H. rewrite Hg in H.
  destruct (convert_all _ _ _) as [s' r]. destruct H as (zp & Hr & Hf). exists zp. split; [exact Hr|].
  apply (Hf "notebook_002.ipynb" [Byte.x5b; Byte.x5d] "002" 2%Z);
    [apply list_elem_of_further, list_elem_of_here|vm_compute; reflexivity..].
Defined.


Definition bad_fs : fs :=
  {[ "/src" := {[ "notebook_001.ipynb" := Blob [Byte.x7b; Byte.x7d]; "notes.ipynb" := Blob [Byte.x7b; Byte.x7d] ]} ]}.

Lemma convert_all_bad_index_witness :
  exists s', convert_all "/src" "/items" bad_fs =
    (s', Raise (ValueError "invalid literal for int() with base 10: 'notes'")).
Proof.
  assert (Hg : glob "/src" "" ".ipynb" bad_fs = (["notebook_001.ipynb"] ++ "notes.ipynb" :: [])%list)
    by reflexivity.
  assert (Hc : Forall (convertible "/src" bad_fs) ["notebook_001.ipynb"]).
  { constructor; [|constructor]. split; [vm_compute; reflexivity|]. split; [by exists "notebook_001"|].
    exists [Byte.x7b; Byte.x7d], "001", 1%Z. split; [vm_compute; reflexivity|split; vm_compute; reflexivity]. }
  exact (convert_all_bad_index "/src" "/items" bad_fs ["notebook_001.ipynb"] "notes.ipynb" [] [Byte.x7b; Byte.x7d]
    "notes" ltac:(discriminate) ltac:(discriminate) Hg Hc ltac:(vm_compute; reflexivity)
    ltac:(vm_compute; reflexivity) ltac:(vm_compute; reflexivity) ltac:(vm_compute; reflexivity)).
Defined.

Lemma zip_path_trailing_slash_witness :
  zip_path_of "generated_items" = "generated_items.zip" /\
  zip_path_of "generated_items/" = "generated_items/.zip".
Proof. exact (zip_path_trailing_slash "generated_items" ltac:(discriminate) ltac:(vm_compute; reflexivity)). Defined.


Lemma convert_notebook_007_witness :
  exists s', convert_one "/src" "/items" "notebook_007.ipynb"
      {[ "/src" := {[ "notebook_007.ipynb" := Blob [Byte.x7b; Byte.x7d] ]}; "/items" := ∅ ]} =
    Ok (s', "/items/item_notebook_007.json") /\
    read_path "/items/item_notebook_007.json" s' = Ok (item_bytes [Byte.x7b; Byte.x7d] 7).
Proof.
  destruct (convert_notebook_007 "/src" "/items"
      {[ "/src" := {[ "notebook_007.ipynb" := Blob [Byte.x7b; Byte.x7d] ]}; "/items" := ∅ ]}
      [Byte.x7b; Byte.x7d] ltac:(discriminate) ltac:(exists ∅; reflexivity) ltac:(vm_compute; reflexivity))
    as (s' & E & Hr & _).
  exists s'. split; [exact E|exact Hr].
Defined.

(** A mistyped [--src]: nothing converted, an empty zip, a normal report. *)
Lemma main_empty_src_witness :
  let '(s', out, r) := main (mk_conv_args "/srcs" "/src/items") sample_fs in
  r = Ok tt /\
  out = ["Created 0 item JSON files in: /src/items"; "Zip created: /src/items.zip"] /\
  lookup_file "/src" "items.zip" s' = Some (Archive []).
Proof.
  exact (main_empty_src (mk_conv_args "/srcs" "/src/items") sample_fs ltac:(discriminate)
           ltac:(reflexivity) ltac:(eexists; reflexivity)).
Defined.

End Converter.
