(* ===== verification/Rewriter.v ===== *)
(** * [update_items_with_template.py]: the template rewriter

    [update_all] (lines 32-62): with [backup], remove an existing
    [<src>_bak] and copy [<src>] there; then glob [item_*.json] of [<src>]
    in sorted order and overwrite the [i]-th file (from 1) with
    [json.dump(obj, indent=2)] of the fixed object whose [displayName] is
    ["Notebook i"] and whose [parts] are [TEMPLATE_PARTS]; finally zip the
    rewritten files to [<src>/updated_items.zip], printing the zip path or
    the exception. [copytree] copies the one directory [<src>] (item
    directories are flat); [os.path.exists(backup_dir)] is the test of
    [FileSys.exists_dir]. *)

From Stdlib Require Import ZArith Lia Ascii String.
From S2P Require Import Prelude PyStr Base64 Json FileSys Paths Generator Converter.

Local Open Scope string_scope.

Module Rewriter.

(** The two payloads of [TEMPLATE_PARTS], split over lines. *)
Definition notebook_payload : string :=
  "ewogICJuYmZvcm1hdCI6IDQsCiAgIm5iZm9ybWF0X21pbm9yIjogNSwKICAiY2VsbHMiOiBbCiAgICB7CiAgICAg"
  ++ "ICJjZWxsX3R5cGUiOiAibWFya2Rvd24iLAogICAgICAibWV0YWRhdGEiOiB7CiAgICAgICAgImxhbmd1YWdlIjog"
  ++ "Im1hcmtkb3duIgogICAgICB9LAogICAgICAic291cmNlIjogWwogICAgICAgICIjIE5vdGVib29rIiwKICAgICAg"
  ++ "ICAiR2VuZXJhdGVkIG5vdGVib29rICMxIGZvciBGYWJyaWMgaW1wb3J0LiIKICAgICAgXQogICAgfSwKICAgIHsK"
  ++ "ICAgICAgImNlbGxfdHlwZSI6ICJjb2RlIiwKICAgICAgIm1ldGFkYXRhIjogewogICAgICAgICJsYW5ndWFnZSI6"
  ++ "ICJweXRob24iCiAgICAgIH0sCiAgICAgICJleGVjdXRpb25fY291bnQiOiBudWxsLAogICAgICAib3V0cHV0cyI6"
  ++ "IFtdLAogICAgICAic291cmNlIjogWwogICAgICAgICIjIFNhbXBsZSBjZWxsIiwKICAgICAgICAicHJpbnQoXCJI"
  ++ "ZWxsbyBmcm9tIGdlbmVyYXRlZCBub3RlYm9va1wiKSIKICAgICAgXQogICAgfQogIF0sCiAgIm1ldGFkYXRhIjog"
  ++ "ewogICAgImxhbmd1YWdlX2luZm8iOiB7CiAgICAgICJuYW1lIjogInB5dGhvbiIKICAgIH0KICB9Cn0=".

Definition platform_payload : string :=
  "eyJrZXJuZWxfaW5mbyI6eyJuYW1lIjoic3luYXBzZV9weXNwYXJrIn0sImRlcGVuZGVuY2llcyI6e30sImRpc3Bs"
  ++ "YXlOYW1lIjoiR2VuZXJhdGVkIE5vdGVib29rIDEiLCJtZXRhZGF0YSI6eyJsYW5ndWFnZSI6InB5dGhvbiIsImxh"
  ++ "bmd1YWdlX2dyb3VwIjoic3luYXBzZV9weXNwYXJrIn19".

Definition template_part (path payload : string) : json :=
  JDict [("path", JStr path); ("payload", JStr payload); ("payloadType", JStr "InlineBase64")].

Definition TEMPLATE_PARTS : json :=
  JList [template_part "notebook-content.py" notebook_payload; template_part ".platform" platform_payload].

(** The object written to the [i]-th file. *)
Definition item_obj (i : Z) : json :=
  JDict [("displayName", JStr ("Notebook " ++ str_of_int i)); ("description", JStr "A notebook description");
         ("type", JStr "Notebook"); ("parts", TEMPLATE_PARTS)].

Definition item_obj_bytes (i : Z) : list Byte.byte := utf8 (dump_indent (item_obj i)).

(** [for i, fp in enumerate(files, start=1)]: overwrite each file. *)
Fixpoint rewrite_loop (src_dir : string) (i : Z) (files : list string) (s : fs) : fs * res unit :=
  match files with
  | [] => (s, Ok tt)
  | f :: files' =>
      match write_path (path_join src_dir f) (item_obj_bytes i) s with
      | Raise e => (s, Raise e)
      | Ok s1 => rewrite_loop src_dir (i + 1) files' s1
      end
  end.

(** The [if backup:] block: the final state, the printed lines. *)
Definition make_backup (src_dir : string) (s : fs) : fs * list string * res unit :=
  let backup_dir := src_dir ++ "_bak" in
  let s1 := if exists_dir backup_dir s then rmtree backup_dir s else s in
  match copytree src_dir backup_dir s1 with
  | Raise e => (s1, [], Raise e)
  | Ok s2 => (s2, ["Backup created: " ++ backup_dir], Ok tt)
  end.

(** [update_all(src_dir, backup)]: the final state, the printed lines and
    the outcome. *)
Definition update_all (src_dir : string) (backup : bool) (s : fs) : fs * list string * res unit :=
  let '(s1, out1, r1) := if backup then make_backup src_dir s else (s, [], Ok tt) in
  match r1 with
  | Raise e => (s1, out1, Raise e)
  | Ok _ =>
      let files := glob src_dir "item_" ".json" s1 in
      match rewrite_loop src_dir 1 files s1 with
      | (s2, Raise e) => (s2, out1, Raise e)
      | (s2, Ok _) =>
          let zip_path := path_join src_dir "updated_items.zip" in
          let paths := map (path_join src_dir) files in
          match zip_files zip_path paths s2 with
          | (s3, Ok _) => (s3, app out1 ["Created zip: " ++ zip_path], Ok tt)
          | (s3, Raise e) => (s3, app out1 ["Failed to create zip: " ++ exn_str e], Ok tt)
          end
      end
  end.

Record rw_args : Type := mk_rw_args {
  rw_src : string;
  rw_backup : bool
}.

Definition main (a : rw_args) (s : fs) : fs * list string * res unit := update_all (rw_src a) (rw_backup a) s.

(** ** Lemmas *)

Section Loop.
Context (src : string) (Hsrc : src <> "").

Lemma rewrite_loop_ok i files s :
  NoDup files -> Forall (fun f => no_slash f = true) files -> is_Some (lookup_dir src s) ->
  exists s', rewrite_loop src i files s = (s', Ok tt) /\
    (forall j f, files !! j = Some f -> lookup_file src f s' = Some (Blob (item_obj_bytes (i + Z.of_nat j)))) /\
    (forall d x, (forall f, f ∈ files -> (dir_key d, x) <> (dir_key src, f)) -> lookup_file d x s' = lookup_file d x s) /\
    (forall d, dir_key d <> dir_key src -> lookup_dir d s' = lookup_dir d s) /\
    is_Some (lookup_dir src s').
Proof.
  revert i s. induction files as [|f files IH]; intros i s Hnd Hns Hex.
  { exists s. split; [done|]. split; [by intros []|]. done. }
  apply NoDup_cons in Hnd as [Hnin Hnd]. apply Forall_cons in Hns as [Hf Hns].
  destruct (write_join_ok src f Hsrc Hf (item_obj_bytes i) s Hex) as (s1 & E1 & Hl1 & Hf1 & Hd1 & Hx1).
  destruct (IH (i + 1)%Z s1 Hnd Hns (Hx1 _ Hex)) as (s2 & E2 & Hl2 & Hf2 & Hd2 & Hx2).
  exists s2. cbn [rewrite_loop]. rewrite E1, E2. split; [done|]. split; [|split; [|split]].
  - intros [|j] g Hg; cbn in Hg.
    + injection Hg as <-. rewrite Hf2; [by rewrite Z.add_0_r|]. intros g Hg [= ->]. contradiction.
    + rewrite (Hl2 j g Hg). do 3 f_equal. lia.
  - intros d x Hne. rewrite Hf2, Hf1; [done| |].
    + apply Hne, list_elem_of_here.
    + intros g Hg. apply Hne. by apply list_elem_of_further.
  - intros d Hne. by rewrite Hd2, Hd1.
  - done.
Qed.

End Loop.

Lemma make_backup_ok src s :
  src <> "" -> is_Some (lookup_dir src s) ->
  exists s1, make_backup src s = (s1, ["Backup created: " ++ src ++ "_bak"], Ok tt) /\
    lookup_dir (src ++ "_bak") s1 = lookup_dir src s /\
    (forall d, dir_key d <> dir_key (src ++ "_bak") -> lookup_dir d s1 = lookup_dir d s) /\
    (forall d x, dir_key d <> dir_key (src ++ "_bak") -> lookup_file d x s1 = lookup_file d x s).
Proof.
  intros Hsrc [files Hfiles]. pose proof (dir_key_append_ne src "_bak" ltac:(done) eq_refl) as Hne.
  set (s0 := if exists_dir (src ++ "_bak") s then rmtree (src ++ "_bak") s else s).
  assert (H0 : forall d, dir_key d <> dir_key (src ++ "_bak") -> lookup_dir d s0 = lookup_dir d s).
  { intros d Hd. unfold s0, lookup_dir. destruct (exists_dir _ s); [|done].
    unfold rmtree. by rewrite lookup_delete_ne. }
  assert (Hb0 : exists_dir (src ++ "_bak") s0 = false).
  { unfold s0. destruct (exists_dir _ s) eqn:E; [|done]. unfold exists_dir, lookup_dir, rmtree.
    rewrite lookup_delete_eq. by apply bool_decide_eq_false_2, is_Some_None. }
  unfold make_backup. fold s0. unfold copytree.
  rewrite (H0 src) by (intros H; by apply Hne). rewrite Hfiles, Hb0.
  eexists; split; [done|]. split; [|split].
  - unfold lookup_dir at 1. by rewrite lookup_insert_eq.
  - intros d Hd. unfold lookup_dir at 1. rewrite lookup_insert_ne by done. by apply H0.
  - intros d x Hd. unfold lookup_file, lookup_dir at 1. rewrite lookup_insert_ne by done.
    by rewrite <- (H0 d Hd).
Qed.

Definition zip_name : string := "updated_items.zip".

(** The rewritten files, in order, as the archive holds them. *)
Definition rewritten_entries (files : list string) : list (string * list Byte.byte) :=
  zip files (map (fun j => item_obj_bytes (1 + Z.of_nat j)) (seq 0 (length files))).

Lemma item_not_zip_name src d f : str_suffix ".json" f -> (dir_key d, f) <> (dir_key src, zip_name).
Proof.
  intros Hf [= _ ->]. by apply (suffix_exclusive ".json" ".zip" zip_name); [|exists "updated_items"|..].
Qed.

(** The backup phase leaves [<src>] and every file outside the backup
    directory as they were. *)
Lemma backup_phase src (backup : bool) s :
  src <> "" -> is_Some (lookup_dir src s) ->
  exists s1, (if backup then make_backup src s else (s, [], Ok tt)) =
               (s1, if backup then ["Backup created: " ++ src ++ "_bak"] else [], Ok tt) /\
    lookup_dir src s1 = lookup_dir src s /\
    (backup = true -> lookup_dir (src ++ "_bak") s1 = lookup_dir src s).
Proof.
  intros Hsrc Hex. destruct backup; [|by exists s].
  destruct (make_backup_ok src s Hsrc Hex) as (s1 & E & Hb & Hd & _). exists s1. split; [done|].
  split; [|done]. apply Hd. intros H. by apply (dir_key_append_ne src "_bak").
Qed.

Lemma update_all_ok src (backup : bool) s :
  fs_wf s -> src <> "" -> is_Some (lookup_dir src s) ->
  let files := glob src "item_" ".json" s in
  let '(s', out, r) := update_all src backup s in
  r = Ok tt /\
  out = app (if backup then ["Backup created: " ++ src ++ "_bak"] else []) ["Created zip: " ++ path_join src zip_name] /\
  (forall j f, files !! j = Some f -> lookup_file src f s' = Some (Blob (item_obj_bytes (1 + Z.of_nat j)))) /\
  lookup_file src zip_name s' = Some (Archive (rewritten_entries files)) /\
  (backup = true -> lookup_dir (src ++ "_bak") s' = lookup_dir src s).
Proof.
  intros Hwf Hsrc Hex files.
  destruct (backup_phase src backup s Hsrc Hex) as (s1 & E1 & Hsrc1 & Hbak1).
  assert (Hg : glob src "item_" ".json" s1 = files) by by apply glob_same_dir.
  assert (Hsuf : forall f, f ∈ files -> no_slash f = true /\ str_suffix ".json" f)
    by (intros f Hf; split; [by eapply glob_no_slash|by eapply glob_match_suffix, glob_elem]).
  destruct (rewrite_loop_ok src Hsrc 1 files s1) as (s2 & E2 & Hl2 & Hf2 & Hd2 & Hx2);
    [apply glob_NoDup|apply Forall_forall; intros f Hf; by apply Hsuf|by rewrite Hsrc1|].
  assert (Hzd : dir_key (dirname (path_join src zip_name)) = dir_key src) by by apply dirname_join.
  assert (Hzb : basename (path_join src zip_name) = zip_name) by by apply basename_join.
  assert (Hnz : forall f d, f ∈ files -> (dir_key d, f) <>
                  (dir_key (dirname (path_join src zip_name)), basename (path_join src zip_name)))
    by (intros f d Hf; rewrite Hzd, Hzb; apply item_not_zip_name, Hsuf, Hf).
  destruct (zip_files_ok (path_join src zip_name) (map (path_join src) files)
              (map (fun j => item_obj_bytes (1 + Z.of_nat j)) (seq 0 (length files))) s2) as (s3 & E3 & Ha3).
  - by rewrite (lookup_dir_key _ src).
  - rewrite <- (length_map (path_join src) files). apply Forall2_indexed. intros j q Hq.
    apply list_lookup_fmap_Some in Hq as (f & -> & Hf). apply read_join; [done| |by apply Hl2].
    apply Hsuf. by eapply list_elem_of_lookup_2.
  - apply Forall_fmap, Forall_forall. intros f Hf. unfold compose.
    rewrite basename_join by (done || by apply Hsuf). apply Hnz, Hf.
  - unfold update_all. rewrite E1, Hg, E2. cbn zeta. fold zip_name. rewrite E3. split; [done|]. split; [done|].
    assert (Hz3 : forall d x, (dir_key d, x) <> (dir_key src, zip_name) -> lookup_file d x s3 = lookup_file d x s2).
    { intros d x Hne. replace s3 with (zip_files (path_join src zip_name) (map (path_join src) files) s2).1
        by by rewrite E3.
      apply zip_files_other. by rewrite Hzd, Hzb. }
    split; [|split].
    + intros j f Hf. rewrite Hz3; [by apply Hl2|]. apply item_not_zip_name, Hsuf. by eapply list_elem_of_lookup_2.
    + assert (Hk : lookup_file src zip_name s3 =
        lookup_file (dirname (path_join src zip_name)) (basename (path_join src zip_name)) s3)
        by (rewrite Hzb; by apply lookup_file_key).
      rewrite Hk, Ha3.
      unfold rewritten_entries. do 3 f_equal. rewrite map_map. rewrite <- (map_id files) at 2.
      apply map_ext_in. intros f Hf%list_elem_of_In. apply basename_join; [by apply Hsuf|done].
    + intros Hb. replace s3 with (zip_files (path_join src zip_name) (map (path_join src) files) s2).1
        by by rewrite E3.
      rewrite zip_files_dir_other, Hd2; [by apply Hbak1| |];
        [|rewrite Hzd]; intros H; by apply (dir_key_append_ne src "_bak").
Qed.

(** C30. The rewriter overwrites the [j]-th [item_*.json] of the source
    directory in sorted order (from 0) with the fixed object whose
    [displayName] is ["Notebook j+1"]: the name depends on the rank only,
    not on the old content; the run returns normally. *)
Theorem update_all_ranks src (backup : bool) s :
  fs_wf s -> src <> "" -> is_Some (lookup_dir src s) ->
  let '(s', _, r) := update_all src backup s in
  r = Ok tt /\
  forall j f, glob src "item_" ".json" s !! j = Some f ->
    read_path (path_join src f) s' = Ok (utf8 (dump_indent (item_obj (1 + Z.of_nat j)))).
Proof.
  intros Hwf Hsrc Hex. pose proof (update_all_ok src backup s Hwf Hsrc Hex) as H. cbv zeta in H.
  destruct (update_all src backup s) as [[s' out] r]. destruct H as (Hr & _ & Hl & _).
  split; [done|]. intros j f Hf. apply read_join; [done| |by apply Hl].
  by eapply glob_no_slash, list_elem_of_lookup_2.
Qed.

(** C32. After rewriting, the run prints the backup line (with
    [--backup]) and ["Created zip: <src>/updated_items.zip"], and the
    archive holds the rewritten files in sorted order under their names. *)
Theorem update_all_zip src (backup : bool) s :
  fs_wf s -> src <> "" -> is_Some (lookup_dir src s) ->
  let '(s', out, _) := update_all src backup s in
  out = app (if backup then ["Backup created: " ++ src ++ "_bak"] else [])
            ["Created zip: " ++ path_join src "updated_items.zip"] /\
  lookup_file src "updated_items.zip" s' = Some (Archive (rewritten_entries (glob src "item_" ".json" s))).
Proof.
  intros Hwf Hsrc Hex. pose proof (update_all_ok src backup s Hwf Hsrc Hex) as H. cbv zeta in H.
  destruct (update_all src backup s) as [[s' out] r]. by destruct H as (_ & Ho & _ & Ha & _).
Qed.

(** C31. With [--backup] (the default), [<src>_bak] ends up as a copy of
    the source directory as it was before the run, an older backup being
    replaced. *)
Theorem update_all_backup src s :
  fs_wf s -> src <> "" -> is_Some (lookup_dir src s) ->
  lookup_dir (src ++ "_bak") (update_all src true s).1.1 = lookup_dir src s.
Proof.
  intros Hwf Hsrc Hex. pose proof (update_all_ok src true s Hwf Hsrc Hex) as H. cbv zeta in H.
  destruct (update_all src true s) as [[s' out] r]. destruct H as (_ & _ & _ & _ & Hb). by apply Hb.
Qed.

(** C33. A missing source directory: with [--backup] [copytree] raises
    [FileNotFoundError] and nothing is printed; without it nothing is
    rewritten, the zip cannot be created and the failure is printed, but
    the run returns normally. *)
Theorem update_all_missing_src src s :
  lookup_dir src s = None -> lookup_dir (dirname (path_join src "updated_items.zip")) s = None ->
  (exists s', update_all src true s = (s', [], Raise (FileNotFoundError src))) /\
  update_all src false s =
    (s, ["Failed to create zip: [Errno 2] No such file or directory: '" ++
         path_join (dirname (path_join src "updated_items.zip")) (basename (path_join src "updated_items.zip"))
         ++ "'"], Ok tt).
Proof.
  intros Hsrc Hzip. split.
  - unfold update_all, make_backup, copytree.
    set (s1 := if exists_dir (src ++ "_bak") s then rmtree (src ++ "_bak") s else s).
    assert (Hs1 : lookup_dir src s1 = None).
    { unfold s1. destruct (exists_dir _ s); [|done]. unfold lookup_dir, rmtree.
      rewrite lookup_delete_ne; [done|]. intros H. apply (dir_key_append_ne src "_bak"); [done|done|by rewrite H]. }
    rewrite Hs1. by exists s1.
  - unfold update_all. assert (Hg : glob src "item_" ".json" s = []) by (unfold glob; by rewrite Hsrc).
    rewrite Hg. cbn -[zip_files path_join]. unfold zip_files, write_archive, put_file. by rewrite Hzip.
Qed.


(** ** Witnesses on a directory of two items and a note *)

Definition sample_fs : fs :=
  {[ "/items" := {[ "item_b.json" := Blob [Byte.x7b; Byte.x7d]; "item_a.json" := Blob [Byte.x5b; Byte.x5d];
                    "notes.txt" := Blob [] ]};
     "/items_bak" := {[ "stale.json" := Blob [] ]} ]}.

Lemma sample_fs_wf : fs_wf sample_fs.
Proof. apply fs_wf_check. vm_compute. reflexivity. Qed.

Lemma update_all_ranks_witness :
  let '(s', _, r) := update_all "/items" true sample_fs in
  r = Ok tt /\ read_path "/items/item_b.json" s' = Ok (utf8 (dump_indent (item_obj 2))).
Proof.
  pose proof (update_all_ranks "/items" true sample_fs sample_fs_wf ltac:(discriminate)
    ltac:(eexists; reflexivity)) as H.
  destruct (update_all _ _ _) as [[s' out] r]. destruct H as [Hr Hf]. split; [exact Hr|].
  exact (Hf 1 "item_b.json" eq_refl).
Defined.

Lemma update_all_zip_witness :
  let '(s', out, _) := update_all "/items" false sample_fs in
  out = ["Created zip: /items/updated_items.zip"] /\
  lookup_file "/items" "updated_items.zip" s' =
    Some (Archive [("item_a.json", item_obj_bytes 1); ("item_b.json", item_obj_bytes 2)]).
Proof.
  pose proof (update_all_zip "/items" false sample_fs sample_fs_wf ltac:(discriminate)
    ltac:(eexists; reflexivity)) as H.
  destruct (update_all _ _ _) as [[s' out] r]. exact H.
Defined.

Lemma update_all_backup_witness :
  lookup_dir "/items_bak" (update_all "/items" true sample_fs).1.1 = lookup_dir "/items" sample_fs.
Proof.
  exact (update_all_backup "/items" sample_fs sample_fs_wf ltac:(discriminate) ltac:(eexists; reflexivity)).
Defined.

Lemma update_all_missing_src_witness :
  (exists s', update_all "/nowhere" true sample_fs = (s', [], Raise (FileNotFoundError "/nowhere"))) /\
  update_all "/nowhere" false sample_fs =
    (sample_fs, ["Failed to create zip: [Errno 2] No such file or directory: '/nowhere/updated_items.zip'"], Ok tt).
Proof.
  exact (update_all_missing_src "/nowhere" sample_fs eq_refl eq_refl).
Defined.

End Rewriter.
