(* ===== verification/Schema.v ===== *)
(** * The shapes of the JSON documents the tools write

    The data model of the repository fixes three document types: the
    notebook ([nbformat] 4 with a markdown and a code cell and a metadata
    map), the item definition (a [format] tag, or after the rewrite a
    [displayName], [description] and [type], then an ordered array of
    parts [{path, payload, payloadType: "InlineBase64"}], at least the
    primary content part), and the platform metadata blob ([kernel_info],
    [dependencies], [displayName], [metadata]). This file states those
    shapes as values of a small schema language, with a checker
    [conforms], and shows that every document [generate_notebooks.py],
    [convert_to_fabric_items.py] and [update_items_with_template.py] write,
    and the metadata blob the converter embeds, has its shape: keys in the
    order the code inserts them, strings where strings are expected, and
    payloads that are base64 text that decodes. *)

From Stdlib Require Import ZArith Lia Ascii String.
From S2P Require Import Prelude PyStr Base64 Json Generator Converter Rewriter.

Local Open Scope string_scope.
#[local] Set Warnings "-register-all".

Module Schema.

Inductive schema : Type :=
| SAny
| SNull
| SInt
| SStr
| SB64                                     (** a string that base64-decodes *)
| SConst (c : string)
| SList (sc : schema)                      (** a list, every element of [sc] *)
| SListNE (sc : schema)                    (** the same, not empty *)
| STuple (scs : list schema)               (** a list of this length, elementwise *)
| SMap (sc : schema)                       (** an object, any keys, every value of [sc] *)
| SObj (fields : list (string * schema))   (** exactly these keys, in this order *)
| SOneOf (alts : list schema).

Fixpoint conforms (sc : schema) (v : json) {struct sc} : bool :=
  match sc, v with
  | SAny, _ => true
  | SNull, JNull => true
  | SInt, JInt _ => true
  | SStr, JStr _ => true
  | SB64, JStr s => match b64decode s with Some _ => true | None => false end
  | SConst c, JStr s => String.eqb s c
  | SList sc', JList l => forallb (conforms sc') l
  | SListNE sc', JList (_ :: _ as l) => forallb (conforms sc') l
  | STuple scs, JList l =>
      (fix elems scs l :=
         match scs, l with
         | [], [] => true
         | sc' :: scs', x :: l' => conforms sc' x && elems scs' l'
         | _, _ => false
         end) scs l
  | SMap sc', JDict kvs => forallb (fun kv => conforms sc' kv.2) kvs
  | SObj fs, JDict kvs =>
      (fix fields fs kvs :=
         match fs, kvs with
         | [], [] => true
         | (k, sc') :: fs', (k', x) :: kvs' => String.eqb k k' && conforms sc' x && fields fs' kvs'
         | _, _ => false
         end) fs kvs
  | SOneOf alts, _ => existsb (fun sc' => conforms sc' v) alts
  | _, _ => false
  end.

(** ** The document types *)

Definition part_schema : schema :=
  SObj [("path", SStr); ("payload", SB64); ("payloadType", SConst "InlineBase64")].

(** The converter's item: [format] then the parts. *)
Definition converted_item_schema : schema := SObj [("format", SStr); ("parts", SListNE part_schema)].

(** The rewriter's item. *)
Definition rewritten_item_schema : schema :=
  SObj [("displayName", SStr); ("description", SStr); ("type", SStr); ("parts", SListNE part_schema)].

(** An item definition is one or the other. *)
Definition item_schema : schema := SOneOf [converted_item_schema; rewritten_item_schema].

Definition platform_schema : schema :=
  SObj [("kernel_info", SObj [("name", SStr)]); ("dependencies", SMap SAny); ("displayName", SStr);
        ("metadata", SObj [("language", SStr); ("language_group", SStr)])].

Definition markdown_cell_schema : schema :=
  SObj [("cell_type", SConst "markdown"); ("metadata", SMap SAny); ("source", SList SStr)].

Definition code_cell_schema : schema :=
  SObj [("cell_type", SConst "code"); ("metadata", SMap SAny); ("execution_count", SOneOf [SNull; SInt]);
        ("outputs", SList SAny); ("source", SList SStr)].

(** A notebook: the format-version pair, one markdown and one code cell,
    a metadata map. *)
Definition notebook_schema : schema :=
  SObj [("nbformat", SInt); ("nbformat_minor", SInt); ("cells", STuple [markdown_cell_schema; code_cell_schema]);
        ("metadata", SMap SAny)].

(** C24. Every document the tools write has its type: the converter's item
    JSON for any notebook bytes and index is a converted item definition
    whose parts hold base64 text, the metadata blob it embeds is a
    platform object, the object the rewriter writes for rank [i] is a
    rewritten item definition (its fixed payloads decode too), and the
    generator's notebook [i] is an [nbformat] notebook with one markdown
    and one code cell. *)
Theorem outputs_typed data k i :
  conforms converted_item_schema (Converter.item_json data k) = true /\
  conforms platform_schema (Converter.platform_obj k) = true /\
  conforms rewritten_item_schema (Rewriter.item_obj i) = true /\
  exists nb, Generator.notebook_data i = Ok nb /\ conforms notebook_schema nb = true.
Proof.
  split; [rewrite Converter.item_json_parts; cbn -[b64encode b64decode];
          unfold b64decode; by rewrite !b64_dec_encode_string|].
  split; [reflexivity|]. split; [vm_compute; reflexivity|].
  exists (Generator.notebook_spec i). split; [apply Generator.notebook_data_spec|reflexivity].
Qed.

End Schema.
