(* ===== verification/Pipeline.v ===== *)
(** * The tools in sequence: generate, convert, rewrite

    The scripts compose through directories: [generate_notebooks.py]
    fills a fresh directory with [notebook_{i:03d}.ipynb], and
    [convert_to_fabric_items.py] run on it writes one
    [item_notebook_{i:03d}.json] per notebook into a fresh item directory,
    which [update_items_with_template.py] then rewrites. The theorems here
    follow the files through the three tools: which files each directory
    holds, in which (sorted) order each tool sees them, and what each file
    contains at the end. Sorting is by code point, so the order of the
    names is the numeric order of the indexes only while they have three
    digits ([count <= 999]); the ranks of a 1000-notebook run are computed
    exactly. *)

From Stdlib Require Import ZArith Lia Ascii String.
From S2P Require Import Prelude PyStr Base64 Json FileSys Paths Generator Converter Rewriter.

Local Open Scope string_scope.

Module Pipeline.

(** The names the generator gives to notebooks [1..count], in index order. *)
Definition notebook_names (count : nat) : list string :=
  map (fun k => Generator.notebook_name (1 + Z.of_nat k)) (seq 0 count).

(** The items the converter makes of them. *)
Definition item_names (count : nat) : list string := map Converter.item_name (notebook_names count).

(** Names given by [f] to [1, 2, ..., n + 1] ascend. *)
Definition names_ascending (f : Z -> string) (n : nat) : bool :=
  forallb (fun k => String.leb (f (1 + Z.of_nat k)%Z) (f (2 + Z.of_nat k)%Z)) (seq 0 n).

(** ** Names *)

Lemma notebook_stem i : (0 <= i)%Z -> path_stem (Generator.notebook_name i) = "notebook_" ++ format_03d i.
Proof.
  intros Hi. unfold path_stem, Generator.notebook_name.
  replace ("notebook_" ++ format_03d i ++ ".ipynb") with
    (String.append ("notebook_" ++ format_03d i) (String "." "ipynb")) by (by rewrite <- str_app_assoc).
  rewrite split_last_sep by reflexivity. by rewrite bool_decide_eq_true_2.
Qed.

Lemma format_03d_no_underscore i : (0 <= i)%Z ->
  str_forall (fun x => bool_decide (x <> "_"%char)) (format_03d i) = true.
Proof.
  intros Hi. apply (str_forall_impl is_digit); [|by apply format_03d_digits].
  intros c Hc. apply bool_decide_eq_true. by intros ->.
Qed.

Lemma notebook_stem_index i : (0 <= i)%Z -> Converter.stem_index (Generator.notebook_name i) = Ok (format_03d i).
Proof.
  intros Hi. unfold Converter.stem_index. rewrite notebook_stem by done.
  change ("notebook_" ++ format_03d i) with (String.append "notebook" (String "_" (format_03d i))).
  by apply list_last_split_sep, format_03d_no_underscore.
Qed.

Lemma format_03d_int i : (0 <= i)%Z -> py_int (format_03d i) = Ok i.
Proof. intros Hi. unfold format_03d. rewrite format_0d_nonneg by done. by apply py_int_zero_pad. Qed.

Lemma item_name_notebook i : (0 <= i)%Z ->
  Converter.item_name (Generator.notebook_name i) = "item_notebook_" ++ format_03d i ++ ".json".
Proof. intros Hi. unfold Converter.item_name. rewrite notebook_stem by done. by rewrite <- str_app_assoc. Qed.

Lemma notebook_names_elem count n :
  n ∈ notebook_names count <-> exists i, (1 <= i <= Z.of_nat count)%Z /\ n = Generator.notebook_name i.
Proof.
  unfold notebook_names. rewrite list_elem_of_fmap. setoid_rewrite elem_of_seq. split.
  - intros (k & -> & _ & Hk). exists (1 + Z.of_nat k)%Z. split; [lia|done].
  - intros (i & Hi & ->). exists (Z.to_nat (i - 1)). split; [f_equal; lia|lia].
Qed.

Lemma notebook_names_NoDup count : NoDup (notebook_names count).
Proof.
  apply NoDup_fmap_2_strong; [|apply NoDup_seq].
  intros k1 k2 _ _ H. apply Generator.notebook_name_inj in H; lia.
Qed.

Lemma notebook_stems_NoDup count : NoDup (map path_stem (notebook_names count)).
Proof.
  unfold notebook_names. rewrite map_map. apply NoDup_fmap_2_strong; [|apply NoDup_seq].
  intros k1 k2 _ _ H. rewrite !notebook_stem in H by lia.
  apply str_app_inv_l, format_03d_inj in H; lia.
Qed.

Lemma names_sorted (f : Z -> string) count :
  count <= 999 -> names_ascending f 998 = true ->
  Sorted String.le (map (fun k => f (1 + Z.of_nat k)%Z) (seq 0 count)).
Proof.
  intros Hc Hasc. apply sorted_map_seq. intros k _ Hk.
  unfold names_ascending in Hasc. rewrite forallb_forall in Hasc.
  specialize (Hasc k ltac:(apply in_seq; lia)). apply Is_true_true.
  by replace (1 + Z.of_nat (S k))%Z with (2 + Z.of_nat k)%Z by lia.
Qed.

(** Three-digit names ascend with their index (checked for all 999). *)
Lemma notebook_names_ascending : names_ascending Generator.notebook_name 998 = true.
Proof. vm_compute. reflexivity. Qed.

Lemma item_names_ascending :
  names_ascending (fun i => Converter.item_name (Generator.notebook_name i)) 998 = true.
Proof. vm_compute. reflexivity. Qed.

Lemma notebook_names_match count :
  Forall (fun n => glob_match "" ".ipynb" n = true) (notebook_names count).
Proof.
  apply Forall_forall. intros n (i & _ & ->)%notebook_names_elem. unfold Generator.notebook_name.
  exact (glob_match_intro "" ("notebook_" ++ format_03d i) ".ipynb").
Qed.

Lemma item_names_match count : Forall (fun n => glob_match "item_" ".json" n = true) (item_names count).
Proof.
  apply Forall_forall. intros n (m & -> & (i & Hi & ->)%notebook_names_elem)%list_elem_of_fmap.
  rewrite item_name_notebook by lia. exact (glob_match_intro "item_" ("notebook_" ++ format_03d i) ".json").
Qed.

Lemma item_names_elem count n :
  n ∈ item_names count <->
  exists i, (1 <= i <= Z.of_nat count)%Z /\ n = Converter.item_name (Generator.notebook_name i).
Proof.
  unfold item_names. rewrite list_elem_of_fmap. setoid_rewrite notebook_names_elem. naive_solver.
Qed.

Lemma item_names_NoDup count : NoDup (item_names count).
Proof.
  apply NoDup_fmap_2_strong; [|apply notebook_names_NoDup].
  intros m1 m2 (i & Hi & ->)%notebook_names_elem (j & Hj & ->)%notebook_names_elem H.
  apply Converter.item_name_inj in H. rewrite !notebook_stem in H by lia.
  by apply str_app_inv_l, format_03d_inj in H as ->; [|lia..].
Qed.

Lemma merge_sort_id (l : list string) : Sorted String.le l -> merge_sort String.le l = l.
Proof.
  intros Hl. apply (Sorted_unique String.le); [apply Sorted_merge_sort; typeclasses eauto|done|].
  apply merge_sort_Permutation.
Qed.

(** ** The generator's output directory *)

Section Generated.
Context (repo_root : string) (a : Generator.gen_args) (s : fs).
Context (Hc : (0 <= Generator.g_count a)%Z) (Hd : path_join repo_root (Generator.g_outdir a) <> "").
Context (Hfresh : lookup_dir (path_join repo_root (Generator.g_outdir a)) s = None).

(** In a fresh output directory the generator's notebooks are the only
    [*.ipynb] files; a glob sees them in index order while they have
    three digits. *)
Lemma generated_ipynb n :
  glob_match "" ".ipynb" n = true ->
  is_Some (lookup_file (path_join repo_root (Generator.g_outdir a)) n (Generator.main repo_root a s).1.1) <->
  n ∈ notebook_names (Z.to_nat (Generator.g_count a)).
Proof.
  intros Hn. destruct (Generator.main_files repo_root a s Hc Hd) as (Hl & Hf & _).
  split.
  - intros Hs. destruct (decide (n ∈ notebook_names (Z.to_nat (Generator.g_count a)))) as [|Hnin]; [done|].
    exfalso. rewrite Hf in Hs.
    + unfold lookup_file in Hs. rewrite Hfresh in Hs. by destruct Hs.
    + intros i Hi [= Heq]. apply Hnin, notebook_names_elem. exists i. split; [lia|done].
    + intros Hz. apply (suffix_exclusive ".zip" ".ipynb" n); [done|by apply (glob_match_suffix "")|done..].
  - intros (i & Hi & ->)%notebook_names_elem. rewrite Hl by lia. by eexists.
Qed.

Lemma generated_listing :
  glob (path_join repo_root (Generator.g_outdir a)) "" ".ipynb" (Generator.main repo_root a s).1.1 =
    merge_sort String.le (notebook_names (Z.to_nat (Generator.g_count a))).
Proof.
  destruct (Generator.main_files repo_root a s Hc Hd) as (_ & _ & _ & Hx & _).
  apply glob_listing; [done|apply notebook_names_NoDup|apply notebook_names_match|apply generated_ipynb].
Qed.

Lemma generated_glob :
  Z.to_nat (Generator.g_count a) <= 999 ->
  glob (path_join repo_root (Generator.g_outdir a)) "" ".ipynb" (Generator.main repo_root a s).1.1 =
    notebook_names (Z.to_nat (Generator.g_count a)).
Proof.
  intros H999. rewrite generated_listing. apply merge_sort_id, names_sorted; [done|apply notebook_names_ascending].
Qed.

(** Each generated notebook can be read, and its name gives its index. *)
Lemma generated_readable i : (1 <= i <= Generator.g_count a)%Z ->
  read_path (path_join (path_join repo_root (Generator.g_outdir a)) (Generator.notebook_name i))
    (Generator.main repo_root a s).1.1 = Ok (Generator.notebook_bytes i) /\
  Converter.stem_index (Generator.notebook_name i) = Ok (format_03d i) /\ py_int (format_03d i) = Ok i.
Proof.
  intros Hi. destruct (Generator.main_files repo_root a s Hc Hd) as (Hl & _).
  split; [apply Generator.notebook_read; [done|lia|by apply Hl]|].
  split; [apply notebook_stem_index|apply format_03d_int]; lia.
Qed.

(** Converting the generated directory into [out] creates one item per
    notebook, in the glob's order, and holds item [i] of notebook [i]. *)
Lemma generated_convert out :
  out <> "" ->
  let s1 := (Generator.main repo_root a s).1.1 in
  let names := merge_sort String.le (notebook_names (Z.to_nat (Generator.g_count a))) in
  exists s2 zp,
    Converter.convert_all (path_join repo_root (Generator.g_outdir a)) out s1 =
      (s2, Ok (map (fun m => path_join out (Converter.item_name m)) names, zp)) /\
    (forall i, (1 <= i <= Generator.g_count a)%Z ->
       lookup_file out (Converter.item_name (Generator.notebook_name i)) s2 =
         Some (Blob (Converter.item_bytes (Generator.notebook_bytes i) i))) /\
    (forall d n, (forall m, m ∈ notebook_names (Z.to_nat (Generator.g_count a)) ->
                   (dir_key d, n) <> (dir_key out, Converter.item_name m)) ->
       ~ str_suffix ".zip" n -> lookup_file d n s2 = lookup_file d n s1) /\
    is_Some (lookup_dir out s2) /\ (fs_wf s -> fs_wf s2).
Proof.
  intros Hout s1 names. pose proof (Converter.convert_all_ok _ out s1 Hd Hout) as H.
  unfold s1 in H. rewrite generated_listing in H. fold s1 names in H.
  destruct (Generator.main_files repo_root a s Hc Hd) as (_ & _ & _ & _ & Hw).
  assert (Hp : forall m, m ∈ names <-> m ∈ notebook_names (Z.to_nat (Generator.g_count a)))
    by (intros m; apply elem_of_Permutation_proper, merge_sort_Permutation).
  assert (Hnd : NoDup (map path_stem names)).
  { eapply NoDup_Permutation_proper; [apply Permutation_map, merge_sort_Permutation|apply notebook_stems_NoDup]. }
  assert (Hok : Forall (fun m => no_slash m = true /\ exists data idx k, read_path (path_join
     (path_join repo_root (Generator.g_outdir a)) m) s1 = Ok data /\ Converter.stem_index m = Ok idx /\
     py_int idx = Ok k) names).
  { apply Forall_forall. intros m (i & Hi & ->)%Hp%notebook_names_elem.
    destruct (generated_readable i) as (Hr & Hs & Hk); [lia|].
    split; [apply Generator.notebook_name_no_slash; lia|]. by exists (Generator.notebook_bytes i), (format_03d i), i. }
  specialize (H Hnd Hok). destruct (Converter.convert_all _ out s1) as [s2 r].
  destruct H as (zp & Hr & Hl & Hf & Hx & Hw2). exists s2, zp. rewrite Hr.
  split; [done|]. split; [|split; [intros d n Hn; apply Hf; intros m Hm; apply Hn, Hp, Hm|split; [done|]]].
  - intros i Hi. destruct (generated_readable i) as (Hr' & Hs & Hk); [done|].
    apply (Hl _ _ _ _ ltac:(apply Hp, notebook_names_elem; exists i; split; [lia|done]) Hr' Hs Hk).
  - intros Hws. by apply Hw2, Hw.
Qed.

(** What the item directory holds after the conversion: the items of the
    generated notebooks, and the matching files it held before. *)
Lemma converted_item n s2 out :
  out <> "" -> glob_match "item_" ".json" n = true ->
  (forall i, (1 <= i <= Generator.g_count a)%Z ->
     is_Some (lookup_file out (Converter.item_name (Generator.notebook_name i)) s2)) ->
  (forall d n, (forall m, m ∈ notebook_names (Z.to_nat (Generator.g_count a)) ->
                 (dir_key d, n) <> (dir_key out, Converter.item_name m)) ->
     ~ str_suffix ".zip" n -> lookup_file d n s2 = lookup_file d n (Generator.main repo_root a s).1.1) ->
  is_Some (lookup_file out n s2) <->
  n ∈ item_names (Z.to_nat (Generator.g_count a)) \/ is_Some (lookup_file out n s).
Proof.
  intros Hout Hn Hl Hf. destruct (Generator.main_files repo_root a s Hc Hd) as (_ & Hg & _).
  pose proof (glob_match_suffix _ _ _ Hn) as Hj.
  assert (Hz : ~ str_suffix ".zip" n) by (intros Hz; by apply (suffix_exclusive ".zip" ".json" n)).
  destruct (decide (n ∈ item_names (Z.to_nat (Generator.g_count a)))) as [Hin|Hnin].
  - split; [intros _; by left|]. intros _. apply item_names_elem in Hin as (i & Hi & ->). apply Hl. lia.
  - assert (Hs1 : lookup_file out n (Generator.main repo_root a s).1.1 = lookup_file out n s).
    { apply Hg; [|done]. intros i _ [= _ ->].
      by apply (suffix_exclusive ".json" ".ipynb" (Generator.notebook_name i)); [|apply Generator.notebook_name_ipynb|..]. }
    rewrite Hf, Hs1; [naive_solver| |done]. intros m Hm [= ->]. apply Hnin, list_elem_of_fmap. by exists m.
Qed.

(** The three tools in sequence, for any count: the converter walks the
    notebooks in sorted order, the rewriter the items in sorted order, and
    gives the item of rank [j] (from 0) the display name [Notebook j+1]. *)
Lemma pipeline_ok out (backup : bool) :
  fs_wf s -> out <> "" ->
  (forall n, glob_match "item_" ".json" n = true -> lookup_file out n s = None) ->
  let N := Z.to_nat (Generator.g_count a) in
  let s1 := (Generator.main repo_root a s).1.1 in
  exists s2 zp,
    Converter.convert_all (path_join repo_root (Generator.g_outdir a)) out s1 =
      (s2, Ok (map (fun m => path_join out (Converter.item_name m)) (merge_sort String.le (notebook_names N)), zp)) /\
    (forall i, (1 <= i <= Generator.g_count a)%Z ->
       lookup_file out (Converter.item_name (Generator.notebook_name i)) s2 =
         Some (Blob (Converter.item_bytes (Generator.notebook_bytes i) i))) /\
    let '(s3, _, r) := Rewriter.update_all out backup s2 in
    r = Ok tt /\
    forall j f, merge_sort String.le (item_names N) !! j = Some f ->
      lookup_file out f s3 = Some (Blob (Rewriter.item_obj_bytes (1 + Z.of_nat j))).
Proof.
  intros Hwf Hout Hnone N s1. pose proof (generated_convert out Hout) as H. cbv zeta in H.
  destruct H as (s2 & zp & Ec & Hl & Hf & Hx & Hw). exists s2, zp. split; [done|]. split; [done|].
  assert (Hg : glob out "item_" ".json" s2 = merge_sort String.le (item_names N)).
  { apply glob_listing; [done|apply item_names_NoDup|apply item_names_match|].
    intros n Hn. rewrite (converted_item n s2 out Hout Hn); [|intros i Hi; rewrite Hl; [by eexists|done]|done].
    rewrite Hnone by done. split; [intros [Hin|Hin]; [done|by destruct Hin]|by left]. }
  pose proof (Rewriter.update_all_ok out backup s2 (Hw Hwf) Hout Hx) as H. cbv zeta in H. rewrite Hg in H.
  destruct (Rewriter.update_all _ _ _) as [[s3 o] r]. destruct H as (Hr & _ & Hl3 & _). by split.
Qed.

End Generated.

Lemma item_names_lookup count i : (1 <= i <= Z.of_nat count)%Z ->
  item_names count !! Z.to_nat (i - 1) = Some (Converter.item_name (Generator.notebook_name i)).
Proof.
  intros Hi. unfold item_names, notebook_names. rewrite map_map, list_lookup_fmap, lookup_seq_lt by lia.
  cbn. do 3 f_equal. lia.
Qed.

Lemma item_names_sorted count : count <= 999 -> Sorted String.le (item_names count).
Proof.
  intros Hc. unfold item_names, notebook_names. rewrite map_map.
  apply (names_sorted (fun i => Converter.item_name (Generator.notebook_name i))); [done|apply item_names_ascending].
Qed.

Lemma item_read_out out i s data : out <> "" -> (0 <= i)%Z ->
  lookup_file out (Converter.item_name (Generator.notebook_name i)) s = Some (Blob data) ->
  read_path (path_join out (Converter.item_name (Generator.notebook_name i))) s = Ok data.
Proof.
  intros Hout Hi. by apply read_join, Converter.item_name_no_slash, Generator.notebook_name_no_slash.
Qed.

(** ** The pipeline *)

(** C39. Generating [count <= 999] notebooks into a fresh directory,
    converting that directory into an item directory that holds no
    [item_*.json] yet, and rewriting the item directory: the converter
    creates the items [item_notebook_{i:03d}.json] in index order, the item
    of notebook [i] holds notebook [i] with [logicalId] [i], and after the
    rewrite it holds the template item named [Notebook i]: the rewriter's
    ranks agree with the generator's indexes. *)
Theorem pipeline_ranks repo_root a out (backup : bool) s :
  fs_wf s -> (0 <= Generator.g_count a <= 999)%Z ->
  path_join repo_root (Generator.g_outdir a) <> "" ->
  lookup_dir (path_join repo_root (Generator.g_outdir a)) s = None -> out <> "" ->
  (forall n, glob_match "item_" ".json" n = true -> lookup_file out n s = None) ->
  exists s2 zp,
    Converter.convert_all (path_join repo_root (Generator.g_outdir a)) out (Generator.main repo_root a s).1.1 =
      (s2, Ok (map (path_join out) (item_names (Z.to_nat (Generator.g_count a))), zp)) /\
    let '(s3, _, r) := Rewriter.update_all out backup s2 in
    r = Ok tt /\
    forall i, (1 <= i <= Generator.g_count a)%Z ->
      read_path (path_join out (Converter.item_name (Generator.notebook_name i))) s2 =
        Ok (Converter.item_bytes (Generator.notebook_bytes i) i) /\
      read_path (path_join out (Converter.item_name (Generator.notebook_name i))) s3 =
        Ok (utf8 (dump_indent (Rewriter.item_obj i))).
Proof.
  intros Hwf Hc Hd Hfr Hout Hnone. assert (Hc0 : (0 <= Generator.g_count a)%Z) by lia.
  pose proof (pipeline_ok repo_root a s Hc0 Hd Hfr out backup Hwf Hout Hnone) as H. cbv zeta in H.
  destruct H as (s2 & zp & Ec & Hl & H). exists s2, zp.
  rewrite merge_sort_id in Ec by (apply names_sorted; [lia|apply notebook_names_ascending]).
  rewrite merge_sort_id in H by (apply item_names_sorted; lia).
  split; [rewrite Ec; unfold item_names; by rewrite map_map|].
  destruct (Rewriter.update_all _ _ _) as [[s3 o] r]. destruct H as (Hr & H3). split; [done|]. intros i Hi.
  split; apply item_read_out; try done; try lia; [by apply Hl|].
  pose proof (H3 _ _ (item_names_lookup (Z.to_nat (Generator.g_count a)) i ltac:(lia))) as Hi3.
  by replace (1 + Z.of_nat (Z.to_nat (i - 1)))%Z with i in Hi3 by lia.
Qed.

(** C40. With 1000 notebooks the names stop sorting by index: the
    generator names the last one [notebook_1000.ipynb], which sorts between
    [notebook_100] and [notebook_101], so the rewriter gives
    [item_notebook_1000.json] the rank 101 and the display name
    [Notebook 101], and [item_notebook_101.json] the name [Notebook 102]. *)
Theorem pipeline_1000 repo_root a out (backup : bool) s :
  fs_wf s -> Generator.g_count a = 1000%Z ->
  path_join repo_root (Generator.g_outdir a) <> "" ->
  lookup_dir (path_join repo_root (Generator.g_outdir a)) s = None -> out <> "" ->
  (forall n, glob_match "item_" ".json" n = true -> lookup_file out n s = None) ->
  let s2 := (Converter.convert_all (path_join repo_root (Generator.g_outdir a)) out (Generator.main repo_root a s).1.1).1 in
  let '(s3, _, r) := Rewriter.update_all out backup s2 in
  r = Ok tt /\
  read_path (path_join out "item_notebook_1000.json") s3 = Ok (utf8 (dump_indent (Rewriter.item_obj 101))) /\
  read_path (path_join out "item_notebook_101.json") s3 = Ok (utf8 (dump_indent (Rewriter.item_obj 102))).
Proof.
  intros Hwf Hc Hd Hfr Hout Hnone. assert (Hc0 : (0 <= Generator.g_count a)%Z) by lia.
  pose proof (pipeline_ok repo_root a s Hc0 Hd Hfr out backup Hwf Hout Hnone) as H. cbv zeta in H.
  destruct H as (s2 & zp & Ec & _ & H). rewrite Ec. cbn [fst]. rewrite Hc in H.
  destruct (Rewriter.update_all _ _ _) as [[s3 o] r]. destruct H as (Hr & H3). split; [done|].
  assert (E100 : merge_sort String.le (item_names (Z.to_nat 1000)) !! 100 = Some "item_notebook_1000.json")
    by (vm_compute; reflexivity).
  assert (E101 : merge_sort String.le (item_names (Z.to_nat 1000)) !! 101 = Some "item_notebook_101.json")
    by (vm_compute; reflexivity).
  pose proof (H3 100 _ E100) as H100. pose proof (H3 101 _ E101) as H101.
  change (1 + Z.of_nat 100)%Z with 101%Z in H100. change (1 + Z.of_nat 101)%Z with 102%Z in H101.
  unfold Rewriter.item_obj_bytes in H100, H101.
  split; apply read_join; [done|reflexivity|exact H100|done|reflexivity|exact H101].
Qed.

(** ** Witnesses *)

Definition repo_fs : fs := {[ "/repo" := ∅ ]}.

Lemma repo_fs_wf : fs_wf repo_fs.
Proof. apply fs_wf_check. vm_compute. reflexivity. Qed.

Lemma repo_fs_no_items n : glob_match "item_" ".json" n = true -> lookup_file "/repo/items" n repo_fs = None.
Proof. intros _. reflexivity. Qed.

Lemma pipeline_ranks_witness :
  exists s2 zp,
    Converter.convert_all (path_join "/repo" "gen") "/repo/items"
      (Generator.main "/repo" (Generator.mk_gen_args 2 "gen") repo_fs).1.1 =
      (s2, Ok (map (path_join "/repo/items") (item_names (Z.to_nat 2)), zp)) /\
    let '(s3, _, r) := Rewriter.update_all "/repo/items" false s2 in
    r = Ok tt /\
    forall i, (1 <= i <= 2)%Z ->
      read_path (path_join "/repo/items" (Converter.item_name (Generator.notebook_name i))) s2 =
        Ok (Converter.item_bytes (Generator.notebook_bytes i) i) /\
      read_path (path_join "/repo/items" (Converter.item_name (Generator.notebook_name i))) s3 =
        Ok (utf8 (dump_indent (Rewriter.item_obj i))).
Proof.
  apply (pipeline_ranks "/repo" (Generator.mk_gen_args 2 "gen") "/repo/items" false repo_fs repo_fs_wf);
    [cbn; lia|vm_compute; discriminate|reflexivity|discriminate|exact repo_fs_no_items].
Defined.

Lemma pipeline_1000_witness :
  let s2 := (Converter.convert_all (path_join "/repo" "gen") "/repo/items"
               (Generator.main "/repo" (Generator.mk_gen_args 1000 "gen") repo_fs).1.1).1 in
  let '(s3, _, r) := Rewriter.update_all "/repo/items" true s2 in
  r = Ok tt /\
  read_path (path_join "/repo/items" "item_notebook_1000.json") s3 = Ok (utf8 (dump_indent (Rewriter.item_obj 101))) /\
  read_path (path_join "/repo/items" "item_notebook_101.json") s3 = Ok (utf8 (dump_indent (Rewriter.item_obj 102))).
Proof.
  apply (pipeline_1000 "/repo" (Generator.mk_gen_args 1000 "gen") "/repo/items" true repo_fs repo_fs_wf);
    [reflexivity|vm_compute; discriminate|reflexivity|discriminate|exact repo_fs_no_items].
Defined.

End Pipeline.
